(** * Webhook service: a shallow embedding of [app/] and its specification

    The service receives signed webhook messages over HTTP, validates them,
    stores them idempotently in one SQLite table and serves paginated
    queries, statistics and health probes.

    Part I embeds the program: Python strings and their comparison, the
    regular expressions of [app/models.py], the payload model, the SQLite
    table of [app/storage.py] with the statements the code issues, and the
    request handlers of [app/main.py] in a state-and-exception monad,
    the counters of [app/metrics.py] with their export, the configuration
    of [app/config.py], and the middleware of [app/main.py] around the
    routes.  Part II names the values the statements speak of, gives the
    fixtures of the examples and the definitions that follow the
    specification's words.  Part III states and proves the properties of
    the parts one by one, Part IV those of the store, the handlers and
    the server taken together.

    The libraries the program calls are modelled by what they do on the
    values that reach them: [re.match], pydantic's field validation,
    [hmac.compare_digest], the SQL statements, and FastAPI's
    parameter validation and exception handling.  HMAC-SHA256 itself and
    the JSON parser are parameters ([Runtime]).  Outside the model: time
    (latencies, the timing of the comparison), the request identifiers,
    concurrency between requests, and the size limits of SQLite. *)

From Stdlib Require Import ZArith NArith Ascii String.
From Stdlib.Strings Require Import Byte.
From stdpp Require Import base option list sorting gmap.

Local Open Scope N_scope.

(* ================================================================== *)
(** * Part I. The program                                              *)
(* ================================================================== *)

(** ** Python values *)

(** A Python [str] is a sequence of Unicode code points; [len] counts
    them.  [bytes] is a sequence of octets.  The strings that reach the
    handlers come from the JSON parser, from URL decoding and from the
    latin-1 decoding of a header, so they hold no surrogate code point. *)
Definition char := N.
Definition str := list char.
Definition bytes := list Byte.byte.

#[global] Instance byte_eq_dec : EqDecision Byte.byte := Byte.byte_eq_dec.

(** An ASCII literal of the source, as a [str]. *)
Definition py (s : string) : str :=
  map N_of_ascii (list_ascii_of_string s).

(** An ASCII literal as [bytes]. *)
Definition pyb (s : string) : bytes := list_byte_of_string s.

Definition in_range (lo hi c : N) : bool := (lo <=? c) && (c <=? hi).

(** Truthiness of a string: [bool(s)], [if s:] and [not s]. *)
Definition truthy (s : str) : bool :=
  match s with [] => false | _ :: _ => true end.

(** Truthiness of an [Optional[str]]: [None] and the empty string are
    both false. *)
Definition opt_truthy (o : option str) : bool :=
  match o with None => false | Some s => truthy s end.

(** Comparison of two strings, code point by code point, a proper prefix
    first.  It is what Python's [<=] on [str] does, and what SQLite's
    BINARY collation does on the UTF-8 encodings (UTF-8 preserves the
    order of code points). *)
Fixpoint str_compare (a b : str) : comparison :=
  match a, b with
  | [], [] => Eq
  | [], _ :: _ => Lt
  | _ :: _, [] => Gt
  | x :: a', y :: b' =>
      match N.compare x y with
      | Eq => str_compare a' b'
      | c => c
      end
  end.

Definition str_leb (a b : str) : bool :=
  match str_compare a b with Gt => false | _ => true end.

Definition str_eqb (a b : str) : bool :=
  match str_compare a b with Eq => true | _ => false end.

(** [str.encode()]: UTF-8.  A surrogate code point cannot be encoded
    (Python raises [UnicodeEncodeError]); neither can a number that is no
    code point. *)
Definition utf8_char (c : char) : option (list N) :=
  if c <? 0x80 then Some [c]
  else if c <? 0x800 then Some [0xC0 + c / 64; 0x80 + c mod 64]
  else if c <? 0x10000 then
    if in_range 0xD800 0xDFFF c then None
    else Some [0xE0 + c / 4096; 0x80 + (c / 64) mod 64; 0x80 + c mod 64]
  else if c <? 0x110000 then
    Some [0xF0 + c / 262144; 0x80 + (c / 4096) mod 64;
          0x80 + (c / 64) mod 64; 0x80 + c mod 64]
  else None.

Fixpoint encode (s : str) : option bytes :=
  match s with
  | [] => Some []
  | c :: s' =>
      match utf8_char c, encode s' with
      | Some ns, Some bs =>
          match mapM Byte.of_N ns with
          | Some cs => Some (cs ++ bs)
          | None => None
          end
      | _, _ => None
      end
  end.

(** ** Regular expressions ([re.match] on a [str] pattern)

    The fragment of Python's [re] syntax that [app/models.py] uses:
    anchors, literal characters, the class [\d], the repetitions [+] and
    [{n}] of a one-character atom, sequencing and an optional group. *)

(** [\d] in a [str] pattern matches every Unicode decimal digit (general
    category Nd), not only [0-9].  The digits come in runs of ten; the
    table lists the first code point of each run, and the mathematical
    digits U+1D7CE..U+1D7FF form five runs in a row. *)
Definition decimal_runs : list N :=
  [0x30; 0x660; 0x6F0; 0x7C0; 0x966; 0x9E6; 0xA66; 0xAE6; 0xB66; 0xBE6;
   0xC66; 0xCE6; 0xD66; 0xDE6; 0xE50; 0xED0; 0xF20; 0x1040; 0x1090;
   0x17E0; 0x1810; 0x1946; 0x19D0; 0x1A80; 0x1A90; 0x1B50; 0x1BB0;
   0x1C40; 0x1C50; 0xA620; 0xA8D0; 0xA900; 0xA9D0; 0xA9F0; 0xAA50;
   0xABF0; 0xFF10; 0x104A0; 0x10D30; 0x11066; 0x110F0; 0x11136; 0x111D0;
   0x112F0; 0x11450; 0x114D0; 0x11650; 0x116C0; 0x11730; 0x118E0;
   0x11950; 0x11C50; 0x11D50; 0x11DA0; 0x11F50; 0x16A60; 0x16AC0;
   0x16B50; 0x1E140; 0x1E2F0; 0x1E4F0; 0x1E950; 0x1FBF0].

Definition uni_isdecimal (c : char) : bool :=
  existsb (fun lo => in_range lo (lo + 9) c) decimal_runs
  || in_range 0x1D7CE 0x1D7FF c.

(** The ASCII digits, [[0-9]]. *)
Definition ascii_digit (c : char) : bool := in_range 48 57 c.

Inductive atom :=
| Lit (c : char)      (* a literal character, escaped or not *)
| Digit.              (* \d *)

Inductive regex :=
| Bol                          (* ^ *)
| Eol                          (* $ *)
| One (a : atom)               (* a *)
| Many1 (a : atom)             (* a+ *)
| Times (n : nat) (a : atom)   (* a{n} *)
| Seq (r1 r2 : regex)          (* r1 r2 *)
| Opt (r : regex).             (* (r)? *)

(** Without [re.MULTILINE], [^] matches at the start of the string only,
    and [$] matches at the end of the string and also just before a
    newline that is the last character. *)
Definition at_eol (s : str) : bool :=
  match s with
  | [] => true
  | [c] => c =? 10
  | _ => false
  end.

(** How a pattern is read: which characters [\d] stands for and where
    [$] matches.  [python_re] is the reading of Python's [re] for a [str]
    pattern without flags. *)
Record dialect := {
  digit : char -> bool;
  dollar : str -> bool
}.

Definition python_re : dialect :=
  {| digit := uni_isdecimal; dollar := at_eol |}.

Definition atom_ok (d : dialect) (a : atom) (c : char) : bool :=
  match a with
  | Lit l => c =? l
  | Digit => digit d c
  end.

(** [a+] from position [pos] with [s] left to read; [k] is the rest of the
    pattern.  The engine tries the longest repetition first and backs off;
    only whether some choice succeeds matters here. *)
Fixpoint many1 (p : char -> bool) (pos : nat) (s : str)
    (k : nat -> str -> bool) : bool :=
  match s with
  | [] => false
  | c :: s' => p c && (many1 p (S pos) s' k || k (S pos) s')
  end.

Fixpoint times (n : nat) (p : char -> bool) (pos : nat) (s : str)
    (k : nat -> str -> bool) : bool :=
  match n with
  | O => k pos s
  | S n' =>
      match s with
      | [] => false
      | c :: s' => p c && times n' p (S pos) s' k
      end
  end.

Fixpoint re_run (d : dialect) (r : regex) (pos : nat) (s : str)
    (k : nat -> str -> bool) : bool :=
  match r with
  | Bol => Nat.eqb pos 0 && k pos s
  | Eol => dollar d s && k pos s
  | One a =>
      match s with
      | [] => false
      | c :: s' => atom_ok d a c && k (S pos) s'
      end
  | Many1 a => many1 (atom_ok d a) pos s k
  | Times n a => times n (atom_ok d a) pos s k
  | Seq r1 r2 => re_run d r1 pos s (fun pos' s' => re_run d r2 pos' s' k)
  | Opt r' => re_run d r' pos s k || k pos s
  end.

(** [re.match(r, s)] is not [None]: the pattern matches a prefix of [s]. *)
Definition re_match (r : regex) (s : str) : bool :=
  re_run python_re r 0 s (fun _ _ => true).

(** Sequence of a list of patterns. *)
Fixpoint seq (rs : list regex) : regex :=
  match rs with
  | [] => Times 0 Digit
  | [r] => r
  | r :: rs' => Seq r (seq rs')
  end.

(** [r'^\+\d+$'] *)
Definition E164_RE : regex :=
  seq [Bol; One (Lit 43); Many1 Digit; Eol].

(** [r'^\d{4}-\d{2}-\d{2}T\d{2}:\d{2}:\d{2}(\.\d+)?Z$'] *)
Definition ISO8601_RE : regex :=
  seq [Bol; Times 4 Digit; One (Lit 45); Times 2 Digit; One (Lit 45);
       Times 2 Digit; One (Lit 84); Times 2 Digit; One (Lit 58);
       Times 2 Digit; One (Lit 58); Times 2 Digit;
       Opt (Seq (One (Lit 46)) (Many1 Digit)); One (Lit 90); Eol].


(** ** Results and exceptions *)

Inductive result (E A : Type) :=
| Ok (a : A)
| Err (e : E).
Arguments Ok {E A} a.
Arguments Err {E A} e.

(** ** JSON documents and pydantic's error lines *)

(** A parsed JSON document.  A number keeps its text; an object is the
    mapping the parser built, one binding per key. *)
#[warnings="-register-all"]
Inductive json :=
| JNull
| JBool (b : bool)
| JNum (text : str)
| JStr (s : str)
| JArr (items : list json)
| JObj (fields : list (str * json)).

Fixpoint obj_get (key : str) (fields : list (str * json)) : option json :=
  match fields with
  | [] => None
  | (k, v) :: rest => if str_eqb k key then Some v else obj_get key rest
  end.

(** The kinds of error pydantic reports, by the [type] of the error line. *)
Inductive error_type :=
| json_invalid            (* the body is not JSON *)
| model_type              (* the document is not an object *)
| missing                 (* a required field is absent *)
| string_type             (* the value is not a string *)
| string_too_short        (* min_length *)
| string_too_long         (* max_length *)
| value_error             (* a field validator raised ValueError *)
| int_parsing             (* a query parameter is not an integer *)
| greater_than_equal      (* ge *)
| less_than_equal.        (* le *)

Record line_error := LineError { loc : str; etype : error_type }.

(** The exceptions that reach the model.  [ValidationError] is pydantic's
    (a [ValueError]); [RequestValidationError] is the one FastAPI raises
    itself when a declared request parameter does not validate. *)
Inductive exn :=
| ValidationError (errors : list line_error)
| RequestValidationError (errors : list line_error)
| TypeError
| UnicodeEncodeError
| OverflowError
| OperationalError.       (* sqlite3 *)

(** What the model takes from the libraries it calls: the HMAC-SHA256
    digest of [hmac.new(key, msg, hashlib.sha256)], which has 32 octets,
    and the JSON parser behind [model_validate_json]. *)
Class Runtime := {
  hmac_sha256 : bytes -> bytes -> bytes;
  hmac_sha256_length : forall key msg, length (hmac_sha256 key msg) = 32%nat;
  json_loads : bytes -> option json
}.

(** ** [app/models.py] *)

Module models.

Record WebhookPayload := Payload {
  message_id : str;
  from_ : str;
  to : str;
  ts : str;
  text : option str
}.

(** [validate_e164]: the value is kept when [re.match] finds a match,
    [ValueError] otherwise. *)
Definition validate_e164 (v : str) : result error_type str :=
  if re_match E164_RE v then Ok v else Err value_error.

(** [validate_iso8601] *)
Definition validate_iso8601 (v : str) : result error_type str :=
  if re_match ISO8601_RE v then Ok v else Err value_error.

(** [Field(..., min_length=1)] on a [str] *)
Definition min_length_1 (v : str) : result error_type str :=
  if (length v <? 1)%nat then Err string_too_short else Ok v.

(** A required [str] field read under the key [key]: the type check of
    the field, then its constraint or its validator. *)
Definition required_str (key : str) (check : str -> result error_type str)
    (fields : list (str * json)) : result (list line_error) str :=
  match obj_get key fields with
  | None => Err [LineError key missing]
  | Some (JStr s) =>
      match check s with
      | Ok v => Ok v
      | Err e => Err [LineError key e]
      end
  | Some _ => Err [LineError key string_type]
  end.

(** [text: Optional[str] = Field(None, max_length=4096)]: the default
    when the key is absent, [None] for [null], a string of at most 4096
    characters otherwise. *)
Definition optional_text (fields : list (str * json))
    : result (list line_error) (option str) :=
  match obj_get (py "text") fields with
  | None => Ok None
  | Some JNull => Ok None
  | Some (JStr s) =>
      if (4096 <? length s)%nat
      then Err [LineError (py "text") string_too_long]
      else Ok (Some s)
  | Some _ => Err [LineError (py "text") string_type]
  end.

Definition errors_of {A} (r : result (list line_error) A) : list line_error :=
  match r with Ok _ => [] | Err e => e end.

(** Validation of a parsed document against [WebhookPayload].  Fields are
    read by alias ([from] for [from_]), keys the model does not declare
    are ignored, and the errors of all fields are collected. *)
Definition model_validate (j : json)
    : result (list line_error) WebhookPayload :=
  match j with
  | JObj fields =>
      let r_id := required_str (py "message_id") min_length_1 fields in
      let r_from := required_str (py "from") validate_e164 fields in
      let r_to := required_str (py "to") validate_e164 fields in
      let r_ts := required_str (py "ts") validate_iso8601 fields in
      let r_text := optional_text fields in
      match r_id, r_from, r_to, r_ts, r_text with
      | Ok i, Ok f, Ok t, Ok s, Ok x => Ok (Payload i f t s x)
      | _, _, _, _, _ =>
          Err (errors_of r_id ++ errors_of r_from ++ errors_of r_to
               ++ errors_of r_ts ++ errors_of r_text)
      end
  | _ => Err [LineError [] model_type]
  end.

(** [WebhookPayload.model_validate_json(body)] *)
Definition model_validate_json `{RT : Runtime} (body : bytes)
    : result (list line_error) WebhookPayload :=
  match json_loads body with
  | None => Err [LineError [] json_invalid]
  | Some j => model_validate j
  end.

End models.

(** ** [app/config.py] *)

Module config.

Record Config := {
  webhook_secret : str;
  database_url : str;
  log_level : str
}.

(** [Config.is_ready]: [bool(self.webhook_secret)] *)
Definition is_ready (self : Config) : bool := truthy (webhook_secret self).

End config.

(** ** SQLite: what the statements of [app/storage.py] compute *)

(** [ORDER BY]: the rows in ascending order of [leb]; rows that compare
    equal keep the order they come in. *)
Fixpoint insert_sorted {A} (leb : A -> A -> bool) (x : A) (l : list A)
    : list A :=
  match l with
  | [] => [x]
  | y :: l' => if leb x y then x :: l else y :: insert_sorted leb x l'
  end.

Fixpoint order_by {A} (leb : A -> A -> bool) (l : list A) : list A :=
  match l with
  | [] => []
  | x :: l' => insert_sorted leb x (order_by leb l')
  end.

(** [LIMIT ? OFFSET ?]: a negative limit is no limit, a negative offset
    is no offset. *)
Definition limit_offset {A} (limit offset : Z) (l : list A) : list A :=
  let rest := drop (Z.to_nat offset) l in
  if (limit <? 0)%Z then rest else take (Z.to_nat limit) rest.

(** The [LIKE] operator: [%] stands for any run of characters, [_] for
    any one character, and every other character of the pattern for
    itself, where the ASCII letters match in either case.  The statement
    names no [ESCAPE] character.  (SQLite reads both strings up to their
    first NUL character; the model is of strings without one.) *)
Definition ascii_lower (c : char) : char :=
  if in_range 65 90 c then c + 32 else c.

Definition like_char (p c : char) : bool :=
  (p =? 95) || (ascii_lower p =? ascii_lower c).

Fixpoint like (pattern : str) : str -> bool :=
  match pattern with
  | [] => fun s => match s with [] => true | _ :: _ => false end
  | p :: pattern' =>
      if p =? 37 then
        fix skip (s : str) : bool :=
          like pattern' s
          || match s with [] => false | _ :: s' => skip s' end
      else
        fun s =>
          match s with
          | [] => false
          | c :: s' => like_char p c && like pattern' s'
          end
  end.

(** A Python [int] is bound to a statement as a signed 64-bit integer;
    [sqlite3] raises [OverflowError] for one that does not fit. *)
Definition fits_int64 (z : Z) : bool :=
  ((- 2 ^ 63 <=? z) && (z <? 2 ^ 63))%Z.


(** ** [app/storage.py] *)

Module storage.

(** A row of the table [messages]; [message_id] is its primary key, and
    only [text] may be NULL. *)
Record Row := {
  message_id : str;
  from_msisdn : str;
  to_msisdn : str;
  ts : str;
  text : option str;
  created_at : str
}.

(** The database file: the rows of [messages] in the order they were
    inserted, and whether SQLite can open and use the file at all (when it
    cannot, every statement raises). *)
Record Database := {
  messages : list Row;
  reachable : bool
}.

(** [Database.is_healthy]: [SELECT 1] in a [try]; any exception is
    [False]. *)
Definition is_healthy (self : Database) : bool := reachable self.

(** The primary key lookup behind [INSERT OR IGNORE]. *)
Definition has_key (id : str) (rows : list Row) : bool :=
  existsb (fun r => str_eqb (message_id r) id) rows.

(** [Database.insert_message].  [now] is the clock reading taken for
    [created_at].  The result is the database after the call and the pair
    [(success, is_duplicate)]; [cursor.rowcount] is 0 exactly when the
    row was ignored. *)
Definition insert_message (self : Database)
    (message_id from_msisdn to_msisdn ts : str) (text : option str)
    (now : str) : Database * (bool * bool) :=
  let created_at := now in
  if reachable self then
    if has_key message_id (messages self) then
      (self, (true, true))
    else
      let row := Build_Row message_id from_msisdn to_msisdn ts text
                   created_at in
      ({| messages := messages self ++ [row];
          reachable := reachable self |}, (true, false))
  else (self, (false, false)).

(** The conditions [get_messages] puts into its WHERE clause. *)
Inductive clause :=
| from_msisdn_eq (v : str)      (* from_msisdn = ? *)
| ts_ge (v : str)               (* ts >= ? *)
| text_like (pattern : str).    (* text LIKE ? *)

Definition where_clauses (from_filter since_filter q_filter : option str)
    : list clause :=
  (match from_filter with
   | Some v => if truthy v then [from_msisdn_eq v] else []
   | None => []
   end)
  ++ (match since_filter with
      | Some v => if truthy v then [ts_ge v] else []
      | None => []
      end)
  ++ (match q_filter with
      | Some v => if truthy v then [text_like ([37] ++ v ++ [37])] else []
      | None => []
      end).

(** A comparison with NULL is NULL, which WHERE takes as false. *)
Definition clause_holds (c : clause) (r : Row) : bool :=
  match c with
  | from_msisdn_eq v => str_eqb (from_msisdn r) v
  | ts_ge v => str_leb v (ts r)
  | text_like pattern =>
      match text r with
      | Some t => like pattern t
      | None => false
      end
  end.

(** [" AND ".join(where_clauses)], or [1=1] when there is none. *)
Definition where_sql (clauses : list clause) (r : Row) : bool :=
  forallb (fun c => clause_holds c r) clauses.

(** [ORDER BY ts ASC, message_id ASC] *)
Definition ts_message_id_leb (a b : Row) : bool :=
  match str_compare (ts a) (ts b) with
  | Lt => true
  | Eq => str_leb (message_id a) (message_id b)
  | Gt => false
  end.

(** [Database.get_messages]: the page and the count of all rows that
    satisfy the WHERE clause.  Nothing is caught here. *)
Definition get_messages (self : Database) (limit offset : Z)
    (from_filter since_filter q_filter : option str)
    : result exn (list Row * nat) :=
  let where_sql := where_sql (where_clauses from_filter since_filter q_filter) in
  if reachable self then
    let total := length (List.filter where_sql (messages self)) in
    if fits_int64 limit && fits_int64 offset then
      let rows :=
        limit_offset limit offset
          (order_by ts_message_id_leb (List.filter where_sql (messages self))) in
      Ok (rows, total)
    else Err OverflowError
  else Err OperationalError.

(** [{"from": ..., "count": ...}] *)
Record SenderCount := { sender : str; count : nat }.

Record Stats := {
  total_messages : nat;
  senders_count : nat;
  messages_per_sender : list SenderCount;
  first_message_ts : option str;
  last_message_ts : option str
}.

(** [GROUP BY from_msisdn] with [COUNT( * )]: one group per sender, in
    ascending order of the sender. *)
Definition group_by_sender (rows : list Row) : list SenderCount :=
  map (fun s =>
         {| sender := s;
            count := length (List.filter (fun r => str_eqb (from_msisdn r) s) rows) |})
      (order_by str_leb (remove_dups (map from_msisdn rows))).

(** [ORDER BY count DESC]; SQLite leaves the order of equal counts open,
    the model keeps the order of the groups. *)
Definition count_desc (a b : SenderCount) : bool := (count b <=? count a)%nat.

(** [MIN(ts)] and [MAX(ts)]: NULL over no rows. *)
Definition min_str (l : list str) : option str :=
  match l with
  | [] => None
  | x :: l' => Some (fold_left (fun m y => if str_leb m y then m else y) l' x)
  end.

Definition max_str (l : list str) : option str :=
  match l with
  | [] => None
  | x :: l' => Some (fold_left (fun m y => if str_leb y m then m else y) l' x)
  end.

(** [Database.get_stats] *)
Definition get_stats (self : Database) : result exn Stats :=
  if reachable self then
    let rows := messages self in
    Ok {| total_messages := length rows;
          senders_count := length (remove_dups (map from_msisdn rows));
          messages_per_sender :=
            take 10 (order_by count_desc (group_by_sender rows));
          first_message_ts := min_str (map ts rows);
          last_message_ts := max_str (map ts rows) |}
  else Err OperationalError.

End storage.


(** ** Formatting: [str(int)], [str.join] *)

Fixpoint uint_str (u : Decimal.uint) : str :=
  match u with
  | Decimal.Nil => []
  | Decimal.D0 u' => 48 :: uint_str u'
  | Decimal.D1 u' => 49 :: uint_str u'
  | Decimal.D2 u' => 50 :: uint_str u'
  | Decimal.D3 u' => 51 :: uint_str u'
  | Decimal.D4 u' => 52 :: uint_str u'
  | Decimal.D5 u' => 53 :: uint_str u'
  | Decimal.D6 u' => 54 :: uint_str u'
  | Decimal.D7 u' => 55 :: uint_str u'
  | Decimal.D8 u' => 56 :: uint_str u'
  | Decimal.D9 u' => 57 :: uint_str u'
  end.

(** [str(n)] for an [int]: the decimal digits, after a minus sign for a
    negative number. *)
Definition int_str (z : Z) : str :=
  match z with
  | Zneg p => 45 :: uint_str (Pos.to_uint p)
  | _ => uint_str (N.to_uint (Z.to_N z))
  end.

(** [sep.join(parts)] *)
Fixpoint join (sep : str) (parts : list str) : str :=
  match parts with
  | [] => []
  | [x] => x
  | x :: rest => x ++ sep ++ join sep rest
  end.

(** ** [app/metrics.py] *)

Module metrics.

(** The counters a webhook request touches: [webhook_requests_total], a
    [defaultdict(int)] keyed by the result label. *)
Record Metrics := {
  webhook_requests_total : gmap str nat
}.

(** [self.webhook_requests_total[key] += 1] *)
Definition increment_webhook_request (self : Metrics) (result : str)
    : Metrics :=
  {| webhook_requests_total :=
       <[result := S (default O (webhook_requests_total self !! result))]>
         (webhook_requests_total self) |}.

(** The whole [Metrics] object: the webhook counters above and
    [http_requests_total], a [defaultdict(int)] keyed by
    [(method, path, status)], which only the middleware and the export
    touch. *)
Record Registry := {
  webhook : Metrics;
  http_requests_total : gmap (str * str * Z) nat
}.

(** [self.http_requests_total[key] += 1] *)
Definition increment_http_request (self : Registry)
    (method path : str) (status : Z) : Registry :=
  let key := (method, path, status) in
  {| webhook := webhook self;
     http_requests_total :=
       <[key := S (default O (http_requests_total self !! key))]>
         (http_requests_total self) |}.

(** The order of [sorted] on the items of the two dictionaries: tuples
    compare component by component, strings by code point. *)
Definition http_item_leb (a b : str * str * Z * nat) : bool :=
  let '(m1, p1, s1, c1) := a in
  let '(m2, p2, s2, c2) := b in
  match str_compare m1 m2 with
  | Lt => true
  | Gt => false
  | Eq =>
      match str_compare p1 p2 with
      | Lt => true
      | Gt => false
      | Eq =>
          match Z.compare s1 s2 with
          | Lt => true
          | Gt => false
          | Eq => (c1 <=? c2)%nat
          end
      end
  end.

Definition webhook_item_leb (a b : str * nat) : bool :=
  match str_compare a.1 b.1 with
  | Lt => true
  | Gt => false
  | Eq => (a.2 <=? b.2)%nat
  end.

(** The two sample lines; [34] is the double quote. *)
Definition http_line (item : str * str * Z * nat) : str :=
  let '(method, path, status, count) := item in
  py "http_requests_total{method=" ++ [34] ++ method ++ [34]
  ++ py ",path=" ++ [34] ++ path ++ [34]
  ++ py ",status=" ++ [34] ++ int_str status ++ [34]
  ++ py "} " ++ int_str (Z.of_nat count).

Definition webhook_line (item : str * nat) : str :=
  py "webhook_requests_total{result=" ++ [34] ++ item.1 ++ [34]
  ++ py "} " ++ int_str (Z.of_nat item.2).

(** The list [lines] that [export_prometheus] builds. *)
Definition export_lines (self : Registry) : list str :=
  [py "# HELP http_requests_total Total HTTP requests";
   py "# TYPE http_requests_total counter"]
  ++ map http_line
       (order_by http_item_leb (map_to_list (http_requests_total self)))
  ++ [py "# HELP webhook_requests_total Total webhook requests";
      py "# TYPE webhook_requests_total counter"]
  ++ map webhook_line
       (order_by webhook_item_leb
          (map_to_list (webhook_requests_total (webhook self)))).

(** [Metrics.export_prometheus] *)
Definition export_prometheus (self : Registry) : str :=
  join [10] (export_lines self) ++ [10].

End metrics.

(** ** [app/logging_utils.py] *)

Module logging_utils.

(** The [error] of a record: a literal of the source, or [str(e)] of the
    exception caught. *)
Inductive error_text :=
| literal (s : str)
| str_of (e : exn).

(** One record of [log_json], without its clock readings ([ts],
    [latency_ms]) and the request id. *)
Record LogEntry := {
  level : str;
  method : str;
  path : str;
  status : Z;
  message_id : option str;
  dup : option bool;
  result : option str;
  error : option error_text
}.

End logging_utils.

(** ** [hmac]: digests and their comparison *)

Definition hex_char (n : N) : char :=
  if n <? 10 then 48 + n else 87 + n.

(** [HMAC.hexdigest()]: two lowercase hexadecimal digits per octet. *)
Definition hexdigest (digest : bytes) : str :=
  flat_map (fun b => [hex_char (Byte.to_N b / 16);
                      hex_char (Byte.to_N b mod 16)]) digest.

Definition is_ascii (s : str) : bool := forallb (fun c => c <? 128) s.

(** The comparison loop of [hmac.compare_digest]: it runs over the whole
    of [b] whatever the contents, folding the differences into one
    accumulator; when the lengths differ, [b] is compared with itself and
    the accumulator starts at 1. *)
Definition tscmp (a b : str) : bool :=
  let same_length := Nat.eqb (length a) (length b) in
  let left := if same_length then a else b in
  let start := if same_length then 0 else 1 in
  fold_left (fun acc xy => N.lor acc (N.lxor (fst xy) (snd xy)))
            (combine left b) start =? 0.

(** [hmac.compare_digest(a, b)] on two [str]: [TypeError] unless both are
    ASCII. *)
Definition compare_digest (a b : str) : result exn bool :=
  if is_ascii a && is_ascii b then Ok (tscmp a b) else Err TypeError.

(** ** [app/main.py] *)

Module main.

(** The state the handlers share: the database [db], the counters
    [metrics], the lines printed by [log_json], and, for the properties
    about what is never reached, the calls made so far. *)
Inductive call :=
| hmac_new (key msg : bytes)
| model_validate_json (body : bytes)
| db_insert_message (message_id : str)
| db_get_messages
| db_get_stats
| db_is_healthy.

Record State := {
  db : storage.Database;
  metrics : metrics.Metrics;
  stdout : list logging_utils.LogEntry;
  calls : list call
}.

(** What a request brings from outside the program: the configuration
    read at start-up and the clock. *)
Record Env := {
  config : config.Config;
  now : str
}.

(** A computation returns a value or raises, and leaves a state. *)
Inductive outcome (A : Type) :=
| Return (a : A)
| Raise (e : exn).
Arguments Return {A} a.
Arguments Raise {A} e.

Definition M (A : Type) : Type := State -> outcome A * State.

Definition ret {A} (a : A) : M A := fun s => (Return a, s).

Definition raise {A} (e : exn) : M A := fun s => (Raise e, s).

Definition bind {A B} (m : M A) (f : A -> M B) : M B :=
  fun s =>
    match m s with
    | (Return a, s') => f a s'
    | (Raise e, s') => (Raise e, s')
    end.

Notation "'let*' x := m 'in' k" := (bind m (fun x => k))
  (at level 10, x name, m at level 100, k at level 200).
Notation "m >> k" := (bind m (fun _ => k))
  (at level 100, k at level 200, right associativity).

(** [try: m except E as e: h e], for the handlers [h] that name which
    exceptions they take (the others pass). *)
Definition try_except {A} (m : M A) (h : exn -> option (M A)) : M A :=
  fun s =>
    match m s with
    | (Return a, s') => (Return a, s')
    | (Raise e, s') =>
        match h e with
        | Some k => k s'
        | None => (Raise e, s')
        end
    end.

Definition lift {A} (r : result exn A) : M A :=
  match r with Ok a => ret a | Err e => raise e end.

(** The four ways a handler changes the state. *)
Definition record_call (s : State) (c : call) : State :=
  {| db := db s; metrics := metrics s; stdout := stdout s;
     calls := calls s ++ [c] |}.

Definition print_line (s : State) (e : logging_utils.LogEntry) : State :=
  {| db := db s; metrics := metrics s; stdout := stdout s ++ [e];
     calls := calls s |}.

Definition count_webhook (s : State) (result : str) : State :=
  {| db := db s;
     metrics := metrics.increment_webhook_request (metrics s) result;
     stdout := stdout s; calls := calls s |}.

Definition set_db (s : State) (db' : storage.Database) : State :=
  {| db := db'; metrics := metrics s; stdout := stdout s;
     calls := calls s |}.

Definition called (c : call) : M unit :=
  fun s => (Return tt, record_call s c).

(** [log_json(...)] *)
Definition log_json (level method path : str) (status : Z)
    (message_id : option str) (dup : option bool)
    (result : option str) (error : option logging_utils.error_text)
    : M unit :=
  fun s =>
    (Return tt,
     print_line s
       (logging_utils.Build_LogEntry level method path status
          message_id dup result error)).

(** [metrics.increment_webhook_request(result)] *)
Definition increment_webhook_request (result : str) : M unit :=
  fun s => (Return tt, count_webhook s result).

(** [db.insert_message(...)] *)
Definition db_insert (env : Env) (p : models.WebhookPayload)
    : M (bool * bool) :=
  called (db_insert_message (models.message_id p)) >>
  fun s =>
    let '(db', r) :=
      storage.insert_message (db s) (models.message_id p) (models.from_ p)
        (models.to p) (models.ts p) (models.text p) (now env) in
    (Return r, set_db s db').

(** Responses.  [content] is the body by shape. *)
Inductive content :=
| status_ok                                       (* {"status": "ok"} *)
| detail (message : str)                          (* {"detail": message} *)
| detail_errors (errors : list line_error)        (* {"detail": [...]} *)
| internal_server_error                           (* Internal Server Error *)
| status_ready                                    (* {"status": "ready"} *)
| not_ready (reason : str)       (* {"status": "not ready", "reason": reason} *)
| messages_page (data : list storage.Row) (total : nat) (limit offset : Z)
| stats (s : storage.Stats).

Record Response := {
  status_code : Z;
  body : content
}.

Section handlers.
Context `{RT : Runtime}.

(** [verify_signature(body, signature)] *)
Definition verify_signature (env : Env) (body : bytes)
    (signature : option str) : M bool :=
  if negb (opt_truthy signature) then ret false
  else
    let signature := default [] signature in
    let* secret := lift (match encode (config.webhook_secret (config env)) with
                         | Some b => Ok b
                         | None => Err UnicodeEncodeError
                         end) in
    called (hmac_new secret body) >>
    let expected := hexdigest (hmac_sha256 secret body) in
    lift (compare_digest expected signature).

(** The endpoint [webhook]: [body] is the raw request body, [signature]
    the value of the [X-Signature] header, [None] when the header is not
    sent. *)
Definition webhook (env : Env) (body : bytes) (signature : option str)
    : M Response :=
  let* ok := verify_signature env body signature in
  if negb ok then
    log_json (py "ERROR") (py "POST") (py "/webhook") 401 None None
      (Some (py "invalid_signature"))
      (Some (logging_utils.literal (py "invalid signature"))) >>
    increment_webhook_request (py "invalid_signature") >>
    ret {| status_code := 401; body := detail (py "invalid signature") |}
  else
    let* payload :=
      try_except
        (called (model_validate_json body) >>
         lift (match models.model_validate_json body with
               | Ok p => Ok p
               | Err e => Err (ValidationError e)
               end))
        (fun e =>
           match e with
           | ValidationError _ =>
               Some (log_json (py "ERROR") (py "POST") (py "/webhook") 422
                       None None (Some (py "validation_error"))
                       (Some (logging_utils.str_of e)) >>
                     increment_webhook_request (py "validation_error") >>
                     raise e)
           | _ => None
           end) in
    let* r := db_insert env payload in
    let '(success, is_duplicate) := r in
    if negb success then
      log_json (py "ERROR") (py "POST") (py "/webhook") 500
        (Some (models.message_id payload)) (Some false)
        (Some (py "db_error")) None >>
      increment_webhook_request (py "db_error") >>
      ret {| status_code := 500; body := detail (py "database error") |}
    else
      let result := if is_duplicate then py "duplicate" else py "success" in
      log_json (py "INFO") (py "POST") (py "/webhook") 200
        (Some (models.message_id payload)) (Some is_duplicate)
        (Some result) None >>
      increment_webhook_request result >>
      ret {| status_code := 200; body := status_ok |}.


(** A query parameter declared [int], as pydantic reads what was sent. *)
Inductive int_param :=
| not_sent
| sent_int (v : Z)
| sent_other.          (* not the text of an integer *)

(** [Query(default=d, ge=lo, le=hi)] on an [int] parameter. *)
Definition query_int (name : str) (default lo : Z) (hi : option Z)
    (p : int_param) : result (list line_error) Z :=
  match p with
  | not_sent => Ok default
  | sent_other => Err [LineError name int_parsing]
  | sent_int v =>
      if (v <? lo)%Z then Err [LineError name greater_than_equal]
      else
        match hi with
        | Some h =>
            if (h <? v)%Z then Err [LineError name less_than_equal] else Ok v
        | None => Ok v
        end
  end.

Definition get_state : M State := fun s => (Return s, s).

(** The endpoint [get_messages] with its arguments validated. *)
Definition get_messages (limit offset : Z) (from_ since q : option str)
    : M Response :=
  called db_get_messages >>
  let* s := get_state in
  let* r := lift (storage.get_messages (db s) limit offset from_ since q) in
  let '(messages, total) := r in
  ret {| status_code := 200;
         body := messages_page messages total limit offset |}.

(** [GET /messages]: FastAPI validates the declared parameters first and
    raises [RequestValidationError] with the errors of all of them; the
    endpoint is called only when there is none. *)
Definition get_messages_route (limit offset : int_param)
    (from_ since q : option str) : M Response :=
  let r_limit := query_int (py "limit") 50 1 (Some 100%Z) limit in
  let r_offset := query_int (py "offset") 0 0 None offset in
  match r_limit, r_offset with
  | Ok limit, Ok offset => get_messages limit offset from_ since q
  | _, _ =>
      raise (RequestValidationError
               (models.errors_of r_limit ++ models.errors_of r_offset))
  end.

(** The endpoint [get_stats] *)
Definition get_stats : M Response :=
  called db_get_stats >>
  let* s := get_state in
  let* st := lift (storage.get_stats (db s)) in
  ret {| status_code := 200; body := stats st |}.

(** The endpoint [health_live] *)
Definition health_live : M Response :=
  ret {| status_code := 200; body := status_ok |}.

(** The endpoint [health_ready] *)
Definition health_ready (env : Env) : M Response :=
  if negb (config.is_ready (config env)) then
    ret {| status_code := 503;
           body := not_ready (py "missing webhook secret") |}
  else
    called db_is_healthy >>
    let* s := get_state in
    if negb (storage.is_healthy (db s)) then
      ret {| status_code := 503;
             body := not_ready (py "database unavailable") |}
    else
      ret {| status_code := 200; body := status_ready |}.

(** The requests of the routes above. *)
Inductive Request :=
| POST_webhook (body : bytes) (x_signature : option str)
| GET_messages (limit offset : int_param) (from_ since q : option str)
| GET_stats
| GET_health_live
| GET_health_ready.

Definition route (env : Env) (req : Request) : M Response :=
  match req with
  | POST_webhook body x_signature => webhook env body x_signature
  | GET_messages limit offset from_ since q =>
      get_messages_route limit offset from_ since q
  | GET_stats => get_stats
  | GET_health_live => health_live
  | GET_health_ready => health_ready env
  end.

(** The exception handlers of the application.  FastAPI installs one for
    its own [RequestValidationError] (status 422 with the error lines)
    and one for [HTTPException]; [app/main.py] adds none.  An exception of
    any other class leaves the application, and the server answers 500. *)
Definition exception_handler (e : exn) : option Response :=
  match e with
  | RequestValidationError errors =>
      Some {| status_code := 422; body := detail_errors errors |}
  | _ => None
  end.

(** One request served: the response sent and the state left. *)
Definition app (env : Env) (req : Request) (s : State) : Response * State :=
  match route env req s with
  | (Return r, s') => (r, s')
  | (Raise e, s') =>
      (match exception_handler e with
       | Some r => r
       | None => {| status_code := 500; body := internal_server_error |}
       end, s')
  end.

End handlers.

End main.

(** ** [app/config.py]: the configuration read at start-up *)

Module startup.

(** [os.getenv(name, default)] on the environment of the process. *)
Definition getenv (environ : gmap str str) (name default : str) : str :=
  match environ !! name with
  | Some v => v
  | None => default
  end.

(** [Config.__init__] *)
Definition Config_init (environ : gmap str str) : config.Config :=
  {| config.webhook_secret := getenv environ (py "WEBHOOK_SECRET") [];
     config.database_url :=
       getenv environ (py "DATABASE_URL") (py "messages.db");
     config.log_level := getenv environ (py "LOG_LEVEL") (py "INFO") |}.

(** [get_config] under [lru_cache]: the first call builds the
    configuration, every later call returns that one. *)
Definition get_config (cache : option config.Config)
    (environ : gmap str str) : config.Config * option config.Config :=
  match cache with
  | Some c => (c, cache)
  | None => let c := Config_init environ in (c, Some c)
  end.

End startup.

(** ** [app/main.py]: the middleware and the metrics endpoint *)

Module server.

(** A request to one of the six routes of [app/main.py]. *)
Inductive Request :=
| routed (r : main.Request)
| GET_metrics.

Definition method_of (req : Request) : str :=
  match req with
  | routed (main.POST_webhook _ _) => py "POST"
  | _ => py "GET"
  end.

Definition path_of (req : Request) : str :=
  match req with
  | routed (main.POST_webhook _ _) => py "/webhook"
  | routed (main.GET_messages _ _ _ _ _) => py "/messages"
  | routed main.GET_stats => py "/stats"
  | routed main.GET_health_live => py "/health/live"
  | routed main.GET_health_ready => py "/health/ready"
  | GET_metrics => py "/metrics"
  end.

(** A response of a handler, or the plain text of the metrics. *)
Inductive content :=
| of_handler (c : main.content)
| text_plain (t : str).

Record Response := {
  status_code : Z;
  body : content
}.

(** The state of the process: that of the handlers, and the counters of
    the middleware.  The webhook counters are those of the handlers'
    state. *)
Record State := {
  handlers : main.State;
  http_requests_total : gmap (str * str * Z) nat
}.

Definition registry (s : State) : metrics.Registry :=
  {| metrics.webhook := main.metrics (handlers s);
     metrics.http_requests_total := http_requests_total s |}.

Section application.
Context `{RT : Runtime}.

(** The endpoint [get_metrics] *)
Definition get_metrics (s : State) : Response :=
  {| status_code := 200;
     body := text_plain (metrics.export_prometheus (registry s)) |}.

(** [call_next(request)]: the route under the exception handlers of the
    application.  An exception no handler takes is raised to the
    middleware. *)
Definition call_next (env : main.Env) (req : Request) (s : State)
    : main.outcome Response * State :=
  match req with
  | GET_metrics => (main.Return (get_metrics s), s)
  | routed r =>
      let '(o, h) := main.route env r (handlers s) in
      let s' := {| handlers := h;
                   http_requests_total := http_requests_total s |} in
      match o with
      | main.Return resp =>
          (main.Return {| status_code := main.status_code resp;
                          body := of_handler (main.body resp) |}, s')
      | main.Raise e =>
          match main.exception_handler e with
          | Some resp =>
              (main.Return {| status_code := main.status_code resp;
                              body := of_handler (main.body resp) |}, s')
          | None => (main.Raise e, s')
          end
      end
  end.

(** [logging_middleware]: after the response is there, one log record
    unless the path is [/webhook], and one count of the request under
    its method, path and status.  When [call_next] raises, neither is
    reached. *)
Definition logging_middleware (env : main.Env) (req : Request) (s : State)
    : main.outcome Response * State :=
  match call_next env req s with
  | (main.Raise e, s') => (main.Raise e, s')
  | (main.Return response, s') =>
      let h :=
        if bool_decide (path_of req <> py "/webhook") then
          main.print_line (handlers s')
            (logging_utils.Build_LogEntry (py "INFO") (method_of req)
               (path_of req) (status_code response) None None None None)
        else handlers s' in
      let reg :=
        metrics.increment_http_request (registry s')
          (method_of req) (path_of req) (status_code response) in
      (main.Return response,
       {| handlers := h;
          http_requests_total := metrics.http_requests_total reg |})
  end.

(** One request served: the middleware under the server's answer to an
    exception that nothing handled. *)
Definition serve (env : main.Env) (req : Request) (s : State)
    : Response * State :=
  match logging_middleware env req s with
  | (main.Return response, s') => (response, s')
  | (main.Raise _, s') =>
      ({| status_code := 500;
          body := of_handler main.internal_server_error |}, s')
  end.

End application.

End server.


(* ================================================================== *)
(** * Part II. Names, fixtures and the specification's definitions     *)
(* ================================================================== *)

(** ** The responses and the log records of the handlers, by name *)

(** The log records of the four exits of [webhook]. *)
Definition log_invalid_signature : logging_utils.LogEntry :=
  logging_utils.Build_LogEntry (py "ERROR") (py "POST") (py "/webhook") 401
    None None (Some (py "invalid_signature"))
    (Some (logging_utils.literal (py "invalid signature"))).

Definition log_validation_error (errors : list line_error)
    : logging_utils.LogEntry :=
  logging_utils.Build_LogEntry (py "ERROR") (py "POST") (py "/webhook") 422
    None None (Some (py "validation_error"))
    (Some (logging_utils.str_of (ValidationError errors))).

Definition log_db_error (id : str) : logging_utils.LogEntry :=
  logging_utils.Build_LogEntry (py "ERROR") (py "POST") (py "/webhook") 500
    (Some id) (Some false) (Some (py "db_error")) None.

Definition log_stored (id : str) (is_duplicate : bool)
    : logging_utils.LogEntry :=
  logging_utils.Build_LogEntry (py "INFO") (py "POST") (py "/webhook") 200
    (Some id) (Some is_duplicate)
    (Some (if is_duplicate then py "duplicate" else py "success")) None.

Definition unauthorized : main.Response :=
  {| main.status_code := 401;
     main.body := main.detail (py "invalid signature") |}.

Definition server_error : main.Response :=
  {| main.status_code := 500; main.body := main.internal_server_error |}.

Definition ready : main.Response :=
  {| main.status_code := 200; main.body := main.status_ready |}.

(** ** Fixtures for the examples *)

Module fixtures.

Definition valid_document : json :=
  JObj [(py "message_id", JStr (py "msg-001"));
        (py "from", JStr (py "+1234567890"));
        (py "to", JStr (py "+9876543210"));
        (py "ts", JStr (py "2024-01-15T10:30:00.000Z"));
        (py "text", JStr (py "Hello World"))].

(** The same message sent again with other values. *)
Definition resent_document : json :=
  JObj [(py "message_id", JStr (py "msg-001"));
        (py "from", JStr (py "+1111111111"));
        (py "to", JStr (py "+2222222222"));
        (py "ts", JStr (py "2025-06-01T00:00:00Z"));
        (py "text", JStr (py "Another text"))].

(** A stub of the two library functions: the digest is the first 32
    octets of the key, the message and a padding, and the parser knows
    three bodies. *)
Definition stub_digest (key msg : bytes) : bytes :=
  take 32 (key ++ msg ++ repeat "000"%byte 32).

Lemma stub_digest_length (key msg : bytes) :
  length (stub_digest key msg) = 32%nat.
Proof.
  unfold stub_digest. rewrite length_take, !length_app, repeat_length. lia.
Qed.

Definition stub : Runtime :=
  {| hmac_sha256 := stub_digest;
     hmac_sha256_length := stub_digest_length;
     json_loads := fun body =>
       if decide (body = pyb "valid message") then Some valid_document
       else if decide (body = pyb "resent message") then Some resent_document
       else if decide (body = pyb "empty object") then Some (JObj [])
       else None |}.

Definition env : main.Env :=
  {| main.config :=
       {| config.webhook_secret := py "testsecret";
          config.database_url := py "messages.db";
          config.log_level := py "INFO" |};
     main.now := py "2024-01-15T10:30:01+00:00" |}.

Definition key : bytes := pyb "testsecret".

(** A state with nothing stored, counted, printed or called. *)
Definition empty : main.State :=
  {| main.db := {| storage.messages := []; storage.reachable := true |};
     main.metrics := {| metrics.webhook_requests_total := ∅ |};
     main.stdout := [];
     main.calls := [] |}.

(** The signature of a body under the stub and the secret of [env]. *)
Definition sign (body : bytes) : str :=
  hexdigest (stub_digest key body).

Definition row (id sender ts : str) (text : option str) : storage.Row :=
  {| storage.message_id := id; storage.from_msisdn := sender;
     storage.to_msisdn := py "+9999999999"; storage.ts := ts;
     storage.text := text; storage.created_at := py "2024-01-15T10:30:01+00:00" |}.

(** Three documents that differ from a valid one in one field each:
    [from] ends in a newline, [to] is written in Arabic-Indic digits, [ts]
    ends in a newline. *)
Definition from_with_newline : json :=
  JObj [(py "message_id", JStr (py "m1"));
        (py "from", JStr (py "+123" ++ [10]));
        (py "to", JStr (py "+456"));
        (py "ts", JStr (py "2024-01-15T10:30:00Z"))].

Definition to_in_arabic_indic_digits : json :=
  JObj [(py "message_id", JStr (py "m1"));
        (py "from", JStr (py "+123"));
        (py "to", JStr [43; 0x664; 0x665; 0x666]);
        (py "ts", JStr (py "2024-01-15T10:30:00Z"))].

Definition ts_with_newline : json :=
  JObj [(py "message_id", JStr (py "m1"));
        (py "from", JStr (py "+123"));
        (py "to", JStr (py "+456"));
        (py "ts", JStr (py "2024-01-15T10:30:00Z" ++ [10]))].


(** A store with one message whose text is [abc]. *)
Definition one_message : storage.Database :=
  {| storage.messages :=
       [row (py "msg-1") (py "+1111111111")
          (py "2024-01-15T10:00:00Z") (Some (py "abc"))];
     storage.reachable := true |}.

(** Three messages of two senders. *)
Definition three_messages : storage.Database :=
  {| storage.messages :=
       [row (py "msg-b") (py "+2222222222")
          (py "2024-01-15T14:00:00Z") (Some (py "Hello World"));
        row (py "msg-a") (py "+1111111111")
          (py "2024-01-15T14:00:00Z") None;
        row (py "msg-c") (py "+1111111111")
          (py "2024-01-15T09:00:00Z") (Some (py "Goodbye"))];
     storage.reachable := true |}.

(** The configuration of a service started without [WEBHOOK_SECRET]. *)
Definition env_without_secret : main.Env :=
  {| main.config :=
       {| config.webhook_secret := [];
          config.database_url := py "messages.db";
          config.log_level := py "INFO" |};
     main.now := py "2024-01-15T10:30:01+00:00" |}.

End fixtures.

(** A run of [n] decimal digits, as [\d{n}] takes them. *)
Definition decimal_digits (n : nat) (ds : str) : Prop :=
  length ds = n /\ forallb uni_isdecimal ds = true.

(** ** What a pattern means

    [denote d r pos m rest]: read in the dialect [d], the pattern [r]
    matches the characters [m] at position [pos] of a string that goes on
    with [rest]. *)
Fixpoint denote (d : dialect) (r : regex) (pos : nat) (m rest : str)
    : Prop :=
  match r with
  | Bol => m = [] /\ pos = O
  | Eol => m = [] /\ dollar d rest = true
  | One a => exists c, m = [c] /\ atom_ok d a c = true
  | Many1 a => m <> [] /\ forallb (atom_ok d a) m = true
  | Times n a => length m = n /\ forallb (atom_ok d a) m = true
  | Seq r1 r2 =>
      exists u v, m = u ++ v /\ denote d r1 pos u (v ++ rest)
                  /\ denote d r2 (pos + length u) v rest
  | Opt r' => m = [] \/ denote d r' pos m rest
  end.

(** ** The specification's reading of the payload rules

    The specification asks for exact full-string matches of
    [^\+[0-9]+$] and of the timestamp pattern, digits being the ASCII
    digits.  These definitions follow its words; the program's are
    above. *)

Module spec.

Definition strict : dialect :=
  {| digit := ascii_digit;
     dollar := fun s => match s with [] => true | _ :: _ => false end |}.

Definition fullmatch (r : regex) (s : str) : bool :=
  re_run strict r 0 s (fun _ _ => true).

(** A body is acceptable when it is a JSON object with a non-empty string
    [message_id], [from] and [to] matching the E.164 pattern, [ts]
    matching the timestamp pattern, and [text] absent, null or a string of
    at most 4096 characters. *)
Definition acceptable (j : json) : Prop :=
  exists fields, j = JObj fields /\
    (exists v, obj_get (py "message_id") fields = Some (JStr v) /\ v <> []) /\
    (exists v, obj_get (py "from") fields = Some (JStr v)
               /\ fullmatch E164_RE v = true) /\
    (exists v, obj_get (py "to") fields = Some (JStr v)
               /\ fullmatch E164_RE v = true) /\
    (exists v, obj_get (py "ts") fields = Some (JStr v)
               /\ fullmatch ISO8601_RE v = true) /\
    (obj_get (py "text") fields = None
     \/ obj_get (py "text") fields = Some JNull
     \/ exists v, obj_get (py "text") fields = Some (JStr v)
                  /\ (length v <= 4096)%nat).

(** A case-insensitive substring test: [q] occurs in [t] when the ASCII
    letters are compared without regard to case. *)
Fixpoint prefix_ci (q t : str) : bool :=
  match q, t with
  | [], _ => true
  | _ :: _, [] => false
  | c :: q', d :: t' => (ascii_lower c =? ascii_lower d) && prefix_ci q' t'
  end.

Fixpoint contains_ci (q t : str) : bool :=
  prefix_ci q t
  || match t with
     | [] => false
     | _ :: t' => contains_ci q t'
     end.


(** The number of stored messages of a sender. *)
Definition messages_of (sender : str) (rows : list storage.Row) : nat :=
  length (List.filter (fun r => str_eqb (storage.from_msisdn r) sender) rows).

End spec.

(** ** The service at work *)

(** What the middleware adds to the state after an answer. *)
Definition after_answer (req : server.Request) (status : Z)
    (h : main.State) (s : server.State) : server.State :=
  {| server.handlers :=
       if bool_decide (server.path_of req <> py "/webhook") then
         main.print_line h
           (logging_utils.Build_LogEntry (py "INFO") (server.method_of req)
              (server.path_of req) status None None None None)
       else h;
     server.http_requests_total :=
       <[(server.method_of req, server.path_of req, status) :=
           S (default O
                (server.http_requests_total s
                   !! (server.method_of req, server.path_of req, status)))]>
         (server.http_requests_total s) |}.

(** A run of the service: the requests are served one after the other,
    each at its own reading of the clock, under one configuration. *)
Fixpoint run `{RT : Runtime} (config : config.Config)
    (requests : list (str * server.Request)) (s : server.State)
    : list server.Response * server.State :=
  match requests with
  | [] => ([], s)
  | (now, req) :: rest =>
      let '(response, s1) :=
        server.serve {| main.config := config; main.now := now |} req s in
      let '(responses, s2) := run config rest s1 in
      (response :: responses, s2)
  end.

(** The row [insert_message] writes for a payload. *)
Definition row_of (p : models.WebhookPayload) (now : str) : storage.Row :=
  storage.Build_Row (models.message_id p) (models.from_ p) (models.to p)
    (models.ts p) (models.text p) now.

(** The service at rest: nothing stored, counted, printed or called. *)
Definition at_rest : server.State :=
  {| server.handlers := fixtures.empty;
     server.http_requests_total := ∅ |}.


(** The three messages of [fixtures.three_messages], stored the other
    way round. *)
Definition three_messages_reversed : storage.Database :=
  {| storage.messages := rev (storage.messages fixtures.three_messages);
     storage.reachable := true |}.

(** The payload of [fixtures.valid_document]. *)
Definition valid_payload : models.WebhookPayload :=
  models.Payload (py "msg-001") (py "+1234567890") (py "+9876543210")
    (py "2024-01-15T10:30:00.000Z") (Some (py "Hello World")).

(* ================================================================== *)
(** * Part III. Properties                                             *)
(* ================================================================== *)

(** Closes a goal [k n rest = true] from a hypothesis on an equal
    position. *)
Ltac same_pos :=
  match goal with
  | H : ?k ?a ?r = true |- ?k ?b ?r = true =>
      replace b with a by (simpl; lia); exact H
  end.

(** ** Strings *)

Lemma str_compare_refl (a : str) : str_compare a a = Eq.
Proof.
  induction a as [|x a IH]; simpl; [reflexivity|].
  rewrite N.compare_refl. exact IH.
Qed.

Lemma str_compare_eq (a b : str) : str_compare a b = Eq <-> a = b.
Proof.
  split; [|intros ->; apply str_compare_refl].
  revert b; induction a as [|x a IH]; intros [|y b]; simpl; try discriminate.
  - reflexivity.
  - destruct (N.compare x y) eqn:E; try discriminate.
    apply N.compare_eq in E. intros Hc. f_equal; [exact E|]. apply IH, Hc.
Qed.

Lemma str_compare_antisym (a b : str) :
  str_compare b a = CompOpp (str_compare a b).
Proof.
  revert b; induction a as [|x a IH]; intros [|y b]; simpl; try reflexivity.
  rewrite (N.compare_antisym x y).
  destruct (N.compare x y); simpl; [apply IH|reflexivity|reflexivity].
Qed.

Lemma str_compare_lt_trans (a b c : str) :
  str_compare a b = Lt -> str_compare b c = Lt -> str_compare a c = Lt.
Proof.
  revert b c; induction a as [|x a IH]; intros [|y b] [|z c]; simpl;
    try discriminate; try reflexivity.
  destruct (N.compare x y) eqn:Exy; try discriminate.
  - apply N.compare_eq in Exy; subst y.
    destruct (N.compare x z); try discriminate; [apply IH|reflexivity].
  - intros _. destruct (N.compare y z) eqn:Eyz; try discriminate.
    + apply N.compare_eq in Eyz; subst z. rewrite Exy. reflexivity.
    + intros _. rewrite N.compare_lt_iff in *.
      assert (Hxz : x < z) by (etransitivity; eassumption).
      apply N.compare_lt_iff in Hxz. rewrite Hxz. reflexivity.
Qed.

Lemma str_eqb_eq (a b : str) : str_eqb a b = true <-> a = b.
Proof.
  unfold str_eqb. rewrite <- str_compare_eq.
  destruct (str_compare a b); split; intros; congruence.
Qed.

Lemma str_eqb_refl (a : str) : str_eqb a a = true.
Proof. apply str_eqb_eq. reflexivity. Qed.

Lemma str_eqb_neq (a b : str) : str_eqb a b = false <-> a <> b.
Proof.
  rewrite <- str_eqb_eq. destruct (str_eqb a b); split; congruence.
Qed.

Lemma str_leb_refl (a : str) : str_leb a a = true.
Proof. unfold str_leb. rewrite str_compare_refl. reflexivity. Qed.

Lemma str_leb_total (a b : str) : str_leb a b = true \/ str_leb b a = true.
Proof.
  unfold str_leb. rewrite (str_compare_antisym a b).
  destruct (str_compare a b); simpl; auto.
Qed.

Lemma str_leb_trans (a b c : str) :
  str_leb a b = true -> str_leb b c = true -> str_leb a c = true.
Proof.
  unfold str_leb.
  destruct (str_compare a b) eqn:Eab; try discriminate;
    destruct (str_compare b c) eqn:Ebc; try discriminate; intros _ _.
  - apply str_compare_eq in Eab, Ebc; subst. rewrite str_compare_refl. reflexivity.
  - apply str_compare_eq in Eab; subst. rewrite Ebc. reflexivity.
  - apply str_compare_eq in Ebc; subst. rewrite Eab. reflexivity.
  - rewrite (str_compare_lt_trans _ _ _ Eab Ebc). reflexivity.
Qed.

Lemma str_leb_antisym (a b : str) :
  str_leb a b = true -> str_leb b a = true -> a = b.
Proof.
  unfold str_leb. rewrite (str_compare_antisym a b).
  destruct (str_compare a b) eqn:E; simpl; try discriminate.
  intros _ _. apply str_compare_eq, E.
Qed.

(** ** ORDER BY *)

Section order_by.
Context {A : Type} (leb : A -> A -> bool).
Hypothesis leb_total : forall a b, leb a b = true \/ leb b a = true.

Let le (a b : A) : Prop := leb a b = true.

Lemma insert_sorted_Permutation (x : A) (l : list A) :
  insert_sorted leb x l ≡ₚ x :: l.
Proof.
  induction l as [|y l IH]; simpl; [reflexivity|].
  destruct (leb x y); [reflexivity|].
  rewrite IH. apply Permutation_swap.
Qed.

Lemma order_by_Permutation (l : list A) : order_by leb l ≡ₚ l.
Proof.
  induction l as [|x l IH]; simpl; [reflexivity|].
  rewrite insert_sorted_Permutation, IH. reflexivity.
Qed.

Lemma order_by_length (l : list A) : length (order_by leb l) = length l.
Proof. apply Permutation_length, order_by_Permutation. Qed.

Lemma insert_sorted_Sorted (x : A) (l : list A) :
  Sorted le l -> Sorted le (insert_sorted leb x l).
Proof.
  induction l as [|y l IH]; simpl; intros Hs.
  - repeat constructor.
  - destruct (leb x y) eqn:E.
    + constructor; [exact Hs|constructor; exact E].
    + inversion Hs as [|? ? Hl Hhd]; subst.
      constructor; [apply IH, Hl|].
      assert (Hyx : le y x) by (destruct (leb_total x y); congruence).
      destruct l as [|z l]; simpl.
      * constructor; exact Hyx.
      * destruct (leb x z); constructor; [exact Hyx|].
        inversion Hhd; subst; assumption.
Qed.

Lemma order_by_Sorted (l : list A) : Sorted le (order_by leb l).
Proof.
  induction l as [|x l IH]; simpl; [constructor|].
  apply insert_sorted_Sorted, IH.
Qed.

End order_by.

(** ** The message store: insertion *)

Lemma has_key_true (id : str) (rows : list storage.Row) :
  storage.has_key id rows = true <->
  exists r, r ∈ rows /\ storage.message_id r = id.
Proof.
  unfold storage.has_key. rewrite existsb_exists. split.
  - intros (r & Hin & Heq). exists r. split.
    + apply list_elem_of_In, Hin.
    + apply str_eqb_eq, Heq.
  - intros (r & Hin & Heq). exists r. split.
    + apply list_elem_of_In, Hin.
    + apply str_eqb_eq, Heq.
Qed.

Lemma has_key_false (id : str) (rows : list storage.Row) :
  storage.has_key id rows = false <->
  forall r, r ∈ rows -> storage.message_id r <> id.
Proof.
  split.
  - intros Hf r Hin Heq.
    assert (storage.has_key id rows = true) by (apply has_key_true; eauto).
    congruence.
  - intros Hall. destruct (storage.has_key id rows) eqn:E; [|reflexivity].
    apply has_key_true in E as (r & Hin & Heq). destruct (Hall r Hin Heq).
Qed.

(** C1.  Insertion is idempotent by [message_id]: when a row with the key
    is stored and SQLite can use the file, [insert_message] with that key
    and any other field values returns [(True, True)] (success, duplicate)
    and leaves the database as it was, so the stored row keeps every
    field, [text] and the original [created_at] included. *)
Theorem insert_message_idempotent (db : storage.Database)
    (row : storage.Row) (from_msisdn to_msisdn ts : str)
    (text : option str) (now : str) :
  row ∈ storage.messages db ->
  storage.reachable db = true ->
  storage.insert_message db (storage.message_id row)
    from_msisdn to_msisdn ts text now = (db, (true, true)).
Proof.
  intros Hin Hup. unfold storage.insert_message. rewrite Hup.
  assert (Hk : storage.has_key (storage.message_id row) (storage.messages db) = true).
  { apply has_key_true. exists row. split; [exact Hin|reflexivity]. }
  rewrite Hk. reflexivity.
Qed.

(** A first insertion stores the row as given, stamped with the clock
    reading of that call, and reports it as new. *)
Lemma insert_message_fresh (db : storage.Database)
    (id from_msisdn to_msisdn ts : str) (text : option str) (now : str) :
  storage.reachable db = true ->
  (forall r, r ∈ storage.messages db -> storage.message_id r <> id) ->
  exists db',
    storage.insert_message db id from_msisdn to_msisdn ts text now
      = (db', (true, false)) /\
    storage.messages db' =
      storage.messages db ++
        [storage.Build_Row id from_msisdn to_msisdn ts text now] /\
    storage.reachable db' = true.
Proof.
  intros Hup Hfresh. unfold storage.insert_message. rewrite Hup.
  apply has_key_false in Hfresh. rewrite Hfresh.
  eexists. split; [reflexivity|]. split; reflexivity.
Qed.

(** X13.  No call of [insert_message] removes or alters a stored row,
    whatever it returns. *)
Lemma insert_message_keeps_rows (db : storage.Database)
    (id from_msisdn to_msisdn ts : str) (text : option str) (now : str)
    (r : storage.Row) :
  r ∈ storage.messages db ->
  r ∈ storage.messages
        (storage.insert_message db id from_msisdn to_msisdn ts text now).1.
Proof.
  intros Hin. unfold storage.insert_message.
  destruct (storage.reachable db); [|exact Hin].
  destruct (storage.has_key id (storage.messages db)); [exact Hin|].
  simpl. apply elem_of_app. left. exact Hin.
Qed.

(** X12.  The primary key stays a key: if no two stored rows share a
    [message_id], none do after an insertion. *)
Lemma insert_message_primary_key (db : storage.Database)
    (id from_msisdn to_msisdn ts : str) (text : option str) (now : str) :
  NoDup (map storage.message_id (storage.messages db)) ->
  NoDup (map storage.message_id
           (storage.messages
              (storage.insert_message db id from_msisdn to_msisdn ts text now).1)).
Proof.
  intros Hnd. unfold storage.insert_message.
  destruct (storage.reachable db); [|exact Hnd].
  destruct (storage.has_key id (storage.messages db)) eqn:Hk; [exact Hnd|].
  simpl. rewrite map_app. simpl.
  apply NoDup_app. split; [exact Hnd|]. split.
  - intros x Hx Hx'. apply list_elem_of_singleton in Hx'. subst x.
    apply list_elem_of_fmap in Hx as (r & Heq & Hr).
    rewrite has_key_false in Hk. apply (Hk r Hr). symmetry. exact Heq.
  - apply NoDup_singleton.
Qed.

(** Two deliveries of one [message_id]: the first is stored, the second,
    whatever its other fields and its clock, is a duplicate and changes
    nothing. *)
Lemma insert_message_twice (db : storage.Database)
    (id f1 t1 s1 : str) (x1 : option str) (now1 : str)
    (f2 t2 s2 : str) (x2 : option str) (now2 : str) :
  storage.reachable db = true ->
  let db1 := (storage.insert_message db id f1 t1 s1 x1 now1).1 in
  storage.insert_message db1 id f2 t2 s2 x2 now2 = (db1, (true, true)).
Proof.
  intros Hup. simpl.
  destruct (storage.has_key id (storage.messages db)) eqn:Hk.
  - assert (E : storage.insert_message db id f1 t1 s1 x1 now1
                = (db, (true, true))).
    { unfold storage.insert_message. rewrite Hup, Hk. reflexivity. }
    rewrite E. simpl. unfold storage.insert_message.
    rewrite Hup, Hk. reflexivity.
  - destruct (insert_message_fresh db id f1 t1 s1 x1 now1 Hup)
      as (db' & E & Hrows & Hup').
    { apply has_key_false, Hk. }
    rewrite E. simpl. unfold storage.insert_message. rewrite Hup'.
    assert (Hk' : storage.has_key id (storage.messages db') = true).
    { apply has_key_true. exists (storage.Build_Row id f1 t1 s1 x1 now1).
      split; [|reflexivity]. rewrite Hrows. apply elem_of_app.
      right. apply list_elem_of_singleton. reflexivity. }
    rewrite Hk'. reflexivity.
Qed.

(** ** Regular expressions *)

Lemma many1_spec (p : char -> bool) (k : nat -> str -> bool) (s : str)
    (pos : nat) :
  many1 p pos s k = true <->
  exists ds rest, s = ds ++ rest /\ ds <> [] /\ forallb p ds = true
                  /\ k (pos + length ds)%nat rest = true.
Proof.
  revert pos. induction s as [|c s IH]; intros pos; simpl.
  - split; [discriminate|].
    intros (ds & rest & Heq & Hne & _).
    destruct ds; [congruence|discriminate].
  - rewrite andb_true_iff, orb_true_iff, IH. split.
    + intros [Hc [(ds & rest & -> & Hne & Hall & Hk)|Hk]].
      * exists (c :: ds), rest. simpl. rewrite Hc, Hall.
        repeat split; [discriminate|same_pos].
      * exists [c], s. simpl. rewrite Hc.
        repeat split; [discriminate|same_pos].
    + intros (ds & rest & Heq & Hne & Hall & Hk).
      destruct ds as [|c' ds]; [congruence|].
      simpl in Heq. injection Heq as -> ->.
      simpl in Hall. apply andb_true_iff in Hall as [Hc Hall].
      split; [exact Hc|].
      destruct ds as [|c'' ds].
      * right. simpl. same_pos.
      * left. exists (c'' :: ds), rest.
        repeat split; [discriminate|exact Hall|same_pos].
Qed.

Lemma times_spec (n : nat) (p : char -> bool) (k : nat -> str -> bool)
    (s : str) (pos : nat) :
  times n p pos s k = true <->
  exists ds rest, s = ds ++ rest /\ length ds = n /\ forallb p ds = true
                  /\ k (pos + n)%nat rest = true.
Proof.
  revert s pos. induction n as [|n IH]; intros s pos; simpl.
  - split.
    + intros Hk. exists [], s. repeat split. same_pos.
    + intros (ds & rest & -> & Hlen & _ & Hk).
      destruct ds; [|discriminate]. simpl. same_pos.
  - destruct s as [|c s].
    + split; [discriminate|].
      intros (ds & rest & Heq & Hlen & _). destruct ds; discriminate.
    + rewrite andb_true_iff, IH. split.
      * intros [Hc (ds & rest & -> & Hlen & Hall & Hk)].
        exists (c :: ds), rest. simpl. rewrite Hc, Hall, Hlen.
        repeat split. same_pos.
      * intros (ds & rest & Heq & Hlen & Hall & Hk).
        destruct ds as [|c' ds]; [discriminate|].
        simpl in Heq, Hlen, Hall. injection Heq as -> ->.
        apply andb_true_iff in Hall as [Hc Hall].
        split; [exact Hc|]. exists ds, rest.
        repeat split; [lia|exact Hall|same_pos].
Qed.

Section dialects.
Context (d1 d2 : dialect).
Hypothesis digit_le : forall c, digit d1 c = true -> digit d2 c = true.
Hypothesis dollar_le : forall s, dollar d1 s = true -> dollar d2 s = true.

Lemma atom_ok_mono (a : atom) (c : char) :
  atom_ok d1 a c = true -> atom_ok d2 a c = true.
Proof. destruct a; simpl; [tauto|apply digit_le]. Qed.

(** A pattern read in [d2] matches whatever it matches read in [d1],
    when [d2] has at least the digits and the line ends of [d1]. *)
Lemma re_run_mono (r : regex) :
  forall pos s (k1 k2 : nat -> str -> bool),
    (forall p t, k1 p t = true -> k2 p t = true) ->
    re_run d1 r pos s k1 = true -> re_run d2 r pos s k2 = true.
Proof.
  induction r as [| |a|a|n a|r1 IH1 r2 IH2|r IH]; intros pos s k1 k2 Hk; simpl.
  - rewrite !andb_true_iff. intros [? ?]; auto.
  - rewrite !andb_true_iff. intros [? ?]; auto.
  - destruct s as [|c s]; [discriminate|].
    rewrite !andb_true_iff. intros [? ?]. split; [apply atom_ok_mono|]; auto.
  - rewrite !many1_spec. intros (ds & rest & -> & Hne & Hall & Hk1).
    exists ds, rest. repeat split; auto.
    rewrite forallb_forall in *. intros c Hc. apply atom_ok_mono, Hall, Hc.
  - rewrite !times_spec. intros (ds & rest & -> & Hlen & Hall & Hk1).
    exists ds, rest. repeat split; auto.
    rewrite forallb_forall in *. intros c Hc. apply atom_ok_mono, Hall, Hc.
  - apply IH1. intros p t. apply IH2, Hk.
  - rewrite !orb_true_iff. intros [Hr|Hk1]; [left|right; auto].
    revert Hr. apply IH, Hk.
Qed.

End dialects.

(** The matcher finds a match exactly where the pattern has one: it
    succeeds on [s] with the rest of the pattern [k] when [s] splits into
    a part the pattern matches and a rest that [k] accepts. *)
Lemma re_run_denote (d : dialect) (r : regex) :
  forall pos s (k : nat -> str -> bool),
    re_run d r pos s k = true <->
    exists m rest, s = m ++ rest /\ denote d r pos m rest
                   /\ k (pos + length m)%nat rest = true.
Proof.
  induction r as [| |a|a|n a|r1 IH1 r2 IH2|r IH]; intros pos s k; simpl.
  - rewrite andb_true_iff, Nat.eqb_eq. split.
    + intros [Hp Hk]. exists [], s. repeat split; auto. same_pos.
    + intros (m & rest & -> & [-> Hp] & Hk). split; [exact Hp|]. simpl.
      same_pos.
  - rewrite andb_true_iff. split.
    + intros [Hd Hk]. exists [], s. repeat split; auto. same_pos.
    + intros (m & rest & -> & [-> Hd] & Hk). split; [exact Hd|]. simpl.
      same_pos.
  - destruct s as [|c s].
    + split; [discriminate|].
      intros (m & rest & Heq & (c & -> & _) & _). discriminate.
    + rewrite andb_true_iff. split.
      * intros [Ha Hk]. exists [c], s. repeat split; eauto. same_pos.
      * intros (m & rest & Heq & (c' & -> & Ha) & Hk).
        injection Heq as -> ->. split; [exact Ha|]. same_pos.
  - rewrite many1_spec. split.
    + intros (ds & rest & -> & Hne & Hall & Hk). exists ds, rest. auto.
    + intros (m & rest & -> & [Hne Hall] & Hk). exists m, rest. auto.
  - rewrite times_spec. split.
    + intros (ds & rest & -> & Hlen & Hall & Hk). exists ds, rest.
      repeat split; auto. same_pos.
    + intros (m & rest & -> & [Hlen Hall] & Hk). exists m, rest.
      repeat split; auto. same_pos.
  - rewrite IH1. split.
    + intros (u & rest1 & -> & Hu & Hr2).
      apply IH2 in Hr2 as (v & rest & -> & Hv & Hk).
      exists (u ++ v), rest. rewrite <- app_assoc. split; [reflexivity|].
      split; [exists u, v; auto|]. rewrite length_app. same_pos.
    + intros (m & rest & -> & (u & v & -> & Hu & Hv) & Hk).
      exists u, (v ++ rest). rewrite <- app_assoc. split; [reflexivity|].
      split; [exact Hu|]. apply IH2. exists v, rest.
      repeat split; auto. rewrite length_app in Hk. same_pos.
  - rewrite orb_true_iff, IH. split.
    + intros [(m & rest & -> & Hm & Hk)|Hk].
      * exists m, rest. auto.
      * exists [], s. repeat split; auto. same_pos.
    + intros (m & rest & -> & [->|Hm] & Hk).
      * right. simpl. same_pos.
      * left. exists m, rest. auto.
Qed.

(** [re.match(r, s)] succeeds exactly when [r] matches a prefix of [s]. *)
Lemma re_match_denote (r : regex) (s : str) :
  re_match r s = true <->
  exists m rest, s = m ++ rest /\ denote python_re r 0 m rest.
Proof.
  unfold re_match. rewrite re_run_denote. split.
  - intros (m & rest & Heq & Hm & _). eauto.
  - intros (m & rest & Heq & Hm). exists m, rest. auto.
Qed.

Lemma ascii_digit_decimal (c : char) :
  ascii_digit c = true -> uni_isdecimal c = true.
Proof.
  intros Hc. unfold uni_isdecimal. apply orb_true_iff. left.
  apply existsb_exists. exists 0x30. split; [|exact Hc].
  unfold decimal_runs. left. reflexivity.
Qed.

(** Python's [re.match] finds a match wherever the strict reading of the
    pattern has a full match. *)
Lemma fullmatch_re_match (r : regex) (s : str) :
  spec.fullmatch r s = true -> re_match r s = true.
Proof.
  unfold spec.fullmatch, re_match.
  apply re_run_mono; [exact ascii_digit_decimal| |auto].
  intros [|c t]; simpl; [reflexivity|discriminate].
Qed.

(** X3.  What [re.match(r'^\+\d+$', v)] accepts: a plus sign and one or more
    Unicode decimal digits, with or without one newline after them. *)
Lemma re_match_E164 (v : str) :
  re_match E164_RE v = true <->
  exists ds, ds <> [] /\ forallb uni_isdecimal ds = true
             /\ (v = 43 :: ds \/ v = 43 :: ds ++ [10]).
Proof.
  unfold re_match, E164_RE. simpl.
  destruct v as [|c v].
  - split; [discriminate|]. intros (ds & _ & _ & [H|H]); discriminate.
  - rewrite andb_true_iff, many1_spec. split.
    + intros [Hc (ds & rest & -> & Hne & Hall & Hk)].
      apply N.eqb_eq in Hc. subst c.
      exists ds. repeat split; [exact Hne|exact Hall|].
      apply andb_true_iff in Hk as [Hk _].
      destruct rest as [|x [|y rest]]; simpl in Hk; try discriminate.
      * left. rewrite app_nil_r. reflexivity.
      * right. apply N.eqb_eq in Hk. subst x. reflexivity.
    + intros (ds & Hne & Hall & [Hv|Hv]); injection Hv as -> ->.
      * split; [reflexivity|]. exists ds, []. rewrite app_nil_r.
        repeat split; [exact Hne|exact Hall].
      * split; [reflexivity|]. exists ds, [10].
        repeat split; [exact Hne|exact Hall].
Qed.

(** The strict reading of the same pattern: a plus sign and one or more
    ASCII digits, nothing else. *)
Lemma fullmatch_E164 (v : str) :
  spec.fullmatch E164_RE v = true <->
  exists ds, ds <> [] /\ forallb ascii_digit ds = true /\ v = 43 :: ds.
Proof.
  unfold spec.fullmatch, E164_RE. simpl.
  destruct v as [|c v].
  - split; [discriminate|]. intros (ds & _ & _ & H); discriminate.
  - rewrite andb_true_iff, many1_spec. split.
    + intros [Hc (ds & rest & -> & Hne & Hall & Hk)].
      apply N.eqb_eq in Hc. subst c.
      exists ds. repeat split; [exact Hne|exact Hall|].
      destruct rest; [|discriminate]. rewrite app_nil_r. reflexivity.
    + intros (ds & Hne & Hall & Hv); injection Hv as -> ->.
      split; [reflexivity|]. exists ds, []. rewrite app_nil_r.
      repeat split; [exact Hne|exact Hall].
Qed.

(** Steps through a match of the timestamp pattern: a literal or a run
    of digits taken from a hypothesis, or given to a goal. *)
Ltac take_literal H s :=
  let c := fresh "c" in
  let Hc := fresh "Hc" in
  destruct s as [|c s]; [discriminate H|];
  apply andb_true_iff in H as [Hc H];
  apply N.eqb_eq in Hc; subst c.

Ltac take_digits H ds r :=
  let Hl := fresh "Hl" in
  let Hd := fresh "Hd" in
  apply times_spec in H as (ds & r & -> & Hl & Hd & H).

Ltac give_literal := apply andb_true_iff; split; [reflexivity|].

Ltac give_digits :=
  apply times_spec; eexists _, _;
  split; [reflexivity|]; split; [eassumption|]; split; [eassumption|];
  cbn beta iota delta [app atom_ok].

(** X4.  What [re.match] accepts for the timestamp pattern: the date and
    time fields in Unicode decimal digits, an optional fraction, [Z], and
    then nothing or one newline. *)
Lemma re_match_ISO8601 (v : str) :
  re_match ISO8601_RE v = true <->
  exists Y M D h mi sec frac tail,
    v = Y ++ [45] ++ M ++ [45] ++ D ++ [84] ++ h ++ [58] ++ mi ++ [58]
        ++ sec ++ frac ++ [90] ++ tail
    /\ decimal_digits 4 Y /\ decimal_digits 2 M /\ decimal_digits 2 D
    /\ decimal_digits 2 h /\ decimal_digits 2 mi /\ decimal_digits 2 sec
    /\ (frac = []
        \/ exists ds, frac = 46 :: ds /\ ds <> []
                      /\ forallb uni_isdecimal ds = true)
    /\ (tail = [] \/ tail = [10]).
Proof.
  unfold decimal_digits. split.
  - intros H. unfold re_match, ISO8601_RE in H. cbn [seq re_run] in H.
    change (atom_ok python_re Digit) with uni_isdecimal in H.
    cbn [atom_ok] in H.
    apply andb_true_iff in H as [_ H].
    take_digits H Y r1. take_literal H r1.
    take_digits H M r2. take_literal H r2.
    take_digits H D r3. take_literal H r3.
    take_digits H h r4. take_literal H r4.
    take_digits H mi r5. take_literal H r5.
    take_digits H sec r.
    apply orb_true_iff in H as [H|H].
    + take_literal H r.
      apply many1_spec in H as (ds & r' & -> & Hne & Hall & H).
      take_literal H r'. apply andb_true_iff in H as [H _].
      exists Y, M, D, h, mi, sec, (46 :: ds), r'.
      split; [reflexivity|].
      do 6 (split; [split; assumption|]).
      split; [right; eauto|].
      destruct r' as [|x [|y r']]; simpl in H; try discriminate; auto.
      apply N.eqb_eq in H. subst. auto.
    + take_literal H r. apply andb_true_iff in H as [H _].
      exists Y, M, D, h, mi, sec, [], r.
      split; [reflexivity|].
      do 6 (split; [split; assumption|]).
      split; [left; reflexivity|].
      destruct r as [|x [|y r]]; simpl in H; try discriminate; auto.
      apply N.eqb_eq in H. subst. auto.
  - intros (Y & M & D & h & mi & sec & frac & tail & -> & [? ?] & [? ?]
            & [? ?] & [? ?] & [? ?] & [? ?] & Hfrac & Htail).
    unfold re_match, ISO8601_RE. cbn [seq re_run].
    change (atom_ok python_re Digit) with uni_isdecimal.
    apply andb_true_iff. split; [reflexivity|].
    give_digits. give_literal.
    give_digits. give_literal.
    give_digits. give_literal.
    give_digits. give_literal.
    give_digits. give_literal.
    give_digits.
    assert (Htl : dollar python_re tail && true = true)
      by (destruct Htail as [->| ->]; reflexivity).
    destruct Hfrac as [->|(ds & -> & Hne & Hall)]; apply orb_true_iff.
    + right. simpl app. give_literal. exact Htl.
    + left. simpl app. give_literal. apply many1_spec.
      exists ds, (90 :: tail). repeat split; auto.
Qed.

(** ** The payload validator *)

Lemma required_str_Ok (key : str) (check : str -> result error_type str)
    (fields : list (str * json)) (v : str) :
  models.required_str key check fields = Ok v <->
  exists s, obj_get key fields = Some (JStr s) /\ check s = Ok v.
Proof.
  unfold models.required_str.
  destruct (obj_get key fields) as [[| | |s| |]|]; split;
    try discriminate; try (intros (s' & Hs & _); discriminate).
  - destruct (check s) eqn:E; [|discriminate].
    intros [= ->]. exists s. split; [reflexivity|exact E].
  - intros (s' & [= <-] & ->). reflexivity.
Qed.

Lemma validate_e164_Ok (s v : str) :
  models.validate_e164 s = Ok v <-> v = s /\ re_match E164_RE s = true.
Proof.
  unfold models.validate_e164. destruct (re_match E164_RE s); split.
  - intros [= ->]. split; reflexivity.
  - intros [-> _]. reflexivity.
  - discriminate.
  - intros [_ ?]; discriminate.
Qed.

Lemma validate_iso8601_Ok (s v : str) :
  models.validate_iso8601 s = Ok v <-> v = s /\ re_match ISO8601_RE s = true.
Proof.
  unfold models.validate_iso8601. destruct (re_match ISO8601_RE s); split.
  - intros [= ->]. split; reflexivity.
  - intros [-> _]. reflexivity.
  - discriminate.
  - intros [_ ?]; discriminate.
Qed.

Lemma min_length_1_Ok (s v : str) :
  models.min_length_1 s = Ok v <-> v = s /\ s <> [].
Proof.
  unfold models.min_length_1.
  destruct (length s <? 1)%nat eqn:L.
  - apply Nat.ltb_lt in L. split; [discriminate|].
    intros [_ Hne]. destruct s; [congruence|simpl in L; lia].
  - apply Nat.ltb_ge in L. split.
    + intros [= ->]. split; [reflexivity|]. intros ->. simpl in L. lia.
    + intros [-> _]. reflexivity.
Qed.

Lemma optional_text_Ok (fields : list (str * json)) (x : option str) :
  models.optional_text fields = Ok x <->
  (obj_get (py "text") fields = None /\ x = None)
  \/ (obj_get (py "text") fields = Some JNull /\ x = None)
  \/ (exists v, obj_get (py "text") fields = Some (JStr v)
                /\ (length v <= 4096)%nat /\ x = Some v).
Proof.
  unfold models.optional_text.
  destruct (obj_get (py "text") fields) as [[| | |s| |]|];
    try (split;
         [discriminate
         |intros [[? _]|[[? _]|(v & ? & _)]]; discriminate]).
  - split.
    + intros [= <-]. right; left. split; reflexivity.
    + intros [[? _]|[[_ ->]|(v & ? & _)]]; try discriminate. reflexivity.
  - destruct (4096 <? length s)%nat eqn:L.
    + apply Nat.ltb_lt in L. split; [discriminate|].
      intros [[? _]|[[? _]|(v & [= <-] & ? & _)]]; try discriminate. lia.
    + apply Nat.ltb_ge in L. split.
      * intros [= <-]. right; right. exists s. auto.
      * intros [[? _]|[[? _]|(v & [= <-] & _ & ->)]]; try discriminate.
        reflexivity.
  - split.
    + intros [= <-]. left. split; reflexivity.
    + intros [[_ ->]|[[? _]|(v & ? & _)]]; try discriminate. reflexivity.
Qed.

Lemma model_validate_fields (fields : list (str * json))
    (p : models.WebhookPayload) :
  models.model_validate (JObj fields) = Ok p <->
  models.required_str (py "message_id") models.min_length_1 fields
    = Ok (models.message_id p) /\
  models.required_str (py "from") models.validate_e164 fields
    = Ok (models.from_ p) /\
  models.required_str (py "to") models.validate_e164 fields
    = Ok (models.to p) /\
  models.required_str (py "ts") models.validate_iso8601 fields
    = Ok (models.ts p) /\
  models.optional_text fields = Ok (models.text p).
Proof.
  unfold models.model_validate.
  generalize (models.required_str (py "message_id") models.min_length_1 fields).
  generalize (models.required_str (py "from") models.validate_e164 fields).
  generalize (models.required_str (py "to") models.validate_e164 fields).
  generalize (models.required_str (py "ts") models.validate_iso8601 fields).
  generalize (models.optional_text fields).
  intros [x|ex] [s|es] [t|et] [f|ef] [i|ei]; cbv zeta;
    (split;
     [ try discriminate
     | try (intros (H1 & H2 & H3 & H4 & H5); discriminate) ]).
  - intros [= <-]. simpl. repeat split.
  - intros (H1 & H2 & H3 & H4 & H5). destruct p; simpl in *. congruence.
Qed.

(** What [model_validate] accepts, and what it makes of it: the payload
    holds the values of the document as they are. *)
Lemma model_validate_Ok (j : json) (p : models.WebhookPayload) :
  models.model_validate j = Ok p <->
  exists fields, j = JObj fields /\
    obj_get (py "message_id") fields = Some (JStr (models.message_id p)) /\
    models.message_id p <> [] /\
    obj_get (py "from") fields = Some (JStr (models.from_ p)) /\
    re_match E164_RE (models.from_ p) = true /\
    obj_get (py "to") fields = Some (JStr (models.to p)) /\
    re_match E164_RE (models.to p) = true /\
    obj_get (py "ts") fields = Some (JStr (models.ts p)) /\
    re_match ISO8601_RE (models.ts p) = true /\
    ((obj_get (py "text") fields = None /\ models.text p = None)
     \/ (obj_get (py "text") fields = Some JNull /\ models.text p = None)
     \/ (exists v, obj_get (py "text") fields = Some (JStr v)
                   /\ (length v <= 4096)%nat /\ models.text p = Some v)).
Proof.
  destruct j as [| | | | |fields];
    try (split; [discriminate|intros (? & ? & _); discriminate]).
  rewrite model_validate_fields, !required_str_Ok, optional_text_Ok.
  split.
  - intros ((vi & Hi & Hci) & (vf & Hf & Hcf) & (vt & Ht & Hct)
            & (vs & Hs & Hcs) & Hx).
    apply min_length_1_Ok in Hci as [-> Hne].
    apply validate_e164_Ok in Hcf as [-> Hfm].
    apply validate_e164_Ok in Hct as [-> Htm].
    apply validate_iso8601_Ok in Hcs as [-> Hsm].
    exists fields. repeat (split; [assumption || reflexivity|]). exact Hx.
  - intros (fl & [= <-] & Hi & Hine & Hf & Hfm & Ht & Htm & Hs & Hsm & Hx).
    split; [|split; [|split; [|split]]].
    + eexists; split; [exact Hi|]. apply min_length_1_Ok. auto.
    + eexists; split; [exact Hf|]. apply validate_e164_Ok. auto.
    + eexists; split; [exact Ht|]. apply validate_e164_Ok. auto.
    + eexists; split; [exact Hs|]. apply validate_iso8601_Ok. auto.
    + exact Hx.
Qed.

(** X1.  The validator accepts a document exactly when: it is an object,
    [message_id] is a string that is not empty, [from], [to] and [ts] are
    strings on which [re.match] finds a match of the field's pattern, and
    [text] is absent, null or a string of at most 4096 characters. The
    payload then holds the values of the document as they are. *)
Theorem model_validate_accepts_exactly (j : json)
    (p : models.WebhookPayload) :
  models.model_validate j = Ok p <->
  exists fields, j = JObj fields /\
    obj_get (py "message_id") fields = Some (JStr (models.message_id p)) /\
    models.message_id p <> [] /\
    obj_get (py "from") fields = Some (JStr (models.from_ p)) /\
    re_match E164_RE (models.from_ p) = true /\
    obj_get (py "to") fields = Some (JStr (models.to p)) /\
    re_match E164_RE (models.to p) = true /\
    obj_get (py "ts") fields = Some (JStr (models.ts p)) /\
    re_match ISO8601_RE (models.ts p) = true /\
    ((obj_get (py "text") fields = None /\ models.text p = None)
     \/ (obj_get (py "text") fields = Some JNull /\ models.text p = None)
     \/ (exists v, obj_get (py "text") fields = Some (JStr v)
                   /\ (length v <= 4096)%nat /\ models.text p = Some v)).
Proof. exact (model_validate_Ok j p). Qed.

(** X2.  The validator accepts every document the specification's rules
    accept. *)
Lemma model_validate_accepts_acceptable (j : json) :
  spec.acceptable j -> exists p, models.model_validate j = Ok p.
Proof.
  intros (fields & -> & (vi & Hi & Hne) & (vf & Hf & Hfm) & (vt & Ht & Htm)
          & (vs & Hs & Hsm) & Hx).
  assert (Hx' : exists x,
    (obj_get (py "text") fields = None /\ x = None)
    \/ (obj_get (py "text") fields = Some JNull /\ x = None)
    \/ (exists v, obj_get (py "text") fields = Some (JStr v)
                  /\ (length v <= 4096)%nat /\ x = Some v)).
  { destruct Hx as [Hx|[Hx|(v & Hx & Hlen)]].
    - exists None. left. auto.
    - exists None. right; left. auto.
    - exists (Some v). right; right. exists v. auto. }
  destruct Hx' as (x & Hx').
  exists (models.Payload vi vf vt vs x).
  apply model_validate_Ok. exists fields. simpl.
  repeat (split; [solve [assumption | reflexivity
                        | apply fullmatch_re_match; assumption]|]).
  exact Hx'.
Qed.

(** C3.  The validator accepts documents that the stated rules reject:
    [re.match] with [$] lets one trailing newline through in [from], [to]
    and [ts], and [\d] admits every Unicode decimal digit.  Each of the
    three documents is validated into a payload that keeps the offending
    value, and none is acceptable under exact full-string matching with
    ASCII digits. *)
Theorem model_validate_accepts_unanchored :
  (models.model_validate fixtures.from_with_newline
     = Ok (models.Payload (py "m1") (py "+123" ++ [10]) (py "+456")
             (py "2024-01-15T10:30:00Z") None)
   /\ ~ spec.acceptable fixtures.from_with_newline)
  /\ (models.model_validate fixtures.to_in_arabic_indic_digits
        = Ok (models.Payload (py "m1") (py "+123") [43; 0x664; 0x665; 0x666]
                (py "2024-01-15T10:30:00Z") None)
      /\ ~ spec.acceptable fixtures.to_in_arabic_indic_digits)
  /\ (models.model_validate fixtures.ts_with_newline
        = Ok (models.Payload (py "m1") (py "+123") (py "+456")
                (py "2024-01-15T10:30:00Z" ++ [10]) None)
      /\ ~ spec.acceptable fixtures.ts_with_newline).
Proof.
  repeat split; try (vm_compute; reflexivity).
  - intros (fields & [= <-] & _ & (v & Hget & Hm) & _).
    vm_compute in Hget. injection Hget as <-. vm_compute in Hm. discriminate.
  - intros (fields & [= <-] & _ & _ & (v & Hget & Hm) & _).
    vm_compute in Hget. injection Hget as <-. vm_compute in Hm. discriminate.
  - intros (fields & [= <-] & _ & _ & _ & (v & Hget & Hm) & _).
    vm_compute in Hget. injection Hget as <-. vm_compute in Hm. discriminate.
Qed.

(** The bound on [text] is on its length in characters, 4096 included. *)
Lemma model_validate_text_bound (fields : list (str * json)) (v : str) :
  obj_get (py "text") fields = Some (JStr v) ->
  (exists p, models.model_validate (JObj fields) = Ok p) ->
  (length v <= 4096)%nat.
Proof.
  intros Hget (p & Hp). apply model_validate_Ok in Hp
    as (fl & [= <-] & _ & _ & _ & _ & _ & _ & _ & _ & Hx).
  rewrite Hget in Hx.
  destruct Hx as [[? _]|[[? _]|(w & [= <-] & Hlen & _)]];
    try discriminate. exact Hlen.
Qed.


(** ** Digests and their comparison *)

Lemma fold_lor_lxor_zero (l : list (N * N)) (acc : N) :
  fold_left (fun acc xy => N.lor acc (N.lxor (fst xy) (snd xy))) l acc = 0
  <-> acc = 0 /\ Forall (fun xy => fst xy = snd xy) l.
Proof.
  revert acc. induction l as [|[x y] l IH]; intros acc; simpl.
  - split; [intros ->; split; [reflexivity|constructor]|intros [-> _]; reflexivity].
  - rewrite IH, N.lor_eq_0_iff. split.
    + intros [[-> Hxy] Hl]. split; [reflexivity|].
      constructor; [apply N.lxor_eq, Hxy|exact Hl].
    + intros [-> Hall]. inversion Hall as [|? ? Hxy Hl]; subst.
      simpl in Hxy. subst y. rewrite N.lxor_nilpotent. auto.
Qed.

Lemma combine_all_equal (a b : str) :
  length a = length b ->
  Forall (fun xy : N * N => fst xy = snd xy) (combine a b) <-> a = b.
Proof.
  revert b. induction a as [|x a IH]; intros [|y b] Hlen; simpl in *;
    try discriminate.
  - split; [reflexivity|constructor].
  - injection Hlen as Hlen. split.
    + intros Hall. inversion Hall as [|? ? Hxy Hl]; subst. simpl in Hxy.
      subst y. f_equal. apply IH; assumption.
    + intros [= -> ->]. constructor; [reflexivity|]. apply IH; auto.
Qed.

(** The comparison loop decides equality. *)
Lemma tscmp_eq (a b : str) : tscmp a b = true <-> a = b.
Proof.
  unfold tscmp. rewrite N.eqb_eq, fold_lor_lxor_zero.
  destruct (Nat.eqb (length a) (length b)) eqn:El.
  - apply Nat.eqb_eq in El. rewrite (combine_all_equal a b El). tauto.
  - apply Nat.eqb_neq in El. split.
    + intros [? _]. discriminate.
    + intros ->. congruence.
Qed.

Lemma hex_char_ascii (n : N) : n < 16 -> hex_char n < 128.
Proof. intros Hn. unfold hex_char. destruct (n <? 10); lia. Qed.

Lemma hex_char_lowercase (n : N) :
  n < 16 -> in_range 48 57 (hex_char n) || in_range 97 102 (hex_char n) = true.
Proof.
  intros Hn. unfold in_range, hex_char.
  destruct (N.ltb_spec n 10); apply orb_true_iff; [left|right];
    apply andb_true_iff; split; apply N.leb_le; lia.
Qed.

Lemma nibbles_bounded (b : Byte.byte) :
  Byte.to_N b / 16 < 16 /\ Byte.to_N b mod 16 < 16.
Proof.
  pose proof (Byte.to_N_bounded b) as Hb. revert Hb.
  generalize (Byte.to_N b). intros n Hn. split.
  - apply N.Div0.div_lt_upper_bound. lia.
  - apply N.mod_lt. lia.
Qed.

Lemma hexdigest_ascii (digest : bytes) : is_ascii (hexdigest digest) = true.
Proof.
  unfold is_ascii, hexdigest. apply forallb_forall. intros c Hc.
  apply in_flat_map in Hc as (b & _ & Hc).
  destruct (nibbles_bounded b) as [H1 H2].
  apply N.ltb_lt.
  destruct Hc as [<-|[<-|[]]]; apply hex_char_ascii; assumption.
Qed.

(** Every character of a hex digest is one of [0-9a-f]. *)
Lemma hexdigest_lowercase (digest : bytes) (c : char) :
  In c (hexdigest digest) -> in_range 48 57 c || in_range 97 102 c = true.
Proof.
  unfold hexdigest. intros Hc. apply in_flat_map in Hc as (b & _ & Hc).
  destruct (nibbles_bounded b) as [H1 H2].
  destruct Hc as [<-|[<-|[]]]; apply hex_char_lowercase; assumption.
Qed.

Lemma hexdigest_length (digest : bytes) :
  length (hexdigest digest) = (2 * length digest)%nat.
Proof.
  unfold hexdigest. induction digest as [|b d IH]; simpl; [reflexivity|].
  rewrite IH. lia.
Qed.

(** [compare_digest] against a hex digest answers [True] for the digest
    itself and for nothing else; it raises for a string that is not
    ASCII. *)
Lemma compare_digest_hexdigest (digest : bytes) (signature : str) :
  compare_digest (hexdigest digest) signature =
    if is_ascii signature
    then Ok (bool_decide (signature = hexdigest digest))
    else Err TypeError.
Proof.
  unfold compare_digest. rewrite hexdigest_ascii. simpl.
  destruct (is_ascii signature); [|reflexivity].
  f_equal. destruct (tscmp (hexdigest digest) signature) eqn:E.
  - apply tscmp_eq in E. symmetry. apply bool_decide_eq_true. auto.
  - symmetry. apply bool_decide_eq_false. intros ->.
    assert (tscmp (hexdigest digest) (hexdigest digest) = true)
      by (apply tscmp_eq; reflexivity).
    congruence.
Qed.

(** ** The signature verifier *)

Section verifier.
Context `{RT : Runtime}.

Lemma verify_signature_absent (env : main.Env) (body : bytes)
    (signature : option str) (s : main.State) :
  opt_truthy signature = false ->
  main.verify_signature env body signature s = (main.Return false, s).
Proof. intros Hs. unfold main.verify_signature. rewrite Hs. reflexivity. Qed.

Lemma verify_signature_present (env : main.Env) (body : bytes)
    (sg : str) (key : bytes) (s : main.State) :
  sg <> [] ->
  encode (config.webhook_secret (main.config env)) = Some key ->
  main.verify_signature env body (Some sg) s =
    (match compare_digest (hexdigest (hmac_sha256 key body)) sg with
     | Ok b => main.Return b
     | Err e => main.Raise e
     end,
     main.record_call s (main.hmac_new key body)).
Proof.
  intros Hne Hkey. unfold main.verify_signature.
  assert (Ht : opt_truthy (Some sg) = true) by (destruct sg; [congruence|reflexivity]).
  rewrite Ht. simpl. unfold main.bind, main.lift. rewrite Hkey. simpl.
  destruct (compare_digest (hexdigest (hmac_sha256 key body)) sg); reflexivity.
Qed.

Lemma verify_signature_undecodable_secret (env : main.Env) (body : bytes)
    (sg : str) (s : main.State) :
  sg <> [] ->
  encode (config.webhook_secret (main.config env)) = None ->
  main.verify_signature env body (Some sg) s = (main.Raise UnicodeEncodeError, s).
Proof.
  intros Hne Hkey. unfold main.verify_signature.
  assert (Ht : opt_truthy (Some sg) = true) by (destruct sg; [congruence|reflexivity]).
  rewrite Ht. simpl. unfold main.bind, main.lift. rewrite Hkey. reflexivity.
Qed.

(** C4.  [verify_signature] returns [False] for an absent or empty
    signature and leaves the state as it was: no HMAC is computed.  For a
    signature that is given, the HMAC-SHA256 of the body under the secret
    is computed once, its lowercase hex digest is handed with the
    signature to [hmac.compare_digest], whose answer is the result, and
    the result is [True] exactly when the signature is that digest. *)
Theorem verify_signature_correct (env : main.Env) (body : bytes)
    (signature : option str) (s : main.State) :
  (opt_truthy signature = false ->
   main.verify_signature env body signature s = (main.Return false, s))
  /\ (forall sg key,
        signature = Some sg -> sg <> [] ->
        encode (config.webhook_secret (main.config env)) = Some key ->
        let expected := hexdigest (hmac_sha256 key body) in
        main.verify_signature env body signature s =
          (match compare_digest expected sg with
           | Ok b => main.Return b
           | Err e => main.Raise e
           end,
           main.record_call s (main.hmac_new key body))
        /\ ((main.verify_signature env body signature s).1 = main.Return true
            <-> sg = expected)
        /\ (forall c, In c expected ->
              in_range 48 57 c || in_range 97 102 c = true)).
Proof.
  split; [apply verify_signature_absent|].
  intros sg key -> Hne Hkey expected.
  rewrite (verify_signature_present env body sg key s Hne Hkey).
  split; [reflexivity|]. split; [|apply hexdigest_lowercase].
  fold expected. unfold expected at 1. rewrite compare_digest_hexdigest.
  simpl. destruct (is_ascii sg) eqn:Ea.
  - destruct (bool_decide (sg = hexdigest (hmac_sha256 key body))) eqn:Ed.
    + apply bool_decide_eq_true in Ed. tauto.
    + apply bool_decide_eq_false in Ed. split; [discriminate|].
      intros Heq. destruct (Ed Heq).
  - split; [discriminate|]. intros ->.
    unfold expected in Ea. rewrite hexdigest_ascii in Ea. discriminate.
Qed.

End verifier.

Lemma verify_signature_correct_witness :
  main.verify_signature (RT := fixtures.stub) fixtures.env
    (pyb "valid message") None fixtures.empty
    = (main.Return false, fixtures.empty)
  /\ ((main.verify_signature (RT := fixtures.stub) fixtures.env
         (pyb "valid message")
         (Some (fixtures.sign (pyb "valid message"))) fixtures.empty).1
        = main.Return true
      <-> fixtures.sign (pyb "valid message")
          = hexdigest (@hmac_sha256 fixtures.stub fixtures.key
                         (pyb "valid message"))).
Proof.
  split.
  - apply (proj1 (verify_signature_correct (RT := fixtures.stub)
                    fixtures.env (pyb "valid message") None fixtures.empty)).
    reflexivity.
  - apply (proj2 (verify_signature_correct (RT := fixtures.stub)
                    fixtures.env (pyb "valid message")
                    (Some (fixtures.sign (pyb "valid message")))
                    fixtures.empty)
             (fixtures.sign (pyb "valid message")) fixtures.key eq_refl).
    + vm_compute. discriminate.
    + vm_compute. reflexivity.
Defined.

(** ** The ingestion handler *)

Section ingestion.
Context `{RT : Runtime}.

(** [webhook], exit by exit. *)
Lemma webhook_unfold (env : main.Env) (body : bytes)
    (signature : option str) (s : main.State) :
  main.webhook env body signature s =
  match main.verify_signature env body signature s with
  | (main.Raise e, s1) => (main.Raise e, s1)
  | (main.Return false, s1) =>
      (main.Return unauthorized,
       main.count_webhook (main.print_line s1 log_invalid_signature)
         (py "invalid_signature"))
  | (main.Return true, s1) =>
      let s2 := main.record_call s1 (main.model_validate_json body) in
      match models.model_validate_json body with
      | Err errors =>
          (main.Raise (ValidationError errors),
           main.count_webhook
             (main.print_line s2 (log_validation_error errors))
             (py "validation_error"))
      | Ok p =>
          let s3 :=
            main.record_call s2
              (main.db_insert_message (models.message_id p)) in
          let r :=
            storage.insert_message (main.db s3) (models.message_id p)
              (models.from_ p) (models.to p) (models.ts p) (models.text p)
              (main.now env) in
          let s4 := main.set_db s3 r.1 in
          if r.2.1 then
            (main.Return {| main.status_code := 200;
                            main.body := main.status_ok |},
             main.count_webhook
               (main.print_line s4
                  (log_stored (models.message_id p) r.2.2))
               (if r.2.2 then py "duplicate" else py "success"))
          else
            (main.Return {| main.status_code := 500;
                            main.body := main.detail (py "database error") |},
             main.count_webhook
               (main.print_line s4 (log_db_error (models.message_id p)))
               (py "db_error"))
      end
  end.
Proof.
  unfold main.webhook.
  cbv [main.bind main.called main.ret main.lift main.try_except
       main.db_insert main.log_json main.increment_webhook_request
       main.raise].
  destruct (main.verify_signature env body signature s) as [[[|]|e] s1];
    [| reflexivity | reflexivity].
  cbn [negb].
  destruct (models.model_validate_json body) as [p|errors]; [|reflexivity].
  destruct (storage.insert_message _ _ _ _ _ _ _) as [db' [[|] dup]];
    reflexivity.
Qed.

End ingestion.

Section ingestion_properties.
Context `{RT : Runtime}.

Lemma app_webhook (env : main.Env) (body : bytes) (signature : option str)
    (s : main.State) :
  main.app env (main.POST_webhook body signature) s =
  match main.webhook env body signature s with
  | (main.Return r, s') => (r, s')
  | (main.Raise e, s') =>
      (match main.exception_handler e with
       | Some r => r
       | None => server_error
       end, s')
  end.
Proof. reflexivity. Qed.

(** The verifier leaves the state as it was or records one HMAC
    computation, nothing else. *)
Lemma verify_signature_state (env : main.Env) (body : bytes)
    (signature : option str) (s : main.State) :
  (main.verify_signature env body signature s).2 = s
  \/ exists key,
       (main.verify_signature env body signature s).2
       = main.record_call s (main.hmac_new key body).
Proof.
  destruct (opt_truthy signature) eqn:Ht.
  - destruct signature as [sg|]; [|discriminate].
    assert (Hne : sg <> []) by (intros ->; discriminate).
    destruct (encode (config.webhook_secret (main.config env))) as [key|] eqn:Hk.
    + right. exists key. rewrite (verify_signature_present _ _ _ _ _ Hne Hk).
      reflexivity.
    + left. rewrite (verify_signature_undecodable_secret _ _ _ _ Hne Hk).
      reflexivity.
  - left. rewrite (verify_signature_absent _ _ _ _ Ht). reflexivity.
Qed.

(** The digest of a body is 64 characters, so never the empty string. *)
Lemma hexdigest_nonempty (key body : bytes) :
  hexdigest (hmac_sha256 key body) <> [].
Proof.
  intros Hnil. pose proof (hexdigest_length (hmac_sha256 key body)) as Hlen.
  rewrite Hnil, hmac_sha256_length in Hlen. discriminate.
Qed.

(** C2.  A signature with a character outside ASCII is not answered with
    401: [hmac.compare_digest] raises [TypeError] on it, nothing catches
    the exception, and the request ends as a 500 with no log record and
    no counter for it.  (The body is not parsed and nothing is stored.) *)
Theorem webhook_non_ascii_signature (env : main.Env) (body : bytes)
    (sg : str) (key : bytes) (s : main.State) :
  sg <> [] ->
  is_ascii sg = false ->
  encode (config.webhook_secret (main.config env)) = Some key ->
  main.app env (main.POST_webhook body (Some sg)) s =
    (server_error, main.record_call s (main.hmac_new key body)).
Proof.
  intros Hne Ha Hk. rewrite app_webhook, webhook_unfold.
  rewrite (verify_signature_present _ _ _ _ _ Hne Hk).
  rewrite compare_digest_hexdigest, Ha. reflexivity.
Qed.

(** X6.  A missing, empty or wrong ASCII signature is answered with 401: one
    log record and one count under [invalid_signature], the database as it
    was, and no call but, for a signature that was sent, the HMAC. *)
Lemma webhook_rejects_bad_signature (env : main.Env) (body : bytes)
    (signature : option str) (key : bytes) (s : main.State) :
  encode (config.webhook_secret (main.config env)) = Some key ->
  (forall sg, signature = Some sg ->
     is_ascii sg = true /\ sg <> hexdigest (hmac_sha256 key body)) ->
  main.app env (main.POST_webhook body signature) s =
    (unauthorized,
     main.count_webhook
       (main.print_line
          (if opt_truthy signature
           then main.record_call s (main.hmac_new key body) else s)
          log_invalid_signature)
       (py "invalid_signature")).
Proof.
  intros Hk Hsig. rewrite app_webhook, webhook_unfold.
  destruct (opt_truthy signature) eqn:Ht.
  - destruct signature as [sg|]; [|discriminate].
    assert (Hne : sg <> []) by (intros ->; discriminate).
    destruct (Hsig sg eq_refl) as [Ha Hneq].
    rewrite (verify_signature_present _ _ _ _ _ Hne Hk).
    rewrite compare_digest_hexdigest, Ha.
    rewrite (bool_decide_eq_false_2 _ Hneq). reflexivity.
  - rewrite (verify_signature_absent _ _ _ _ Ht). reflexivity.
Qed.

(** X7.  The gate: unless [verify_signature] returns [True], the request
    leaves the database as it was and makes no call but the HMAC, so the
    body is never parsed and nothing is inserted. *)
Lemma webhook_signature_gate (env : main.Env) (body : bytes)
    (signature : option str) (s : main.State) :
  (main.verify_signature env body signature s).1 <> main.Return true ->
  let s' := (main.app env (main.POST_webhook body signature) s).2 in
  main.db s' = main.db s
  /\ forall c, c ∈ main.calls s' ->
       c ∈ main.calls s \/ exists key, c = main.hmac_new key body.
Proof.
  intros Hv. rewrite app_webhook, webhook_unfold.
  pose proof (verify_signature_state env body signature s) as Hs.
  destruct (main.verify_signature env body signature s) as [[[|]|e] s1];
    simpl in *; [congruence| |].
  - destruct Hs as [->|(key & ->)]; simpl.
    + split; [reflexivity|]. auto.
    + split; [reflexivity|]. intros c Hc.
      apply elem_of_app in Hc as [Hc|Hc]; [auto|].
      apply list_elem_of_singleton in Hc. eauto.
  - destruct Hs as [->|(key & ->)]; simpl.
    + split; [reflexivity|]. auto.
    + split; [reflexivity|]. intros c Hc.
      apply elem_of_app in Hc as [Hc|Hc]; [auto|].
      apply list_elem_of_singleton in Hc. eauto.
Qed.

(** C5.  A correctly signed body that fails validation is not answered
    with 422.  The handler logs the request as status 422 with result
    [validation_error], counts it, and re-raises pydantic's
    [ValidationError]; the application has a handler for FastAPI's
    [RequestValidationError] only, so the response is 500.  Nothing is
    inserted. *)
Theorem webhook_validation_error_status (env : main.Env) (body : bytes)
    (key : bytes) (errors : list line_error) (s : main.State) :
  encode (config.webhook_secret (main.config env)) = Some key ->
  models.model_validate_json body = Err errors ->
  main.app env
    (main.POST_webhook body (Some (hexdigest (hmac_sha256 key body)))) s =
    (server_error,
     main.count_webhook
       (main.print_line
          (main.record_call
             (main.record_call s (main.hmac_new key body))
             (main.model_validate_json body))
          (log_validation_error errors))
       (py "validation_error")).
Proof.
  intros Hk He. rewrite app_webhook, webhook_unfold.
  rewrite (verify_signature_present _ _ _ _ _ (hexdigest_nonempty key body) Hk).
  rewrite compare_digest_hexdigest, hexdigest_ascii.
  rewrite bool_decide_eq_true_2 by reflexivity.
  cbv zeta. rewrite He. reflexivity.
Qed.

End ingestion_properties.

Lemma webhook_non_ascii_signature_witness :
  main.app (RT := fixtures.stub) fixtures.env
    (main.POST_webhook (pyb "valid message") (Some [0xE9])) fixtures.empty
  = (server_error,
     main.record_call fixtures.empty
       (main.hmac_new fixtures.key (pyb "valid message"))).
Proof.
  apply (webhook_non_ascii_signature (RT := fixtures.stub) fixtures.env
           (pyb "valid message") [0xE9] fixtures.key fixtures.empty).
  - discriminate.
  - reflexivity.
  - vm_compute. reflexivity.
Defined.

Lemma webhook_validation_error_status_witness :
  main.app (RT := fixtures.stub) fixtures.env
    (main.POST_webhook (pyb "empty object")
       (Some (fixtures.sign (pyb "empty object")))) fixtures.empty
  = (server_error,
     main.count_webhook
       (main.print_line
          (main.record_call
             (main.record_call fixtures.empty
                (main.hmac_new fixtures.key (pyb "empty object")))
             (main.model_validate_json (pyb "empty object")))
          (log_validation_error
             [LineError (py "message_id") missing;
              LineError (py "from") missing;
              LineError (py "to") missing;
              LineError (py "ts") missing]))
       (py "validation_error")).
Proof.
  apply (webhook_validation_error_status (RT := fixtures.stub) fixtures.env
           (pyb "empty object") fixtures.key _ fixtures.empty).
  - vm_compute. reflexivity.
  - vm_compute. reflexivity.
Defined.

Section delivery.
Context `{RT : Runtime}.

(** A correctly signed, valid message reaches [insert_message]; the
    response and the outcome follow what the store reports. *)
Lemma webhook_valid_message (env : main.Env) (body : bytes) (key : bytes)
    (p : models.WebhookPayload) (s : main.State) :
  encode (config.webhook_secret (main.config env)) = Some key ->
  models.model_validate_json body = Ok p ->
  let s3 :=
    main.record_call
      (main.record_call
         (main.record_call s (main.hmac_new key body))
         (main.model_validate_json body))
      (main.db_insert_message (models.message_id p)) in
  let r :=
    storage.insert_message (main.db s) (models.message_id p)
      (models.from_ p) (models.to p) (models.ts p) (models.text p)
      (main.now env) in
  main.app env
    (main.POST_webhook body (Some (hexdigest (hmac_sha256 key body)))) s =
    if r.2.1 then
      ({| main.status_code := 200; main.body := main.status_ok |},
       main.count_webhook
         (main.print_line (main.set_db s3 r.1)
            (log_stored (models.message_id p) r.2.2))
         (if r.2.2 then py "duplicate" else py "success"))
    else
      ({| main.status_code := 500;
          main.body := main.detail (py "database error") |},
       main.count_webhook
         (main.print_line (main.set_db s3 r.1)
            (log_db_error (models.message_id p)))
         (py "db_error")).
Proof.
  intros Hk Hp. rewrite app_webhook, webhook_unfold.
  rewrite (verify_signature_present _ _ _ _ _ (hexdigest_nonempty key body) Hk).
  rewrite compare_digest_hexdigest, hexdigest_ascii.
  rewrite bool_decide_eq_true_2 by reflexivity.
  cbv zeta. rewrite Hp. simpl main.db.
  destruct (storage.insert_message _ _ _ _ _ _ _) as [db' [[|] dup]];
    reflexivity.
Qed.

(** X8.  A message delivered twice: both requests are answered 200 with the
    same body; the second, whatever its other fields, leaves the database as
    the first left it, is logged as [duplicate] and counted as one. *)
Lemma webhook_redelivery (env : main.Env) (now2 : str)
    (body1 body2 key : bytes) (p1 p2 : models.WebhookPayload)
    (s : main.State) :
  encode (config.webhook_secret (main.config env)) = Some key ->
  storage.reachable (main.db s) = true ->
  models.model_validate_json body1 = Ok p1 ->
  models.model_validate_json body2 = Ok p2 ->
  models.message_id p2 = models.message_id p1 ->
  let ok := {| main.status_code := 200; main.body := main.status_ok |} in
  let first :=
    main.app env
      (main.POST_webhook body1 (Some (hexdigest (hmac_sha256 key body1)))) s in
  let second :=
    main.app {| main.config := main.config env; main.now := now2 |}
      (main.POST_webhook body2 (Some (hexdigest (hmac_sha256 key body2))))
      first.2 in
  first.1 = ok /\ second.1 = ok
  /\ main.db second.2 = main.db first.2
  /\ last (main.stdout second.2)
     = Some (log_stored (models.message_id p1) true)
  /\ metrics.webhook_requests_total (main.metrics second.2) !! py "duplicate"
     = Some (S (default O
                  (metrics.webhook_requests_total (main.metrics first.2)
                     !! py "duplicate"))).
Proof.
  intros Hk Hup Hp1 Hp2 Hid ok first second.
  assert (Hfirst : first.1 = ok /\ storage.reachable (main.db first.2) = true
            /\ storage.has_key (models.message_id p1)
                 (storage.messages (main.db first.2)) = true).
  { subst first. rewrite (webhook_valid_message env body1 key p1 s Hk Hp1).
    unfold storage.insert_message. rewrite Hup.
    destruct (storage.has_key (models.message_id p1)
                (storage.messages (main.db s))) eqn:Hkey; simpl.
    - repeat split; [exact Hup|exact Hkey].
    - repeat split. apply has_key_true. eexists. split.
      + apply elem_of_app. right. apply list_elem_of_singleton. reflexivity.
      + reflexivity. }
  destruct Hfirst as (H1 & Hup1 & Hkey1).
  split; [exact H1|].
  subst second.
  rewrite (webhook_valid_message
             {| main.config := main.config env; main.now := now2 |}
             body2 key p2 first.2 Hk Hp2).
  unfold storage.insert_message. rewrite Hup1, Hid, Hkey1. simpl.
  repeat split.
  - rewrite last_snoc. reflexivity.
  - apply lookup_insert_eq.
Qed.

End delivery.

(** ** The query handlers and the probes *)

Section probes.
Context `{RT : Runtime}.

(** C9.  [GET /health/ready] answers 200 with [{"status": "ready"}] exactly
    when the configured secret is not empty and the store's health check
    passes; every other answer is a 503 that carries a reason; and with
    an empty secret the answer is 503 whatever the store, which is not
    consulted (the state, its record of calls included, is as before). *)
Theorem health_ready_iff (env : main.Env) (s : main.State) :
  let secret := config.webhook_secret (main.config env) in
  let r := main.app env main.GET_health_ready s in
  (r.1 = ready <-> secret <> [] /\ storage.is_healthy (main.db s) = true)
  /\ (r.1 = ready
      \/ r.1.(main.status_code) = 503%Z
         /\ exists reason, r.1.(main.body) = main.not_ready reason)
  /\ (secret = [] ->
      r.1.(main.status_code) = 503%Z /\ r.2 = s
      /\ r.1.(main.body) = main.not_ready (py "missing webhook secret"))
  /\ (secret <> [] -> r.2 = main.record_call s main.db_is_healthy).
Proof.
  intros secret r. subst r secret.
  unfold main.app, main.route, main.health_ready, config.is_ready.
  destruct (config.webhook_secret (main.config env)) as [|c secret]; simpl.
  - repeat split; try congruence; try discriminate.
    + intros [Hne _]. congruence.
    + right. split; [reflexivity|]. eauto.
  - cbv [main.bind main.called main.get_state main.ret]. simpl.
    destruct (storage.is_healthy (main.db s)); simpl.
    + repeat split; try discriminate; auto.
    + repeat split; try discriminate; try congruence.
      * intros [_ ?]. discriminate.
      * right. split; [reflexivity|]. eauto.
Qed.

(** C8.  [GET /messages] with a limit outside 1..100 or a negative offset
    is answered 422 with the error lines, and the state is as before: the
    store is not queried.  With limit 50 and an offset that is not
    negative the parameters pass, the store is queried, and the answer is
    200 when the query succeeds. *)
Theorem get_messages_bounds (env : main.Env) (limit offset : main.int_param)
    (from_ since q : option str) (s : main.State) :
  ((exists l, limit = main.sent_int l /\ (l < 1 \/ 100 < l)%Z)
   \/ (exists o, offset = main.sent_int o /\ (o < 0)%Z) ->
   exists errors, errors <> [] /\
     main.app env (main.GET_messages limit offset from_ since q) s =
       ({| main.status_code := 422; main.body := main.detail_errors errors |},
        s))
  /\ (forall o, (0 <= o)%Z ->
      let r := main.app env
                 (main.GET_messages (main.sent_int 50) (main.sent_int o)
                    from_ since q) s in
      r.2 = main.record_call s main.db_get_messages
      /\ (storage.reachable (main.db s) = true -> (o < 2 ^ 63)%Z ->
          exists rows total,
            storage.get_messages (main.db s) 50 o from_ since q
              = Ok (rows, total)
            /\ r.1 = {| main.status_code := 200;
                        main.body := main.messages_page rows total 50 o |})).
Proof.
  split.
  - intros Hbad. unfold main.app, main.route, main.get_messages_route.
    assert (Herr :
      exists e1 e2,
        (main.query_int (py "limit") 50 1 (Some 100%Z) limit = Err e1
         /\ e1 <> []
         \/ main.query_int (py "offset") 0 0 None offset = Err e2
            /\ e2 <> [])).
    { destruct Hbad as [(l & -> & Hl)|(o & -> & Ho)].
      - simpl. destruct (l <? 1)%Z eqn:E1.
        + eexists _, []. left. split; [reflexivity|discriminate].
        + apply Z.ltb_ge in E1.
          assert (E2 : (100 <? l)%Z = true) by (apply Z.ltb_lt; lia).
          rewrite E2. eexists _, []. left. split; [reflexivity|discriminate].
      - simpl. assert (E : (o <? 0)%Z = true) by (apply Z.ltb_lt; lia).
        rewrite E. eexists [], _. right. split; [reflexivity|discriminate]. }
    destruct Herr as (e1 & e2 & Herr).
    destruct (main.query_int (py "limit") 50 1 (Some 100%Z) limit)
      as [l|el] eqn:El;
    destruct (main.query_int (py "offset") 0 0 None offset)
      as [o|eo] eqn:Eo; simpl.
    + destruct Herr as [[? _]|[? _]]; discriminate.
    + destruct Herr as [[? _]|[[= <-] Hne]]; [discriminate|].
      exists eo. split; [exact Hne|reflexivity].
    + destruct Herr as [[[= <-] Hne]|[? _]]; [|discriminate].
      exists (el ++ []). split; [|reflexivity].
      destruct el; [congruence|discriminate].
    + exists (el ++ eo). split; [|reflexivity].
      destruct Herr as [[[= <-] Hne]|[[= <-] Hne]].
      * destruct el; [congruence|discriminate].
      * destruct el; [exact Hne|discriminate].
  - intros o Ho r. subst r.
    unfold main.app, main.route, main.get_messages_route. simpl.
    assert (E : (o <? 0)%Z = false) by (apply Z.ltb_ge; lia).
    rewrite E.
    cbv [main.get_messages main.bind main.called main.get_state main.lift
         main.ret main.raise main.record_call main.db].
    fold (main.record_call s main.db_get_messages). fold (main.db s).
    destruct (storage.get_messages (main.db s) 50 o from_ since q)
      as [[rows total]|e] eqn:Eq; simpl.
    + split; [reflexivity|]. intros _ _. exists rows, total. auto.
    + split; [destruct (main.exception_handler e); reflexivity|].
      intros Hup Hfit. exfalso. revert Eq.
      unfold storage.get_messages. rewrite Hup.
      assert (Hf : fits_int64 50 && fits_int64 o = true).
      { unfold fits_int64. apply andb_true_iff. split; [reflexivity|].
        apply andb_true_iff. split; [apply Z.leb_le|apply Z.ltb_lt]; lia. }
      rewrite Hf. discriminate.
Qed.

End probes.

(** C10.  An empty-string filter is no filter: [get_messages] with [""]
    for [from_filter], [since_filter] or [q_filter] returns what it
    returns with that filter left out, whatever the other arguments; the
    WHERE clause built from empty strings alone holds of every row, one
    with a NULL text or a non-empty sender included. *)
Theorem get_messages_empty_filter (db : storage.Database)
    (limit offset : Z) (from_filter since_filter q_filter : option str) :
  storage.get_messages db limit offset (Some []) since_filter q_filter
  = storage.get_messages db limit offset None since_filter q_filter
  /\ storage.get_messages db limit offset from_filter (Some []) q_filter
     = storage.get_messages db limit offset from_filter None q_filter
  /\ storage.get_messages db limit offset from_filter since_filter (Some [])
     = storage.get_messages db limit offset from_filter since_filter None
  /\ forall r : storage.Row,
       storage.where_sql
         (storage.where_clauses (Some []) (Some []) (Some [])) r = true.
Proof.
  split; [reflexivity|]. split; [reflexivity|]. split; [reflexivity|].
  intros r. reflexivity.
Qed.

(** ** The message store: queries *)

Lemma ts_message_id_leb_spec (a b : storage.Row) :
  storage.ts_message_id_leb a b = true <->
  str_compare (storage.ts a) (storage.ts b) = Lt
  \/ storage.ts a = storage.ts b
     /\ str_leb (storage.message_id a) (storage.message_id b) = true.
Proof.
  unfold storage.ts_message_id_leb.
  destruct (str_compare (storage.ts a) (storage.ts b)) eqn:E.
  - apply str_compare_eq in E. split; [auto|].
    intros [H|[_ H]]; [discriminate|exact H].
  - split; auto.
  - split; [discriminate|]. intros [H|[Heq _]]; [discriminate|].
    apply str_compare_eq in Heq. congruence.
Qed.

Lemma ts_message_id_leb_total (a b : storage.Row) :
  storage.ts_message_id_leb a b = true \/ storage.ts_message_id_leb b a = true.
Proof.
  unfold storage.ts_message_id_leb.
  rewrite (str_compare_antisym (storage.ts a) (storage.ts b)).
  destruct (str_compare (storage.ts a) (storage.ts b)); simpl; auto.
  apply str_leb_total.
Qed.

Lemma ts_message_id_leb_trans (a b c : storage.Row) :
  storage.ts_message_id_leb a b = true ->
  storage.ts_message_id_leb b c = true ->
  storage.ts_message_id_leb a c = true.
Proof.
  rewrite !ts_message_id_leb_spec.
  intros [Hab|[Hab Iab]] [Hbc|[Hbc Ibc]].
  - left. eapply str_compare_lt_trans; eassumption.
  - left. rewrite <- Hbc. exact Hab.
  - left. rewrite Hab. exact Hbc.
  - right. split; [congruence|]. eapply str_leb_trans; eassumption.
Qed.

(** X10.  The WHERE clause that [get_messages] builds is the conjunction of
    the filters that are given and not empty. *)
Lemma where_sql_spec (from_filter since_filter q_filter : option str)
    (r : storage.Row) :
  storage.where_sql
    (storage.where_clauses from_filter since_filter q_filter) r = true <->
  (forall v, from_filter = Some v -> v <> [] -> storage.from_msisdn r = v)
  /\ (forall v, since_filter = Some v -> v <> [] ->
        str_leb v (storage.ts r) = true)
  /\ (forall v, q_filter = Some v -> v <> [] ->
        exists t, storage.text r = Some t
                  /\ like ([37] ++ v ++ [37]) t = true).
Proof.
  unfold storage.where_sql, storage.where_clauses.
  rewrite !forallb_app, !andb_true_iff.
  assert (Hf : forallb (fun c => storage.clause_holds c r)
                 match from_filter with
                 | Some v => if truthy v then [storage.from_msisdn_eq v] else []
                 | None => []
                 end = true
               <-> forall v, from_filter = Some v -> v <> [] ->
                     storage.from_msisdn r = v).
  { destruct from_filter as [[|c v]|]; simpl.
    - split; [intros _ v [= <-] Hne; congruence|reflexivity].
    - rewrite andb_true_r, str_eqb_eq. split.
      + intros H v' [= <-] _. exact H.
      + intros H. apply H; [reflexivity|discriminate].
    - split; [intros _ v Hv; discriminate|reflexivity]. }
  assert (Hs : forallb (fun c => storage.clause_holds c r)
                 match since_filter with
                 | Some v => if truthy v then [storage.ts_ge v] else []
                 | None => []
                 end = true
               <-> forall v, since_filter = Some v -> v <> [] ->
                     str_leb v (storage.ts r) = true).
  { destruct since_filter as [[|c v]|]; simpl.
    - split; [intros _ v [= <-] Hne; congruence|reflexivity].
    - rewrite andb_true_r. split.
      + intros H v' [= <-] _. exact H.
      + intros H. apply H; [reflexivity|discriminate].
    - split; [intros _ v Hv; discriminate|reflexivity]. }
  assert (Hq : forallb (fun c => storage.clause_holds c r)
                 match q_filter with
                 | Some v =>
                     if truthy v then [storage.text_like ([37] ++ v ++ [37])]
                     else []
                 | None => []
                 end = true
               <-> forall v, q_filter = Some v -> v <> [] ->
                     exists t, storage.text r = Some t
                               /\ like ([37] ++ v ++ [37]) t = true).
  { destruct q_filter as [[|c v]|].
    - split; [intros _ v [= <-] Hne; congruence|reflexivity].
    - cbn [truthy forallb storage.clause_holds]. rewrite andb_true_r. split.
      + intros H v' [= <-] _. destruct (storage.text r) as [t|]; [|discriminate].
        exists t. split; [reflexivity|exact H].
      + intros H. destruct (H (c :: v) eq_refl) as (t & -> & Ht);
          [discriminate|exact Ht].
    - split; [intros _ v Hv; discriminate|reflexivity]. }
  rewrite Hf, Hs, Hq. reflexivity.
Qed.

(** X9.  [get_messages] with a limit in 1..100 and an offset from 0 that
    fits a 64-bit integer, on a store that can be read: the page is the
    slice [offset, offset + limit) of the rows that satisfy the WHERE clause
    in the order of [(ts, message_id)], and the total is the number of those
    rows, whatever the limit and the offset. *)
Lemma get_messages_page (db : storage.Database) (limit offset : Z)
    (from_filter since_filter q_filter : option str) :
  storage.reachable db = true ->
  (1 <= limit <= 100)%Z ->
  (0 <= offset < 2 ^ 63)%Z ->
  let selected :=
    List.filter
      (storage.where_sql
         (storage.where_clauses from_filter since_filter q_filter))
      (storage.messages db) in
  exists ordered,
    ordered ≡ₚ selected
    /\ StronglySorted (fun a b => storage.ts_message_id_leb a b = true) ordered
    /\ storage.get_messages db limit offset from_filter since_filter q_filter
       = Ok (take (Z.to_nat limit) (drop (Z.to_nat offset) ordered),
             length selected).
Proof.
  intros Hup Hl Ho selected.
  exists (order_by storage.ts_message_id_leb selected).
  split; [apply order_by_Permutation|]. split.
  - apply Sorted_StronglySorted.
    + intros a b c. apply ts_message_id_leb_trans.
    + apply order_by_Sorted, ts_message_id_leb_total.
  - unfold storage.get_messages. rewrite Hup.
    assert (Hf : fits_int64 limit && fits_int64 offset = true).
    { unfold fits_int64. rewrite !andb_true_iff.
      repeat split; try apply Z.leb_le; try apply Z.ltb_lt; lia. }
    rewrite Hf. unfold limit_offset.
    assert (Hn : (limit <? 0)%Z = false) by (apply Z.ltb_ge; lia).
    rewrite Hn. reflexivity.
Qed.

(** ** LIKE *)

Lemma like_percent_unfold (p s : str) :
  like (37 :: p) s =
  like p s || match s with [] => false | _ :: s' => like (37 :: p) s' end.
Proof. destruct s; reflexivity. Qed.


(** [%] takes any run of characters. *)
Lemma like_percent (p s : str) :
  like (37 :: p) s = true <->
  exists pre post, s = pre ++ post /\ like p post = true.
Proof.
  induction s as [|d s IH]; rewrite like_percent_unfold.
  - rewrite orb_false_r. split.
    + intros H. exists [], []. auto.
    + intros (pre & post & Heq & H).
      symmetry in Heq. apply app_eq_nil in Heq as [-> ->]. exact H.
  - rewrite orb_true_iff, IH. split.
    + intros [H|(pre & post & -> & H)].
      * exists [], (d :: s). auto.
      * exists (d :: pre), post. auto.
    + intros (pre & post & Heq & H). destruct pre as [|d' pre].
      * simpl in Heq. subst post. left. exact H.
      * injection Heq as -> ->. right. eauto.
Qed.



(** [_] in the filter stands for any character and [%] for any run:
    [q = "_"] selects every non-empty text and [q = "%"] every text that
    is not NULL. *)
Lemma like_wildcards (t : str) :
  like ([37] ++ [95] ++ [37]) t = negb (bool_decide (t = []))
  /\ like ([37] ++ [37] ++ [37]) t = true.
Proof.
  split.
  - destruct t as [|d t].
    + reflexivity.
    + apply like_percent. exists [], (d :: t). split; [reflexivity|].
      change (like [95; 37] (d :: t)) with (like_char 95 d && like [37] t).
      simpl like_char. simpl andb. apply like_percent.
      exists t, []. rewrite app_nil_r. auto.
  - apply like_percent. exists t, []. rewrite app_nil_r. split; [reflexivity|].
    apply like_percent. exists [], []. auto.
Qed.

(** C6.  The text filter is not a substring test: the value is put
    between two [%] and given to LIKE as it is, so a [_] or a [%] in it is
    a wildcard.  With [q = "_"] the message with text [abc] is returned
    and counted, though [abc] contains no underscore. *)
Theorem get_messages_q_wildcard :
  storage.get_messages fixtures.one_message 50 0 None None (Some (py "_"))
  = Ok (storage.messages fixtures.one_message, 1%nat)
  /\ spec.contains_ci (py "_") (py "abc") = false
  /\ storage.get_messages fixtures.one_message 50 0 None None (Some (py "%"))
     = Ok (storage.messages fixtures.one_message, 1%nat)
  /\ spec.contains_ci (py "%") (py "abc") = false.
Proof. repeat split; vm_compute; reflexivity. Qed.

(** ** The message store: statistics *)

Lemma fold_min_spec (l : list str) (x : str) :
  let m := fold_left (fun m y => if str_leb m y then m else y) l x in
  (m = x \/ m ∈ l) /\ str_leb m x = true
  /\ forall y, y ∈ l -> str_leb m y = true.
Proof.
  revert x. induction l as [|y l IH]; intros x; simpl.
  - split; [auto|]. split; [apply str_leb_refl|].
    intros y Hy. inversion Hy.
  - specialize (IH (if str_leb x y then x else y)).
    simpl in IH. destruct IH as (Hm & Hle & Hall).
    set (m := fold_left _ l _) in *.
    assert (Hx : str_leb (if str_leb x y then x else y) x = true).
    { destruct (str_leb x y) eqn:E; [apply str_leb_refl|].
      destruct (str_leb_total x y); congruence. }
    assert (Hy : str_leb (if str_leb x y then x else y) y = true).
    { destruct (str_leb x y) eqn:E; [exact E|apply str_leb_refl]. }
    split; [|split].
    + destruct Hm as [Hm|Hm].
      * destruct (str_leb x y); [left; exact Hm|].
        right. rewrite Hm. apply list_elem_of_here.
      * right. apply list_elem_of_further, Hm.
    + eapply str_leb_trans; eassumption.
    + intros z Hz. apply elem_of_cons in Hz as [->|Hz].
      * eapply str_leb_trans; eassumption.
      * apply Hall, Hz.
Qed.

Lemma fold_max_spec (l : list str) (x : str) :
  let m := fold_left (fun m y => if str_leb y m then m else y) l x in
  (m = x \/ m ∈ l) /\ str_leb x m = true
  /\ forall y, y ∈ l -> str_leb y m = true.
Proof.
  revert x. induction l as [|y l IH]; intros x; simpl.
  - split; [auto|]. split; [apply str_leb_refl|].
    intros y Hy. inversion Hy.
  - specialize (IH (if str_leb y x then x else y)).
    simpl in IH. destruct IH as (Hm & Hle & Hall).
    set (m := fold_left _ l _) in *.
    assert (Hx : str_leb x (if str_leb y x then x else y) = true).
    { destruct (str_leb y x) eqn:E; [apply str_leb_refl|].
      destruct (str_leb_total x y); congruence. }
    assert (Hy : str_leb y (if str_leb y x then x else y) = true).
    { destruct (str_leb y x) eqn:E; [exact E|apply str_leb_refl]. }
    split; [|split].
    + destruct Hm as [Hm|Hm].
      * destruct (str_leb y x); [left; exact Hm|].
        right. rewrite Hm. apply list_elem_of_here.
      * right. apply list_elem_of_further, Hm.
    + eapply str_leb_trans; eassumption.
    + intros z Hz. apply elem_of_cons in Hz as [->|Hz].
      * eapply str_leb_trans; eassumption.
      * apply Hall, Hz.
Qed.

(** [MIN(ts)]: an element of the list below all of them. *)
Lemma min_str_spec (l : list str) (m : str) :
  storage.min_str l = Some m ->
  m ∈ l /\ forall y, y ∈ l -> str_leb m y = true.
Proof.
  destruct l as [|x l]; [discriminate|]. simpl. intros [= <-].
  destruct (fold_min_spec l x) as (Hm & Hle & Hall). split.
  - destruct Hm as [->|Hm];
      [apply list_elem_of_here|apply list_elem_of_further, Hm].
  - intros y Hy. apply elem_of_cons in Hy as [->|Hy]; auto.
Qed.

(** [MAX(ts)]: an element of the list above all of them. *)
Lemma max_str_spec (l : list str) (m : str) :
  storage.max_str l = Some m ->
  m ∈ l /\ forall y, y ∈ l -> str_leb y m = true.
Proof.
  destruct l as [|x l]; [discriminate|]. simpl. intros [= <-].
  destruct (fold_max_spec l x) as (Hm & Hle & Hall). split.
  - destruct Hm as [->|Hm];
      [apply list_elem_of_here|apply list_elem_of_further, Hm].
  - intros y Hy. apply elem_of_cons in Hy as [->|Hy]; auto.
Qed.

Lemma messages_of_pos (sender : str) (rows : list storage.Row) :
  sender ∈ map storage.from_msisdn rows -> (0 < spec.messages_of sender rows)%nat.
Proof.
  intros Hin. apply list_elem_of_fmap in Hin as (r & -> & Hr).
  unfold spec.messages_of.
  assert (Hf : In r (List.filter
            (fun r' => str_eqb (storage.from_msisdn r') (storage.from_msisdn r))
            rows)).
  { apply filter_In. split; [apply list_elem_of_In, Hr|apply str_eqb_refl]. }
  destruct (List.filter _ rows); [destruct Hf|simpl; lia].
Qed.

(** The groups: one per sender that has a message, each with the number
    of that sender's messages. *)
Lemma group_by_sender_spec (rows : list storage.Row) :
  NoDup (map storage.sender (storage.group_by_sender rows))
  /\ (forall e, e ∈ storage.group_by_sender rows ->
        storage.sender e ∈ map storage.from_msisdn rows
        /\ storage.count e = spec.messages_of (storage.sender e) rows)
  /\ (forall x, x ∈ map storage.from_msisdn rows ->
        exists e, e ∈ storage.group_by_sender rows /\ storage.sender e = x)
  /\ length (storage.group_by_sender rows)
     = length (remove_dups (map storage.from_msisdn rows)).
Proof.
  unfold storage.group_by_sender.
  set (senders := remove_dups (map storage.from_msisdn rows)).
  assert (Hperm : order_by str_leb senders ≡ₚ senders)
    by apply order_by_Permutation.
  split; [|split; [|split]].
  - rewrite map_map. simpl. rewrite map_id. rewrite Hperm.
    apply NoDup_remove_dups.
  - intros e He. apply list_elem_of_fmap in He as (x & -> & Hx). simpl.
    split; [|reflexivity].
    rewrite Hperm in Hx. unfold senders in Hx.
    rewrite elem_of_remove_dups in Hx. exact Hx.
  - intros x Hx. eexists. split.
    + apply list_elem_of_fmap. exists x. split; [reflexivity|].
      rewrite Hperm. unfold senders. rewrite elem_of_remove_dups. exact Hx.
    + reflexivity.
  - rewrite length_map, order_by_length. reflexivity.
Qed.

Lemma StronglySorted_take {A} (R : A -> A -> Prop) (n : nat) (l : list A) :
  StronglySorted R l -> StronglySorted R (take n l).
Proof.
  intros Hs. revert n. induction Hs as [|x l Hs IH Hall]; intros [|n]; simpl;
    try constructor.
  - apply IH.
  - apply Forall_take, Hall.
Qed.

Lemma Sorted_impl {A} (R R' : A -> A -> Prop) (l : list A) :
  (forall a b, R a b -> R' a b) -> Sorted R l -> Sorted R' l.
Proof.
  intros HR. induction 1 as [|x l Hs IH Hhd]; constructor; [exact IH|].
  destruct Hhd; constructor. apply HR. assumption.
Qed.

Lemma count_desc_total (a b : storage.SenderCount) :
  storage.count_desc a b = true \/ storage.count_desc b a = true.
Proof.
  unfold storage.count_desc.
  destruct (Nat.leb_spec (storage.count b) (storage.count a)); [auto|].
  right. apply Nat.leb_le. lia.
Qed.

(** The list of top senders: the first ten groups in descending order of
    their counts. *)
Lemma top_senders_spec (rows : list storage.Row) :
  let top :=
    take 10 (order_by storage.count_desc (storage.group_by_sender rows)) in
  (length top <= 10)%nat
  /\ StronglySorted
       (fun a b => (storage.count b <= storage.count a)%nat) top
  /\ NoDup (map storage.sender top)
  /\ (forall e, e ∈ top ->
        storage.sender e ∈ map storage.from_msisdn rows
        /\ storage.count e = spec.messages_of (storage.sender e) rows)
  /\ (forall x, x ∈ map storage.from_msisdn rows ->
        (exists e, e ∈ top /\ storage.sender e = x)
        \/ length top = 10%nat
           /\ forall e, e ∈ top ->
                (spec.messages_of x rows <= storage.count e)%nat).
Proof.
  intros top. subst top.
  set (groups := storage.group_by_sender rows).
  set (full := order_by storage.count_desc groups).
  destruct (group_by_sender_spec rows) as (Hnd & Hin & Hall & _).
  fold groups in Hnd, Hin, Hall.
  assert (Hperm : full ≡ₚ groups) by apply order_by_Permutation.
  assert (Hsorted : StronglySorted
            (fun a b => (storage.count b <= storage.count a)%nat) full).
  { apply Sorted_StronglySorted.
    - intros a b c Hab Hbc. lia.
    - eapply Sorted_impl; [|apply (order_by_Sorted _ count_desc_total)].
      intros a b. unfold storage.count_desc. simpl. apply Nat.leb_le. }
  split; [rewrite length_take; lia|].
  split; [apply StronglySorted_take, Hsorted|].
  split.
  - rewrite <- Hperm in Hnd. eapply sublist_NoDup; [exact Hnd|].
    change (map storage.sender (take 10 full))
      with (storage.sender <$> take 10 full).
    rewrite fmap_take. apply sublist_take.
  - split.
    + intros e He. apply Hin. rewrite <- Hperm.
      eapply subseteq_take, He.
    + intros x Hx. destruct (Hall x Hx) as (e & He & Hex).
      rewrite <- Hperm in He. rewrite <- (take_drop 10 full) in He.
      apply elem_of_app in He as [He|He]; [left; eauto|].
      right. split.
      * apply length_take_le.
        destruct (Nat.le_gt_cases 10 (length full)) as [Hle|Hlt]; [exact Hle|].
        rewrite drop_ge in He by lia. inversion He.
      * intros e' He'.
        assert (Hcount : storage.count e = spec.messages_of x rows).
        { rewrite <- Hex. apply Hin. rewrite <- Hperm.
          rewrite <- (take_drop 10 full). apply elem_of_app. auto. }
        rewrite <- Hcount.
        rewrite <- (take_drop 10 full) in Hsorted.
        apply (StronglySorted_app_1_elem_of _ _ _ e' e Hsorted He' He).
Qed.

(** C7.  [get_stats] on a store that can be read.  On an empty store the
    two counts are zero and both timestamps are absent.  On a store with
    a message, [first_message_ts] is the least and [last_message_ts] the
    greatest [ts] stored, in the order of strings, so the first is not
    above the last.  [messages_per_sender] has at most ten entries in
    descending order of their counts, each the true count of a distinct
    sender, and no sender left out has more messages than one listed.
    [senders_count] is the number of distinct senders. *)
Theorem get_stats_properties (db : storage.Database) :
  storage.reachable db = true ->
  exists st, storage.get_stats db = Ok st /\
    let rows := storage.messages db in
    storage.total_messages st = length rows
    /\ (rows = [] ->
        storage.total_messages st = O /\ storage.senders_count st = O
        /\ storage.first_message_ts st = None
        /\ storage.last_message_ts st = None)
    /\ (rows <> [] ->
        exists lo hi,
          storage.first_message_ts st = Some lo
          /\ storage.last_message_ts st = Some hi
          /\ lo ∈ map storage.ts rows /\ hi ∈ map storage.ts rows
          /\ (forall t, t ∈ map storage.ts rows ->
                str_leb lo t = true /\ str_leb t hi = true)
          /\ str_leb lo hi = true)
    /\ (length (storage.messages_per_sender st) <= 10)%nat
    /\ StronglySorted (fun a b => (storage.count b <= storage.count a)%nat)
         (storage.messages_per_sender st)
    /\ NoDup (map storage.sender (storage.messages_per_sender st))
    /\ (forall e, e ∈ storage.messages_per_sender st ->
          storage.sender e ∈ map storage.from_msisdn rows
          /\ storage.count e = spec.messages_of (storage.sender e) rows)
    /\ (forall x, x ∈ map storage.from_msisdn rows ->
          (exists e, e ∈ storage.messages_per_sender st
                     /\ storage.sender e = x)
          \/ forall e, e ∈ storage.messages_per_sender st ->
               (spec.messages_of x rows <= storage.count e)%nat)
    /\ exists senders,
         NoDup senders
         /\ (forall x, x ∈ senders <-> x ∈ map storage.from_msisdn rows)
         /\ storage.senders_count st = length senders.
Proof.
  intros Hup. unfold storage.get_stats. rewrite Hup.
  eexists. split; [reflexivity|]. cbv zeta. simpl.
  destruct (top_senders_spec (storage.messages db))
    as (Hlen & Hsorted & Hnd & Hin & Htop).
  split; [reflexivity|].
  split.
  { intros ->. repeat split. }
  split.
  { intros Hne.
    destruct (storage.min_str (map storage.ts (storage.messages db)))
      as [lo|] eqn:Elo.
    2:{ destruct (storage.messages db); [congruence|discriminate]. }
    destruct (storage.max_str (map storage.ts (storage.messages db)))
      as [hi|] eqn:Ehi.
    2:{ destruct (storage.messages db); [congruence|discriminate]. }
    apply min_str_spec in Elo as [Hlo Hmin].
    apply max_str_spec in Ehi as [Hhi Hmax].
    exists lo, hi. repeat split; auto. }
  split; [exact Hlen|]. split; [exact Hsorted|]. split; [exact Hnd|].
  split; [exact Hin|]. split.
  { intros x Hx. destruct (Htop x Hx) as [H|[_ H]]; auto. }
  exists (remove_dups (map storage.from_msisdn (storage.messages db))).
  split; [apply NoDup_remove_dups|]. split; [|reflexivity].
  intros x. apply elem_of_remove_dups.
Qed.

(** ** The properties at concrete inputs *)

(** The cases of [tests/test_webhook.py], on the validator. *)
Example validator_on_the_test_payloads :
  models.model_validate fixtures.valid_document
    = Ok (models.Payload (py "msg-001") (py "+1234567890") (py "+9876543210")
            (py "2024-01-15T10:30:00.000Z") (Some (py "Hello World")))
  /\ models.model_validate
       (JObj [(py "message_id", JStr (py "msg-004"));
              (py "from", JStr (py "1234567890"));
              (py "to", JStr (py "+9876543210"));
              (py "ts", JStr (py "2024-01-15T10:30:00Z"))])
     = Err [LineError (py "from") value_error]
  /\ models.model_validate
       (JObj [(py "message_id", JStr (py "msg-005"));
              (py "from", JStr (py "+1234567890"));
              (py "to", JStr (py "+9876543210"));
              (py "ts", JStr (py "2024-01-15 10:30:00"))])
     = Err [LineError (py "ts") value_error].
Proof. repeat split; vm_compute; reflexivity. Qed.

(** A request with a wrong signature and one with none, as in the tests:
    401 for both, whatever the body. *)
Example webhook_on_the_test_signatures :
  (main.app (RT := fixtures.stub) fixtures.env
     (main.POST_webhook (pyb "not json at all") (Some (py "invalid")))
     fixtures.empty).1 = unauthorized
  /\ (main.app (RT := fixtures.stub) fixtures.env
        (main.POST_webhook (pyb "not json at all") None)
        fixtures.empty).1 = unauthorized.
Proof. split; vm_compute; reflexivity. Qed.

Lemma insert_message_idempotent_witness :
  storage.insert_message fixtures.one_message (py "msg-1") (py "+2222222222")
    (py "+3333333333") (py "2025-06-01T00:00:00Z") (Some (py "other text"))
    (py "2025-06-01T00:00:01+00:00")
  = (fixtures.one_message, (true, true)).
Proof.
  apply (insert_message_idempotent fixtures.one_message
           (fixtures.row (py "msg-1") (py "+1111111111")
              (py "2024-01-15T10:00:00Z") (Some (py "abc")))).
  - apply list_elem_of_here.
  - reflexivity.
Defined.

Lemma get_stats_properties_witness :
  exists st,
    storage.get_stats fixtures.three_messages = Ok st
    /\ storage.total_messages st = 3%nat
    /\ (length (storage.messages_per_sender st) <= 10)%nat.
Proof.
  destruct (get_stats_properties fixtures.three_messages eq_refl)
    as (st & Hst & Htotal & _ & _ & Hlen & _).
  exists st. split; [exact Hst|]. split; [exact Htotal|exact Hlen].
Defined.

Example get_stats_three_messages :
  storage.get_stats fixtures.three_messages
  = Ok {| storage.total_messages := 3;
          storage.senders_count := 2;
          storage.messages_per_sender :=
            [{| storage.sender := py "+1111111111"; storage.count := 2 |};
             {| storage.sender := py "+2222222222"; storage.count := 1 |}];
          storage.first_message_ts := Some (py "2024-01-15T09:00:00Z");
          storage.last_message_ts := Some (py "2024-01-15T14:00:00Z") |}.
Proof. vm_compute. reflexivity. Qed.

(** Equal timestamps are ordered by [message_id]. *)
Example get_messages_three_messages :
  storage.get_messages fixtures.three_messages 2 1 None None None
  = Ok ([fixtures.row (py "msg-a") (py "+1111111111")
           (py "2024-01-15T14:00:00Z") None;
         fixtures.row (py "msg-b") (py "+2222222222")
           (py "2024-01-15T14:00:00Z") (Some (py "Hello World"))],
        3%nat).
Proof. vm_compute. reflexivity. Qed.

Lemma get_messages_bounds_witness :
  (exists errors, errors <> [] /\
     main.app (RT := fixtures.stub) fixtures.env
       (main.GET_messages (main.sent_int 101) main.not_sent None None None)
       fixtures.empty
     = ({| main.status_code := 422; main.body := main.detail_errors errors |},
        fixtures.empty))
  /\ (main.app (RT := fixtures.stub) fixtures.env
        (main.GET_messages (main.sent_int 50) (main.sent_int 0)
           None None None) fixtures.empty).2
     = main.record_call fixtures.empty main.db_get_messages.
Proof.
  split.
  - apply (proj1 (get_messages_bounds (RT := fixtures.stub) fixtures.env
                    (main.sent_int 101) main.not_sent None None None
                    fixtures.empty)).
    left. exists 101%Z. split; [reflexivity|]. right. reflexivity.
  - apply (proj2 (get_messages_bounds (RT := fixtures.stub) fixtures.env
                    (main.sent_int 50) (main.sent_int 0) None None None
                    fixtures.empty) 0%Z).
    discriminate.
Defined.

Lemma health_ready_iff_witness :
  (main.app (RT := fixtures.stub) fixtures.env_without_secret
     main.GET_health_ready fixtures.empty).1.(main.status_code) = 503%Z
  /\ (main.app (RT := fixtures.stub) fixtures.env_without_secret
        main.GET_health_ready fixtures.empty).2 = fixtures.empty.
Proof.
  destruct (health_ready_iff (RT := fixtures.stub) fixtures.env_without_secret
              fixtures.empty) as (_ & _ & Hempty & _).
  destruct (Hempty eq_refl) as (Hstatus & Hstate & _).
  split; [exact Hstatus|exact Hstate].
Defined.

Lemma model_validate_accepts_acceptable_witness :
  exists p, models.model_validate fixtures.valid_document = Ok p.
Proof.
  apply (model_validate_accepts_acceptable fixtures.valid_document).
  eexists. split; [reflexivity|].
  split; [eexists; split; [vm_compute; reflexivity|discriminate]|].
  split; [eexists; split; vm_compute; reflexivity|].
  split; [eexists; split; vm_compute; reflexivity|].
  split; [eexists; split; vm_compute; reflexivity|].
  right; right. eexists. split; [vm_compute; reflexivity|]. simpl. lia.
Defined.

Lemma webhook_rejects_bad_signature_witness :
  main.app (RT := fixtures.stub) fixtures.env
    (main.POST_webhook (pyb "not json at all") (Some (py "invalid")))
    fixtures.empty
  = (unauthorized,
     main.count_webhook
       (main.print_line
          (main.record_call fixtures.empty
             (main.hmac_new fixtures.key (pyb "not json at all")))
          log_invalid_signature)
       (py "invalid_signature")).
Proof.
  apply (webhook_rejects_bad_signature (RT := fixtures.stub) fixtures.env
           (pyb "not json at all") (Some (py "invalid")) fixtures.key
           fixtures.empty).
  - vm_compute. reflexivity.
  - intros sg [= <-]. split; [reflexivity|].
    vm_compute. intros H; discriminate H.
Defined.

Lemma webhook_signature_gate_witness :
  main.db (main.app (RT := fixtures.stub) fixtures.env
             (main.POST_webhook (pyb "valid message") None)
             fixtures.empty).2
  = main.db fixtures.empty.
Proof.
  apply (webhook_signature_gate (RT := fixtures.stub) fixtures.env
           (pyb "valid message") None fixtures.empty).
  vm_compute. intros H; discriminate H.
Defined.

Lemma webhook_redelivery_witness :
  let first :=
    main.app (RT := fixtures.stub) fixtures.env
      (main.POST_webhook (pyb "valid message")
         (Some (fixtures.sign (pyb "valid message")))) fixtures.empty in
  let second :=
    main.app (RT := fixtures.stub)
      {| main.config := main.config fixtures.env;
         main.now := py "2025-06-01T00:00:01+00:00" |}
      (main.POST_webhook (pyb "resent message")
         (Some (fixtures.sign (pyb "resent message")))) first.2 in
  second.1 = {| main.status_code := 200; main.body := main.status_ok |}
  /\ main.db second.2 = main.db first.2.
Proof.
  destruct (webhook_redelivery (RT := fixtures.stub) fixtures.env
              (py "2025-06-01T00:00:01+00:00")
              (pyb "valid message") (pyb "resent message") fixtures.key
              (models.Payload (py "msg-001") (py "+1234567890")
                 (py "+9876543210") (py "2024-01-15T10:30:00.000Z")
                 (Some (py "Hello World")))
              (models.Payload (py "msg-001") (py "+1111111111")
                 (py "+2222222222") (py "2025-06-01T00:00:00Z")
                 (Some (py "Another text")))
              fixtures.empty)
    as (_ & H2 & Hdb & _).
  - vm_compute. reflexivity.
  - reflexivity.
  - vm_compute. reflexivity.
  - vm_compute. reflexivity.
  - reflexivity.
  - split; [exact H2|exact Hdb].
Defined.

Lemma get_messages_page_witness :
  exists ordered,
    ordered ≡ₚ storage.messages fixtures.three_messages
    /\ storage.get_messages fixtures.three_messages 2 1 None None None
       = Ok (take 2 (drop 1 ordered), 3%nat).
Proof.
  destruct (get_messages_page fixtures.three_messages 2 1 None None None)
    as (ordered & Hperm & _ & Hpage).
  - reflexivity.
  - lia.
  - lia.
  - exists ordered. split; [exact Hperm|exact Hpage].
Defined.


Lemma insert_message_primary_key_witness :
  NoDup (map storage.message_id
           (storage.messages
              (storage.insert_message fixtures.three_messages (py "msg-d")
                 (py "+1111111111") (py "+9999999999")
                 (py "2024-01-15T16:00:00Z") None
                 (py "2024-01-15T16:00:01+00:00")).1)).
Proof.
  apply (insert_message_primary_key fixtures.three_messages).
  apply (bool_decide_unpack _). vm_compute. exact I.
Defined.

Lemma insert_message_keeps_rows_witness :
  fixtures.row (py "msg-a") (py "+1111111111")
    (py "2024-01-15T14:00:00Z") None
  ∈ storage.messages
      (storage.insert_message fixtures.three_messages (py "msg-d")
         (py "+1111111111") (py "+9999999999")
         (py "2024-01-15T16:00:00Z") None
         (py "2024-01-15T16:00:01+00:00")).1.
Proof.
  apply (insert_message_keeps_rows fixtures.three_messages).
  apply list_elem_of_further, list_elem_of_here.
Defined.

(* ================================================================== *)
(** * Part IV. The store, the handlers and the server together      *)
(* ================================================================== *)

(** ** Insertion and lookup *)

Lemma NoDup_map_inj_on {A B} (f : A -> B) (l : list A) (x y : A) :
  NoDup (map f l) -> x ∈ l -> y ∈ l -> f x = f y -> x = y.
Proof.
  induction l as [|a l IH]; simpl; intros Hnd Hx Hy Heq.
  - inversion Hx.
  - apply NoDup_cons in Hnd as [Ha Hnd].
    apply elem_of_cons in Hx as [->|Hx];
      apply elem_of_cons in Hy as [->|Hy]; auto.
    + exfalso. apply Ha. rewrite Heq.
      apply (list_elem_of_fmap_2 f), Hy.
    + exfalso. apply Ha. rewrite <- Heq.
      apply (list_elem_of_fmap_2 f), Hx.
Qed.

(** X14.  After a call of [insert_message] on a store that can be
    written, the key is stored, whatever the call found: it reports a
    duplicate exactly when a row with the key was there before, in which
    case that row is the one stored under the key; otherwise the row
    stored under the key is the one just given, stamped with the clock
    of the call.  With unique keys before, the key names one row after. *)
Theorem insert_message_then_lookup (db : storage.Database)
    (id from_msisdn to_msisdn ts : str) (text : option str) (now : str) :
  storage.reachable db = true ->
  NoDup (map storage.message_id (storage.messages db)) ->
  let r := storage.insert_message db id from_msisdn to_msisdn ts text now in
  let given := storage.Build_Row id from_msisdn to_msisdn ts text now in
  r.2.1 = true
  /\ (r.2.2 = true <->
      exists old, old ∈ storage.messages db /\ storage.message_id old = id)
  /\ storage.has_key id (storage.messages r.1) = true
  /\ forall row, row ∈ storage.messages r.1 ->
       storage.message_id row = id ->
       if r.2.2 then row ∈ storage.messages db else row = given.
Proof.
  intros Hup Hnd r given. subst r.
  unfold storage.insert_message. rewrite Hup.
  destruct (storage.has_key id (storage.messages db)) eqn:Hk; simpl.
  - split; [reflexivity|]. split.
    + split; [intros _; apply has_key_true, Hk|reflexivity].
    + split; [exact Hk|]. intros row Hrow _. exact Hrow.
  - split; [reflexivity|]. split.
    + split; [discriminate|]. intros Hold. apply has_key_true in Hold.
      congruence.
    + split.
      * apply has_key_true. exists given. split; [|reflexivity].
        apply elem_of_app. right. apply list_elem_of_singleton. reflexivity.
      * intros row Hrow Hid. apply elem_of_app in Hrow as [Hrow|Hrow].
        -- rewrite has_key_false in Hk. destruct (Hk row Hrow Hid).
        -- apply list_elem_of_singleton in Hrow. exact Hrow.
Qed.

(** ** Pages *)

Lemma get_messages_Ok (db : storage.Database) (limit offset : Z)
    (from_filter since_filter q_filter : option str) :
  storage.reachable db = true ->
  (0 <= limit < 2 ^ 63)%Z ->
  (0 <= offset < 2 ^ 63)%Z ->
  let selected :=
    List.filter
      (storage.where_sql
         (storage.where_clauses from_filter since_filter q_filter))
      (storage.messages db) in
  storage.get_messages db limit offset from_filter since_filter q_filter
  = Ok (take (Z.to_nat limit)
          (drop (Z.to_nat offset)
             (order_by storage.ts_message_id_leb selected)),
        length selected).
Proof.
  intros Hup Hl Ho selected. unfold storage.get_messages. rewrite Hup.
  assert (Hf : fits_int64 limit && fits_int64 offset = true).
  { unfold fits_int64. rewrite !andb_true_iff.
    repeat split; try apply Z.leb_le; try apply Z.ltb_lt; lia. }
  rewrite Hf. unfold limit_offset.
  assert (Hn : (limit <? 0)%Z = false) by (apply Z.ltb_ge; lia).
  rewrite Hn. reflexivity.
Qed.

(** X15.  Consecutive pages join: the page of [l1] rows at [offset]
    followed by the page of [l2] rows at [offset + l1] is the page of
    [l1 + l2] rows at [offset], and the three calls report the same
    total.  So pages of any sizes, read one after the other, neither
    skip nor repeat a row. *)
Theorem get_messages_pages_join (db : storage.Database) (l1 l2 offset : Z)
    (from_filter since_filter q_filter : option str) :
  storage.reachable db = true ->
  (0 <= l1)%Z -> (0 <= l2)%Z -> (0 <= offset)%Z ->
  (offset + l1 + l2 < 2 ^ 63)%Z ->
  exists p1 p2 total,
    storage.get_messages db l1 offset from_filter since_filter q_filter
      = Ok (p1, total)
    /\ storage.get_messages db l2 (offset + l1)
         from_filter since_filter q_filter = Ok (p2, total)
    /\ storage.get_messages db (l1 + l2) offset
         from_filter since_filter q_filter = Ok (p1 ++ p2, total).
Proof.
  intros Hup H1 H2 Ho Hfit.
  rewrite !get_messages_Ok by (auto; lia).
  eexists _, _, _. split; [reflexivity|]. split; [reflexivity|].
  f_equal. f_equal.
  rewrite !Z2Nat.inj_add by lia.
  set (L := order_by _ _).
  rewrite <- drop_drop. rewrite <- take_take_drop. reflexivity.
Qed.

(** X16.  The size of a page: [limit] rows while that many are left
    after [offset], the rest otherwise, and no row at all from an offset
    at or past the total; the total is not affected by either. *)
Theorem get_messages_page_size (db : storage.Database) (limit offset : Z)
    (from_filter since_filter q_filter : option str) :
  storage.reachable db = true ->
  (0 <= limit < 2 ^ 63)%Z ->
  (0 <= offset < 2 ^ 63)%Z ->
  exists page total,
    storage.get_messages db limit offset from_filter since_filter q_filter
      = Ok (page, total)
    /\ length page = Nat.min (Z.to_nat limit) (total - Z.to_nat offset)
    /\ ((Z.of_nat total <= offset)%Z -> page = []).
Proof.
  intros Hup Hl Ho. rewrite get_messages_Ok by auto.
  eexists _, _. split; [reflexivity|].
  rewrite length_take, length_drop, order_by_length.
  split; [reflexivity|].
  intros Hpast. rewrite drop_ge; [apply take_nil|].
  rewrite order_by_length. lia.
Qed.

(** X17.  Every row that satisfies the filters is on some page: for a
    stored row that the WHERE clause selects there is an offset below
    the total at which the page of one row is that row. *)
Theorem get_messages_reaches_every_row (db : storage.Database)
    (from_filter since_filter q_filter : option str) (r : storage.Row) :
  storage.reachable db = true ->
  (Z.of_nat (length (storage.messages db)) < 2 ^ 63)%Z ->
  r ∈ storage.messages db ->
  storage.where_sql
    (storage.where_clauses from_filter since_filter q_filter) r = true ->
  exists offset total,
    (0 <= offset < Z.of_nat total)%Z
    /\ storage.get_messages db 1 offset from_filter since_filter q_filter
       = Ok ([r], total).
Proof.
  intros Hup Hsize Hin Hsel.
  set (selected := List.filter
         (storage.where_sql
            (storage.where_clauses from_filter since_filter q_filter))
         (storage.messages db)).
  set (L := order_by storage.ts_message_id_leb selected).
  assert (Hlen : (length selected <= length (storage.messages db))%nat)
    by apply filter_length_le.
  assert (HrL : r ∈ L).
  { unfold L. rewrite order_by_Permutation. apply list_elem_of_In.
    apply filter_In. split; [apply list_elem_of_In, Hin|exact Hsel]. }
  apply list_elem_of_lookup in HrL as (i & Hi).
  assert (HiL : (i < length L)%nat) by (eapply lookup_lt_Some; eassumption).
  unfold L in HiL. rewrite order_by_length in HiL.
  exists (Z.of_nat i), (length selected). split; [lia|].
  rewrite get_messages_Ok by (auto; lia).
  f_equal. f_equal. rewrite Nat2Z.id.
  change (Z.to_nat 1) with 1%nat.
  fold selected. fold L.
  rewrite (drop_S L r i Hi). reflexivity.
Qed.

(** X18.  The result of a query does not depend on the order in which
    the rows were stored: two stores that hold the same rows, with a
    [message_id] for one row only, answer every call of [get_messages]
    alike. *)
Theorem get_messages_storage_order (db1 db2 : storage.Database)
    (limit offset : Z) (from_filter since_filter q_filter : option str) :
  storage.messages db1 ≡ₚ storage.messages db2 ->
  storage.reachable db1 = storage.reachable db2 ->
  NoDup (map storage.message_id (storage.messages db1)) ->
  storage.get_messages db1 limit offset from_filter since_filter q_filter
  = storage.get_messages db2 limit offset from_filter since_filter q_filter.
Proof.
  intros Hperm Hup Hnd. unfold storage.get_messages. rewrite Hup.
  set (P := storage.where_sql
              (storage.where_clauses from_filter since_filter q_filter)).
  assert (Hsel : List.filter P (storage.messages db1)
                 ≡ₚ List.filter P (storage.messages db2)).
  { clear -Hperm. induction Hperm as [|x l l' _ IH|x y l|l l' l'' _ IH1 _ IH2];
      simpl.
    - reflexivity.
    - destruct (P x); [rewrite IH|]; auto.
    - destruct (P x), (P y); auto. apply Permutation_swap.
    - etransitivity; eassumption. }
  assert (Hsorted : order_by storage.ts_message_id_leb
                      (List.filter P (storage.messages db1))
                    = order_by storage.ts_message_id_leb
                        (List.filter P (storage.messages db2))).
  { apply (StronglySorted_unique_strong
             (fun a b => storage.ts_message_id_leb a b = true)).
    - intros a b Ha Hb Hab Hba.
      rewrite order_by_Permutation in Ha.
      rewrite order_by_Permutation, <- Hsel in Hb.
      apply list_elem_of_In, filter_In in Ha as [Ha _].
      apply list_elem_of_In, filter_In in Hb as [Hb _].
      apply list_elem_of_In in Ha, Hb.
      apply (NoDup_map_inj_on storage.message_id _ a b Hnd Ha Hb).
      apply ts_message_id_leb_spec in Hab, Hba.
      destruct Hab as [Hab|[Hts Hab]], Hba as [Hba|[Hts' Hba]].
      + rewrite (str_compare_antisym (storage.ts a) (storage.ts b)), Hab in Hba.
        discriminate.
      + rewrite Hts', str_compare_refl in Hab. discriminate.
      + rewrite Hts, str_compare_refl in Hba. discriminate.
      + apply str_leb_antisym; assumption.
    - apply Sorted_StronglySorted.
      + intros a b c. apply ts_message_id_leb_trans.
      + apply order_by_Sorted, ts_message_id_leb_total.
    - apply Sorted_StronglySorted.
      + intros a b c. apply ts_message_id_leb_trans.
      + apply order_by_Sorted, ts_message_id_leb_total.
    - rewrite !order_by_Permutation. exact Hsel. }
  rewrite Hsorted, (Permutation_length Hsel). reflexivity.
Qed.

(** ** Statistics: how the counts add up *)

Lemma sum_indicator (x : str) (keys : list str) :
  NoDup keys -> x ∈ keys ->
  sum_list_with (fun k => if str_eqb x k then 1 else 0)%nat keys = 1%nat.
Proof.
  induction keys as [|k keys IH]; intros Hnd Hx; [inversion Hx|].
  apply NoDup_cons in Hnd as [Hk Hnd]. simpl.
  apply elem_of_cons in Hx as [->|Hx].
  - rewrite str_eqb_refl.
    assert (Hz : sum_list_with
                   (fun k' => if str_eqb k k' then 1 else 0)%nat keys = 0%nat).
    { clear -Hk. induction keys as [|k' keys IH]; simpl; [reflexivity|].
      destruct (str_eqb k k') eqn:E.
      - apply str_eqb_eq in E. subst. destruct Hk. apply list_elem_of_here.
      - apply IH. intros H. apply Hk. apply list_elem_of_further, H. }
    rewrite Hz. reflexivity.
  - destruct (str_eqb x k) eqn:E.
    + apply str_eqb_eq in E. subst. contradiction.
    + apply IH; assumption.
Qed.

(** The counts of the senders add up to the number of rows. *)
Lemma sum_messages_of (rows : list storage.Row) (keys : list str) :
  NoDup keys ->
  (forall r, r ∈ rows -> storage.from_msisdn r ∈ keys) ->
  sum_list_with (fun k => spec.messages_of k rows) keys = length rows.
Proof.
  intros Hnd. induction rows as [|r rows IH]; intros Hcover.
  - unfold spec.messages_of. simpl. clear. induction keys; simpl; auto.
  - assert (Hsplit : forall l,
      sum_list_with (fun k => spec.messages_of k (r :: rows)) l
      = (sum_list_with
           (fun k => if str_eqb (storage.from_msisdn r) k then 1 else 0) l
         + sum_list_with (fun k => spec.messages_of k rows) l)%nat).
    { induction l as [|k l IHl]; simpl; [reflexivity|]. rewrite IHl.
      unfold spec.messages_of at 1. simpl.
      destruct (str_eqb (storage.from_msisdn r) k); simpl;
        unfold spec.messages_of; lia. }
    rewrite Hsplit, IH, sum_indicator.
    + reflexivity.
    + exact Hnd.
    + apply Hcover, list_elem_of_here.
    + intros r' Hr'. apply Hcover, list_elem_of_further, Hr'.
Qed.

Lemma group_counts_sum (rows : list storage.Row) :
  sum_list_with storage.count (storage.group_by_sender rows) = length rows.
Proof.
  unfold storage.group_by_sender.
  set (keys := order_by str_leb (remove_dups (map storage.from_msisdn rows))).
  assert (Hperm : keys ≡ₚ remove_dups (map storage.from_msisdn rows))
    by apply order_by_Permutation.
  rewrite <- (sum_messages_of rows keys).
  - clear. induction keys as [|k keys IH]; simpl; [reflexivity|].
    rewrite IH. reflexivity.
  - rewrite Hperm. apply NoDup_remove_dups.
  - intros r Hr. rewrite Hperm. apply elem_of_remove_dups.
    apply (list_elem_of_fmap_2 storage.from_msisdn), Hr.
Qed.

(** X19.  In the statistics of a store that can be read, the counts of
    the listed senders never add up to more than [total_messages], and
    [senders_count] is never more than [total_messages].  When there are
    at most ten senders, all of them are listed and their counts add up
    to [total_messages] exactly. *)
Theorem get_stats_counts_add_up (db : storage.Database) :
  storage.reachable db = true ->
  exists st, storage.get_stats db = Ok st
    /\ (sum_list_with storage.count (storage.messages_per_sender st)
        <= storage.total_messages st)%nat
    /\ (storage.senders_count st <= storage.total_messages st)%nat
    /\ length (storage.messages_per_sender st)
       = Nat.min 10 (storage.senders_count st)
    /\ ((storage.senders_count st <= 10)%nat ->
        sum_list_with storage.count (storage.messages_per_sender st)
        = storage.total_messages st).
Proof.
  intros Hup. unfold storage.get_stats. rewrite Hup.
  eexists. split; [reflexivity|]. simpl.
  set (rows := storage.messages db).
  set (full := order_by storage.count_desc (storage.group_by_sender rows)).
  assert (Hperm : full ≡ₚ storage.group_by_sender rows)
    by apply order_by_Permutation.
  assert (Hsum : sum_list_with storage.count full = length rows).
  { rewrite Hperm. apply group_counts_sum. }
  assert (Hlen : length full
                 = length (remove_dups (map storage.from_msisdn rows))).
  { rewrite (Permutation_length Hperm). unfold storage.group_by_sender.
    rewrite length_map. apply order_by_length. }
  split; [|split; [|split]].
  - rewrite <- Hsum. rewrite <- (take_drop 10 full) at 2.
    rewrite sum_list_with_app. lia.
  - rewrite <- (length_map storage.from_msisdn rows).
    apply submseteq_length, NoDup_submseteq; [apply NoDup_remove_dups|].
    intros x. apply elem_of_remove_dups.
  - rewrite length_take, Hlen. reflexivity.
  - intros Hten. rewrite take_ge by lia. exact Hsum.
Qed.

(** ** The ingestion handler: which requests are accepted *)

Section ingestion_cases.
Context `{RT : Runtime}.

(** A request that is not a correctly signed valid document is refused
    and leaves the database as it was. *)
Lemma webhook_cases (env : main.Env) (body : bytes)
    (signature : option str) (s : main.State) :
  (exists key p,
     encode (config.webhook_secret (main.config env)) = Some key
     /\ signature = Some (hexdigest (hmac_sha256 key body))
     /\ models.model_validate_json body = Ok p)
  \/ (main.db (main.app env (main.POST_webhook body signature) s).2
      = main.db s
      /\ main.status_code
           (main.app env (main.POST_webhook body signature) s).1 <> 200%Z).
Proof.
  destruct (opt_truthy signature) eqn:Ht.
  - destruct signature as [sg|]; [|discriminate].
    assert (Hne : sg <> []) by (intros ->; discriminate).
    destruct (encode (config.webhook_secret (main.config env)))
      as [key|] eqn:Hk.
    + destruct (is_ascii sg) eqn:Ha.
      * destruct (decide (sg = hexdigest (hmac_sha256 key body)))
          as [->|Hneq].
        -- destruct (models.model_validate_json body) as [p|errors] eqn:Hp.
           ++ left. eauto.
           ++ right. rewrite app_webhook, webhook_unfold.
              rewrite (verify_signature_present _ _ _ _ _ Hne Hk).
              rewrite compare_digest_hexdigest, Ha.
              rewrite bool_decide_eq_true_2 by reflexivity.
              cbv zeta. rewrite Hp. simpl. split; [reflexivity|discriminate].
        -- right. rewrite app_webhook, webhook_unfold.
           rewrite (verify_signature_present _ _ _ _ _ Hne Hk).
           rewrite compare_digest_hexdigest, Ha.
           rewrite (bool_decide_eq_false_2 _ Hneq). simpl.
           split; [reflexivity|discriminate].
      * right. rewrite app_webhook, webhook_unfold.
        rewrite (verify_signature_present _ _ _ _ _ Hne Hk).
        rewrite compare_digest_hexdigest, Ha. simpl.
        split; [reflexivity|discriminate].
    + right. rewrite app_webhook, webhook_unfold.
      rewrite (verify_signature_undecodable_secret _ _ _ _ Hne Hk). simpl.
      split; [reflexivity|discriminate].
  - right. rewrite app_webhook, webhook_unfold.
    rewrite (verify_signature_absent _ _ _ _ Ht). simpl.
    split; [reflexivity|discriminate].
Qed.

(** X20.  [POST /webhook] is answered 200 exactly when the secret can be
    encoded, the signature sent is the hex digest of the body under it,
    the body validates as a payload, and the store can be written. *)
Theorem webhook_accepts_iff (env : main.Env) (body : bytes)
    (signature : option str) (s : main.State) :
  main.status_code (main.app env (main.POST_webhook body signature) s).1
  = 200%Z
  <-> exists key p,
        encode (config.webhook_secret (main.config env)) = Some key
        /\ signature = Some (hexdigest (hmac_sha256 key body))
        /\ models.model_validate_json body = Ok p
        /\ storage.reachable (main.db s) = true.
Proof.
  split.
  - intros H200.
    destruct (webhook_cases env body signature s)
      as [(key & p & Hk & -> & Hp)|[_ Hno]]; [|contradiction].
    exists key, p. repeat split; try assumption.
    revert H200. rewrite (webhook_valid_message env body key p s Hk Hp).
    unfold storage.insert_message.
    destruct (storage.reachable (main.db s)); [reflexivity|].
    simpl. discriminate.
  - intros (key & p & Hk & -> & Hp & Hup).
    rewrite (webhook_valid_message env body key p s Hk Hp).
    unfold storage.insert_message. rewrite Hup.
    destruct (storage.has_key _ _); reflexivity.
Qed.

(** X21.  The database changes under [POST /webhook] only when the
    request is correctly signed, its body validates, and no row has the
    message id: then the change is one row appended, built from the
    payload and the clock, and the answer is 200. *)
Theorem webhook_changes_only_by_insert (env : main.Env) (body : bytes)
    (signature : option str) (s : main.State) :
  main.db (main.app env (main.POST_webhook body signature) s).2
    <> main.db s ->
  exists key p,
    encode (config.webhook_secret (main.config env)) = Some key
    /\ signature = Some (hexdigest (hmac_sha256 key body))
    /\ models.model_validate_json body = Ok p
    /\ storage.has_key (models.message_id p)
         (storage.messages (main.db s)) = false
    /\ storage.messages
         (main.db (main.app env (main.POST_webhook body signature) s).2)
       = storage.messages (main.db s)
         ++ [storage.Build_Row (models.message_id p) (models.from_ p)
               (models.to p) (models.ts p) (models.text p) (main.now env)]
    /\ (main.app env (main.POST_webhook body signature) s).1
       = {| main.status_code := 200; main.body := main.status_ok |}.
Proof.
  intros Hch.
  destruct (webhook_cases env body signature s)
    as [(key & p & Hk & -> & Hp)|[Hsame _]]; [|contradiction].
  exists key, p. do 3 (split; [assumption || reflexivity|]).
  revert Hch. rewrite (webhook_valid_message env body key p s Hk Hp).
  unfold storage.insert_message.
  destruct (storage.reachable (main.db s)); simpl; [|congruence].
  destruct (storage.has_key _ _); simpl; [congruence|].
  intros _. repeat split.
Qed.


End ingestion_cases.

(** ** The handlers that only read *)

Section readers.
Context `{RT : Runtime}.

(** A request other than [POST /webhook] leaves the database, the
    counters and the log of the handlers as they were. *)
Lemma app_get_state (env : main.Env) (req : main.Request) (s : main.State) :
  (forall body sg, req <> main.POST_webhook body sg) ->
  main.db (main.app env req s).2 = main.db s
  /\ main.metrics (main.app env req s).2 = main.metrics s
  /\ main.stdout (main.app env req s).2 = main.stdout s.
Proof.
  intros Hget. destruct req as [body sg|limit offset from_ since q| | |].
  - destruct (Hget body sg eq_refl).
  - unfold main.app, main.route, main.get_messages_route.
    destruct (main.query_int (py "limit") 50 1 (Some 100%Z) limit);
      destruct (main.query_int (py "offset") 0 0 None offset);
      try (simpl; auto; fail).
    cbv [main.get_messages main.bind main.called main.get_state main.lift
         main.ret main.raise main.record_call main.db].
    destruct (storage.get_messages _ _ _ _ _ _) as [[rows total]|e];
      simpl; auto.
  - unfold main.app, main.route, main.get_stats.
    cbv [main.bind main.called main.get_state main.lift main.ret main.raise
         main.record_call main.db].
    destruct (storage.get_stats _); simpl; auto.
  - simpl. auto.
  - unfold main.app, main.route, main.health_ready.
    destruct (negb (config.is_ready (main.config env))); [simpl; auto|].
    cbv [main.bind main.called main.get_state main.ret main.record_call
         main.db].
    destruct (negb (storage.is_healthy _)); simpl; auto.
Qed.


(** X24.  A service started with [WEBHOOK_SECRET] unset or empty reports
    itself not ready, and yet takes messages: [webhook] does not ask
    [is_ready], so a valid body signed under the empty key is answered
    200 and stored. *)
Theorem unset_secret_still_accepts (environ : gmap str str) (now : str)
    (body : bytes) (p : models.WebhookPayload) (s : main.State) :
  startup.getenv environ (py "WEBHOOK_SECRET") [] = [] ->
  models.model_validate_json body = Ok p ->
  storage.reachable (main.db s) = true ->
  let env := {| main.config := startup.Config_init environ;
                main.now := now |} in
  let accepted :=
    main.app env
      (main.POST_webhook body (Some (hexdigest (hmac_sha256 [] body)))) s in
  (main.app env main.GET_health_ready s).1
  = {| main.status_code := 503;
       main.body := main.not_ready (py "missing webhook secret") |}
  /\ accepted.1 = {| main.status_code := 200; main.body := main.status_ok |}
  /\ storage.has_key (models.message_id p)
       (storage.messages (main.db accepted.2)) = true.
Proof.
  intros Hsecret Hp Hup env accepted.
  assert (Hk : encode (config.webhook_secret (main.config env)) = Some []).
  { simpl. rewrite Hsecret. reflexivity. }
  split.
  - unfold main.app, main.route, main.health_ready, config.is_ready.
    simpl. rewrite Hsecret. reflexivity.
  - subst accepted.
    rewrite (webhook_valid_message env body [] p s Hk Hp).
    unfold storage.insert_message. rewrite Hup.
    destruct (storage.has_key (models.message_id p)
                (storage.messages (main.db s))) eqn:Hkey; simpl.
    + split; [reflexivity|exact Hkey].
    + split; [reflexivity|]. apply has_key_true. eexists. split.
      * apply elem_of_app. right. apply list_elem_of_singleton. reflexivity.
      * reflexivity.
Qed.

End readers.

(** ** The middleware *)

Section middleware.
Context `{RT : Runtime}.

(** No handler returns the body of the server's own answer to an
    exception. *)
Lemma route_returns (env : main.Env) (r : main.Request)
    (h h' : main.State) (resp : main.Response) :
  main.route env r h = (main.Return resp, h') ->
  main.body resp <> main.internal_server_error.
Proof.
  destruct r as [body sg|limit offset from_ since q| | |].
  - simpl main.route. rewrite webhook_unfold.
    destruct (main.verify_signature env body sg h) as [[[|]|e] s1];
      [| intros [= <- <-]; discriminate | discriminate].
    cbv zeta.
    destruct (models.model_validate_json body) as [p|errors];
      [|discriminate].
    destruct (storage.insert_message _ _ _ _ _ _ _) as [db' [[|] dup]];
      simpl; intros [= <- <-]; discriminate.
  - unfold main.route, main.get_messages_route.
    destruct (main.query_int (py "limit") 50 1 (Some 100%Z) limit);
      destruct (main.query_int (py "offset") 0 0 None offset);
      try discriminate.
    cbv [main.get_messages main.bind main.called main.get_state main.lift
         main.ret main.raise main.record_call main.db].
    destruct (storage.get_messages _ _ _ _ _ _) as [[rows total]|e];
      [intros [= <- <-]|]; discriminate.
  - unfold main.route, main.get_stats.
    cbv [main.bind main.called main.get_state main.lift main.ret main.raise
         main.record_call main.db].
    destruct (storage.get_stats _); [intros [= <- <-]|]; discriminate.
  - intros [= <- <-]. discriminate.
  - unfold main.route, main.health_ready.
    destruct (negb (config.is_ready (main.config env)));
      [intros [= <- <-]; discriminate|].
    cbv [main.bind main.called main.get_state main.ret main.record_call
         main.db].
    destruct (negb (storage.is_healthy _)); intros [= <- <-]; discriminate.
Qed.

(** The exceptions that leave [webhook] are not among those the
    application handles. *)
Lemma webhook_raises (env : main.Env) (body : bytes) (sg : option str)
    (h h' : main.State) (e : exn) :
  main.webhook env body sg h = (main.Raise e, h') ->
  main.exception_handler e = None.
Proof.
  rewrite webhook_unfold.
  destruct (opt_truthy sg) eqn:Ht.
  - destruct sg as [sg|]; [|discriminate].
    assert (Hne : sg <> []) by (intros ->; discriminate).
    destruct (encode (config.webhook_secret (main.config env)))
      as [key|] eqn:Hk.
    + rewrite (verify_signature_present _ _ _ _ _ Hne Hk).
      rewrite compare_digest_hexdigest.
      destruct (is_ascii sg); [|intros [= <- <-]; reflexivity].
      destruct (bool_decide _); [|discriminate].
      cbv zeta. destruct (models.model_validate_json body);
        [|intros [= <- <-]; reflexivity].
      destruct (storage.insert_message _ _ _ _ _ _ _) as [db' [[|] dup]];
        discriminate.
    + rewrite (verify_signature_undecodable_secret _ _ _ _ Hne Hk).
      intros [= <- <-]. reflexivity.
  - rewrite (verify_signature_absent _ _ _ _ Ht). discriminate.
Qed.

Lemma exception_handler_returns (e : exn) (resp : main.Response) :
  main.exception_handler e = Some resp ->
  main.body resp <> main.internal_server_error.
Proof. destruct e; try discriminate. intros [= <-]. discriminate. Qed.

Lemma serve_routed (env : main.Env) (r : main.Request) (s : server.State) :
  server.serve env (server.routed r) s =
  match main.route env r (server.handlers s) with
  | (main.Return resp, h) =>
      ({| server.status_code := main.status_code resp;
          server.body := server.of_handler (main.body resp) |},
       after_answer (server.routed r) (main.status_code resp) h s)
  | (main.Raise e, h) =>
      match main.exception_handler e with
      | Some resp =>
          ({| server.status_code := main.status_code resp;
              server.body := server.of_handler (main.body resp) |},
           after_answer (server.routed r) (main.status_code resp) h s)
      | None =>
          ({| server.status_code := 500;
              server.body := server.of_handler main.internal_server_error |},
           {| server.handlers := h;
              server.http_requests_total := server.http_requests_total s |})
      end
  end.
Proof.
  unfold server.serve, server.logging_middleware, server.call_next.
  destruct (main.route env r (server.handlers s)) as [[resp|e] h].
  - reflexivity.
  - destruct (main.exception_handler e) as [resp|]; reflexivity.
Qed.

Lemma path_not_webhook (r : main.Request) :
  (forall body sg, r <> main.POST_webhook body sg) ->
  bool_decide (server.path_of (server.routed r) <> py "/webhook") = true.
Proof.
  intros Hget. destruct r as [body sg| | | |].
  - destruct (Hget body sg eq_refl).
  - apply bool_decide_eq_true_2. discriminate.
  - apply bool_decide_eq_true_2. discriminate.
  - apply bool_decide_eq_true_2. discriminate.
  - apply bool_decide_eq_true_2. discriminate.
Qed.

(** X25.  Behind the middleware every route answers as it does alone:
    the response to a request is the handler's, the database, the webhook
    counters and the calls are as the handler left them, and the log has
    one more record, for the request, unless the request is
    [POST /webhook] or ended in an exception that nothing handled. *)
Theorem serve_answers_as_app (env : main.Env) (r : main.Request)
    (s : server.State) :
  let a := main.app env r (server.handlers s) in
  let v := server.serve env (server.routed r) s in
  v.1 = {| server.status_code := main.status_code a.1;
           server.body := server.of_handler (main.body a.1) |}
  /\ main.db (server.handlers v.2) = main.db a.2
  /\ main.metrics (server.handlers v.2) = main.metrics a.2
  /\ main.calls (server.handlers v.2) = main.calls a.2
  /\ ((exists body sg, r = main.POST_webhook body sg)
      \/ main.body a.1 = main.internal_server_error ->
      main.stdout (server.handlers v.2) = main.stdout a.2)
  /\ ((forall body sg, r <> main.POST_webhook body sg) ->
      main.body a.1 <> main.internal_server_error ->
      main.stdout (server.handlers v.2)
      = main.stdout a.2
        ++ [logging_utils.Build_LogEntry (py "INFO")
              (server.method_of (server.routed r))
              (server.path_of (server.routed r))
              (main.status_code a.1) None None None None]).
Proof.
  intros a v. subst a v. rewrite serve_routed. unfold main.app.
  destruct (main.route env r (server.handlers s)) as [[resp|e] h] eqn:Hr.
  - pose proof (route_returns _ _ _ _ _ Hr) as Hbody.
    unfold after_answer.
    destruct (bool_decide (server.path_of (server.routed r) <> py "/webhook"))
      eqn:Hp; simpl;
      refine (conj eq_refl (conj eq_refl (conj eq_refl (conj eq_refl
                (conj _ _))))).
    + intros [(body & sg & ->)|Hb]; [discriminate|contradiction].
    + intros _ _. reflexivity.
    + intros _. reflexivity.
    + intros Hget _. rewrite (path_not_webhook r Hget) in Hp. discriminate.
  - destruct (main.exception_handler e) as [resp|] eqn:He.
    + pose proof (exception_handler_returns _ _ He) as Hbody.
      assert (Hget : forall body sg, r <> main.POST_webhook body sg).
      { intros body sg ->. simpl in Hr.
        rewrite (webhook_raises _ _ _ _ _ _ Hr) in He. discriminate. }
      unfold after_answer. rewrite (path_not_webhook r Hget). simpl.
      refine (conj eq_refl (conj eq_refl (conj eq_refl (conj eq_refl
                (conj _ _))))).
      * intros [(body & sg & ->)|Hb]; [|contradiction].
        destruct (Hget body sg eq_refl).
      * intros _ _. reflexivity.
    + simpl.
      refine (conj eq_refl (conj eq_refl (conj eq_refl (conj eq_refl
                (conj _ _))))).
      * intros _. reflexivity.
      * intros _ Hb. destruct (Hb eq_refl).
Qed.

End middleware.

(** ** The metrics and their export *)

Lemma join_lines (parts : list str) :
  parts <> [] ->
  join [10] parts ++ [10] = flat_map (fun l => l ++ [10]) parts.
Proof.
  induction parts as [|x [|y rest] IH]; intros Hne; [congruence| |].
  - simpl. rewrite app_nil_r. reflexivity.
  - change (join [10] (x :: y :: rest))
      with (x ++ [10] ++ join [10] (y :: rest)).
    change (flat_map (fun l => l ++ [10]) (x :: y :: rest))
      with ((x ++ [10]) ++ flat_map (fun l => l ++ [10]) (y :: rest)).
    rewrite <- IH by discriminate. rewrite <- !app_assoc. reflexivity.
Qed.

(** A line of a text made of lines stands in it after a line end or at
    the start, and ends in a line end. *)
Lemma line_in_text (l : str) (parts : list str) :
  l ∈ parts ->
  exists before after,
    flat_map (fun l => l ++ [10]) parts = before ++ l ++ [10] ++ after
    /\ (before = [] \/ last before = Some 10).
Proof.
  induction 1 as [l parts|l x parts Hin (before & after & Heq & Hlast)].
  - exists [], (flat_map (fun l => l ++ [10]) parts). split; [|auto].
    simpl. rewrite <- app_assoc. reflexivity.
  - exists ((x ++ [10]) ++ before), after. split.
    + simpl. rewrite Heq, <- !app_assoc. reflexivity.
    + right. destruct Hlast as [->|Hlast].
      * rewrite app_nil_r. apply last_snoc.
      * apply last_app_Some. auto.
Qed.

Lemma export_prometheus_lines (self : metrics.Registry) :
  metrics.export_prometheus self
  = flat_map (fun l => l ++ [10]) (metrics.export_lines self).
Proof. unfold metrics.export_prometheus. apply join_lines. discriminate. Qed.

Lemma http_item_leb_total (a b : str * str * Z * nat) :
  metrics.http_item_leb a b = true \/ metrics.http_item_leb b a = true.
Proof.
  destruct a as [[[m1 p1] s1] c1], b as [[[m2 p2] s2] c2].
  unfold metrics.http_item_leb.
  rewrite (str_compare_antisym m1 m2), (str_compare_antisym p1 p2),
    (Z.compare_antisym s1 s2).
  destruct (str_compare m1 m2); simpl; auto.
  destruct (str_compare p1 p2); simpl; auto.
  destruct (Z.compare s1 s2); simpl; auto.
  destruct (Nat.leb_spec c1 c2); [auto|].
  right. apply Nat.leb_le. lia.
Qed.

Lemma webhook_item_leb_total (a b : str * nat) :
  metrics.webhook_item_leb a b = true \/ metrics.webhook_item_leb b a = true.
Proof.
  destruct a as [k1 c1], b as [k2 c2]. unfold metrics.webhook_item_leb.
  simpl. rewrite (str_compare_antisym k1 k2).
  destruct (str_compare k1 k2); simpl; auto.
  destruct (Nat.leb_spec c1 c2); [auto|].
  right. apply Nat.leb_le. lia.
Qed.

(** X26.  The text of [export_prometheus] is made of lines that each end
    in a line end: the two headers of [http_requests_total], one sample
    line for each of its counters in the order of [sorted], the two
    headers of [webhook_requests_total], and one sample line for each of
    its counters in the order of [sorted]. *)
Theorem export_prometheus_format (self : metrics.Registry) :
  exists hs ws,
    hs ≡ₚ map_to_list (metrics.http_requests_total self)
    /\ ws ≡ₚ map_to_list
               (metrics.webhook_requests_total (metrics.webhook self))
    /\ Sorted (fun a b => metrics.http_item_leb a b = true) hs
    /\ Sorted (fun a b => metrics.webhook_item_leb a b = true) ws
    /\ metrics.export_prometheus self
       = flat_map (fun l => l ++ [10])
           ([py "# HELP http_requests_total Total HTTP requests";
             py "# TYPE http_requests_total counter"]
            ++ map metrics.http_line hs
            ++ [py "# HELP webhook_requests_total Total webhook requests";
                py "# TYPE webhook_requests_total counter"]
            ++ map metrics.webhook_line ws).
Proof.
  exists (order_by metrics.http_item_leb
            (map_to_list (metrics.http_requests_total self))),
         (order_by metrics.webhook_item_leb
            (map_to_list
               (metrics.webhook_requests_total (metrics.webhook self)))).
  split; [apply order_by_Permutation|].
  split; [apply order_by_Permutation|].
  split; [apply order_by_Sorted, http_item_leb_total|].
  split; [apply order_by_Sorted, webhook_item_leb_total|].
  apply export_prometheus_lines.
Qed.

Section counting.
Context `{RT : Runtime}.

(** X27.  The middleware counts a request exactly when it was answered
    by a handler or by an exception handler of the application: the
    counter of its method, path and status goes up by one and no other
    changes.  A request that ends in an exception nothing handled is
    answered 500 by the server and no counter changes. *)
Theorem serve_counts_answers (env : main.Env) (req : server.Request)
    (s : server.State) :
  let v := server.serve env req s in
  let key := (server.method_of req, server.path_of req,
              server.status_code v.1) in
  (server.body v.1 = server.of_handler main.internal_server_error ->
   server.status_code v.1 = 500%Z
   /\ server.http_requests_total v.2 = server.http_requests_total s)
  /\ (server.body v.1 <> server.of_handler main.internal_server_error ->
      server.http_requests_total v.2
      = <[key := S (default O (server.http_requests_total s !! key))]>
          (server.http_requests_total s)).
Proof.
  intros v key. subst v key. destruct req as [r|].
  - rewrite serve_routed.
    destruct (main.route env r (server.handlers s)) as [[resp|e] h] eqn:Hr.
    + pose proof (route_returns _ _ _ _ _ Hr) as Hbody. simpl. split.
      * intros [= Hb]. contradiction.
      * intros _. reflexivity.
    + destruct (main.exception_handler e) as [resp|] eqn:He.
      * pose proof (exception_handler_returns _ _ He) as Hbody. simpl. split.
        -- intros [= Hb]. contradiction.
        -- intros _. reflexivity.
      * simpl. split; [auto|]. intros Hb. destruct (Hb eq_refl).
  - simpl. split; [discriminate|]. intros _. reflexivity.
Qed.

Lemma serve_counted (env : main.Env) (req : server.Request)
    (s : server.State) :
  server.body (server.serve env req s).1
    <> server.of_handler main.internal_server_error ->
  server.http_requests_total (server.serve env req s).2
  = <[(server.method_of req, server.path_of req,
       server.status_code (server.serve env req s).1) :=
        S (default O
             (server.http_requests_total s
                !! (server.method_of req, server.path_of req,
                    server.status_code (server.serve env req s).1)))]>
      (server.http_requests_total s).
Proof.
  destruct req as [r|].
  - rewrite serve_routed.
    destruct (main.route env r (server.handlers s)) as [[resp|e] h] eqn:Hr.
    + reflexivity.
    + destruct (main.exception_handler e) as [resp|] eqn:He.
      * reflexivity.
      * simpl. intros Hb. destruct (Hb eq_refl).
  - reflexivity.
Qed.

(** X28.  A request that was answered shows in the next [GET /metrics]:
    the text has the line of [http_requests_total] for the method, the
    path and the status of the request, with the count one more than
    before, standing on a line of its own. *)
Theorem metrics_show_request (env env' : main.Env) (req : server.Request)
    (s : server.State) :
  let v := server.serve env req s in
  let key := (server.method_of req, server.path_of req,
              server.status_code v.1) in
  server.body v.1 <> server.of_handler main.internal_server_error ->
  exists before after,
    (server.serve env' server.GET_metrics v.2).1
    = {| server.status_code := 200;
         server.body :=
           server.text_plain
             (before
              ++ metrics.http_line
                   (key, S (default O (server.http_requests_total s !! key)))
              ++ [10] ++ after) |}
    /\ last before = Some 10.
Proof.
  intros v key Hb. subst v key.
  set (v := server.serve env req s) in *.
  set (key := (server.method_of req, server.path_of req,
               server.status_code v.1)).
  set (n := S (default O (server.http_requests_total s !! key))).
  assert (Hline : metrics.http_line (key, n)
                  ∈ metrics.export_lines (server.registry v.2)).
  { unfold metrics.export_lines. apply elem_of_app. right.
    apply elem_of_app. left. apply (list_elem_of_fmap_2 metrics.http_line).
    rewrite order_by_Permutation. apply elem_of_map_to_list.
    simpl. unfold v. rewrite (serve_counted env req s Hb).
    apply lookup_insert_eq. }
  apply elem_of_cons in Hline as [Hhead|Hline].
  { exfalso. revert Hhead. unfold metrics.http_line, key.
    destruct req as [[]|]; simpl; discriminate. }
  destruct (line_in_text _ _ Hline) as (before & after & Heq & Hlast).
  exists ((py "# HELP http_requests_total Total HTTP requests" ++ [10])
          ++ before), after.
  split.
  - unfold server.serve, server.logging_middleware, server.call_next,
      server.get_metrics. simpl. f_equal. f_equal.
    rewrite export_prometheus_lines.
    change (metrics.export_lines (server.registry v.2))
      with (py "# HELP http_requests_total Total HTTP requests"
            :: tail (metrics.export_lines (server.registry v.2))).
    simpl flat_map at 1. simpl tail. unfold n, key in Heq.
    simpl in Heq. rewrite Heq. rewrite <- !app_assoc. reflexivity.
  - destruct Hlast as [->|Hlast].
    + rewrite app_nil_r. apply last_snoc.
    + apply last_app_Some. auto.
Qed.

End counting.

(** ** Runs of the service *)

Section runs.
Context `{RT : Runtime}.

(** One request and the database: nothing changes, or one row is
    appended for a correctly signed valid message with a new id. *)
Lemma serve_db_step (env : main.Env) (req : server.Request)
    (s : server.State) :
  main.db (server.handlers (server.serve env req s).2)
  = main.db (server.handlers s)
  \/ exists body key p,
       req = server.routed
               (main.POST_webhook body
                  (Some (hexdigest (hmac_sha256 key body))))
       /\ encode (config.webhook_secret (main.config env)) = Some key
       /\ models.model_validate_json body = Ok p
       /\ storage.has_key (models.message_id p)
            (storage.messages (main.db (server.handlers s))) = false
       /\ main.db (server.handlers (server.serve env req s).2)
          = {| storage.messages :=
                 storage.messages (main.db (server.handlers s))
                 ++ [row_of p (main.now env)];
               storage.reachable :=
                 storage.reachable (main.db (server.handlers s)) |}.
Proof.
  destruct req as [r|]; [|left; reflexivity].
  assert (Hsame : main.db (server.handlers (server.serve env (server.routed r) s).2)
                  = main.db (main.app env r (server.handlers s)).2).
  { rewrite serve_routed. unfold main.app, after_answer.
    destruct (main.route env r (server.handlers s)) as [[resp|e] h].
    - simpl. destruct (bool_decide _); reflexivity.
    - destruct (main.exception_handler e); simpl;
        [destruct (bool_decide _)|]; reflexivity. }
  rewrite Hsame.
  destruct r as [body sg|limit offset from_ since q| | |];
    try (left; apply app_get_state; intros; discriminate).
  destruct (webhook_cases env body sg (server.handlers s))
    as [(key & p & Hk & -> & Hp)|[Hdb _]]; [|left; exact Hdb].
  rewrite (webhook_valid_message env body key p _ Hk Hp).
  unfold storage.insert_message.
  destruct (storage.reachable (main.db (server.handlers s))) eqn:Hup;
    [|left; reflexivity].
  destruct (storage.has_key (models.message_id p) _) eqn:Hkey;
    [left; reflexivity|].
  right. exists body, key, p.
  do 4 (split; [reflexivity || assumption|]). reflexivity.
Qed.

Lemma run_cons (config : config.Config) (now : str) (req : server.Request)
    (rest : list (str * server.Request)) (s : server.State) :
  (run config ((now, req) :: rest) s).2
  = (run config rest
       (server.serve {| main.config := config; main.now := now |} req s).2).2.
Proof.
  simpl. destruct (server.serve _ req s) as [resp s1]. simpl.
  destruct (run config rest s1). reflexivity.
Qed.

(** X29.  Over any run of the service the table [messages] only grows at
    its end, and its primary key stays one: the rows there at the start
    are there at the end, unchanged and in place; every row added was
    built from the payload of a [POST /webhook] of the run that was
    correctly signed and valid, with the clock of that request; and no
    two rows have the same [message_id]. *)
Theorem run_store_integrity (config : config.Config)
    (requests : list (str * server.Request)) (s : server.State) :
  NoDup (map storage.message_id
           (storage.messages (main.db (server.handlers s)))) ->
  let s' := (run config requests s).2 in
  NoDup (map storage.message_id
           (storage.messages (main.db (server.handlers s'))))
  /\ storage.reachable (main.db (server.handlers s'))
     = storage.reachable (main.db (server.handlers s))
  /\ exists added,
       storage.messages (main.db (server.handlers s'))
       = storage.messages (main.db (server.handlers s)) ++ added
       /\ (length added <= length requests)%nat
       /\ forall row, row ∈ added ->
            exists now body key p,
              (now, server.routed
                      (main.POST_webhook body
                         (Some (hexdigest (hmac_sha256 key body)))))
                ∈ requests
              /\ encode (config.webhook_secret config) = Some key
              /\ models.model_validate_json body = Ok p
              /\ row = row_of p now.
Proof.
  revert s. induction requests as [|[now req] rest IH]; intros s Hnd s'.
  - subst s'. simpl. split; [exact Hnd|]. split; [reflexivity|].
    exists []. rewrite app_nil_r. split; [reflexivity|].
    split; [simpl; lia|]. intros row Hrow. inversion Hrow.
  - subst s'. rewrite run_cons.
    set (env := {| main.config := config; main.now := now |}).
    set (s1 := (server.serve env req s).2).
    destruct (serve_db_step env req s)
      as [Hdb|(body & key & p & -> & Hk & Hp & Hkey & Hdb)];
      fold s1 in Hdb.
    + assert (Hnd1 : NoDup (map storage.message_id
                (storage.messages (main.db (server.handlers s1)))))
        by (rewrite Hdb; exact Hnd).
      destruct (IH s1 Hnd1) as (Hnd' & Hup' & added & Hadd & Hlen & Hrows).
      split; [exact Hnd'|]. split; [rewrite Hup', Hdb; reflexivity|].
      exists added. split; [rewrite Hadd, Hdb; reflexivity|].
      split; [simpl; lia|].
      intros row Hrow.
      destruct (Hrows row Hrow) as (now' & body & key & p & Hin & Hrest).
      exists now', body, key, p. split; [|exact Hrest].
      apply list_elem_of_further, Hin.
    + assert (Hnd1 : NoDup (map storage.message_id
                (storage.messages (main.db (server.handlers s1))))).
      { rewrite Hdb. simpl. rewrite map_app. simpl.
        apply NoDup_app. split; [exact Hnd|]. split.
        - intros id Hid Hone. apply list_elem_of_singleton in Hone.
          subst id. apply list_elem_of_fmap in Hid as (r & Hr & Hin).
          apply (proj1 (has_key_false _ _) Hkey r Hin). symmetry. exact Hr.
        - apply NoDup_singleton. }
      destruct (IH s1 Hnd1) as (Hnd' & Hup' & added & Hadd & Hlen & Hrows).
      split; [exact Hnd'|]. split; [rewrite Hup', Hdb; reflexivity|].
      exists (row_of p now :: added).
      split; [rewrite Hadd, Hdb; simpl; rewrite <- app_assoc; reflexivity|].
      split; [simpl; lia|].
      intros row Hrow. apply elem_of_cons in Hrow as [->|Hrow].
      * exists now, body, key, p. split; [apply list_elem_of_here|].
        repeat split; assumption.
      * destruct (Hrows row Hrow) as (now' & body' & key' & p' & Hin & Hrest).
        exists now', body', key', p'. split; [|exact Hrest].
        apply list_elem_of_further, Hin.
Qed.

End runs.

(** ** The payload validator: what it reports *)

Lemma required_str_Err (key : str) (check : str -> result error_type str)
    (fields : list (str * json)) (errors : list line_error) :
  (forall s e, check s = Err e -> e <> missing) ->
  models.required_str key check fields = Err errors ->
  exists t, errors = [LineError key t]
            /\ (t = missing <-> obj_get key fields = None).
Proof.
  intros Hcheck. unfold models.required_str.
  destruct (obj_get key fields) as [[| | |s| |]|];
    try (intros [= <-]; eexists; split; [reflexivity|];
         split; [discriminate|discriminate || reflexivity]).
  - destruct (check s) as [v|e] eqn:E; [discriminate|].
    intros [= <-]. exists e. split; [reflexivity|].
    split; [|discriminate]. intros ->. destruct (Hcheck s missing E eq_refl).
  - intros [= <-]. exists missing. split; [reflexivity|]. split; reflexivity.
Qed.

Lemma optional_text_Err (fields : list (str * json))
    (errors : list line_error) :
  models.optional_text fields = Err errors ->
  exists t, errors = [LineError (py "text") t]
            /\ t <> missing /\ obj_get (py "text") fields <> None.
Proof.
  unfold models.optional_text.
  destruct (obj_get (py "text") fields) as [[| | |s| |]|];
    try discriminate;
    try (intros [= <-]; eexists; split; [reflexivity|];
         split; discriminate).
  destruct (4096 <? length s)%nat; [|discriminate].
  intros [= <-]. eexists. split; [reflexivity|]. split; discriminate.
Qed.

Lemma min_length_1_not_missing (s : str) (e : error_type) :
  models.min_length_1 s = Err e -> e <> missing.
Proof.
  unfold models.min_length_1. destruct (length s <? 1)%nat; [|discriminate].
  intros [= <-]. discriminate.
Qed.

Lemma validate_e164_not_missing (s : str) (e : error_type) :
  models.validate_e164 s = Err e -> e <> missing.
Proof.
  unfold models.validate_e164. destruct (re_match E164_RE s); [discriminate|].
  intros [= <-]. discriminate.
Qed.

Lemma validate_iso8601_not_missing (s : str) (e : error_type) :
  models.validate_iso8601 s = Err e -> e <> missing.
Proof.
  unfold models.validate_iso8601.
  destruct (re_match ISO8601_RE s); [discriminate|].
  intros [= <-]. discriminate.
Qed.

Ltac field_error H :=
  first [ destruct (H _ eq_refl) as (? & -> & ?); clear H | clear H ].

Ltac text_error H :=
  first [ destruct (H _ eq_refl) as (? & -> & ? & ?); clear H | clear H ].

Ltac error_line :=
  simpl;
  first [ split; [assumption | intros _; discriminate]
        | split; [split; intros; contradiction | intros; contradiction] ].

(** X30.  A document that is an object and does not validate is reported
    with at least one error line, at most one line for each field, the
    lines in the order the model declares the fields; a line says
    [missing] exactly when the document has no such key, which never
    happens for [text]. *)
Theorem model_validate_reports (fields : list (str * json))
    (errors : list line_error) :
  models.model_validate (JObj fields) = Err errors ->
  errors <> []
  /\ sublist (map loc errors)
       [py "message_id"; py "from"; py "to"; py "ts"; py "text"]
  /\ (forall e, e ∈ errors ->
        (etype e = missing <-> obj_get (loc e) fields = None)
        /\ (etype e = missing -> loc e <> py "text")).
Proof.
  unfold models.model_validate.
  pose proof (required_str_Err (py "message_id") models.min_length_1 fields)
    as H1.
  pose proof (required_str_Err (py "from") models.validate_e164 fields) as H2.
  pose proof (required_str_Err (py "to") models.validate_e164 fields) as H3.
  pose proof (required_str_Err (py "ts") models.validate_iso8601 fields)
    as H4.
  pose proof (optional_text_Err fields) as H5.
  revert H1 H2 H3 H4 H5.
  generalize (models.required_str (py "message_id") models.min_length_1 fields).
  generalize (models.required_str (py "from") models.validate_e164 fields).
  generalize (models.required_str (py "to") models.validate_e164 fields).
  generalize (models.required_str (py "ts") models.validate_iso8601 fields).
  generalize (models.optional_text fields).
  intros r5 r4 r3 r2 r1 H1 H2 H3 H4 H5.
  specialize (fun es => H1 es min_length_1_not_missing).
  specialize (fun es => H2 es validate_e164_not_missing).
  specialize (fun es => H3 es validate_e164_not_missing).
  specialize (fun es => H4 es validate_iso8601_not_missing).
  destruct r1 as [v1|e1], r2 as [v2|e2], r3 as [v3|e3], r4 as [v4|e4],
    r5 as [v5|e5]; cbv zeta; try discriminate;
    intros [= <-];
    field_error H1; field_error H2; field_error H3; field_error H4;
    text_error H5; simpl;
    (split; [discriminate|]);
    (split;
     [ repeat first [ apply sublist_nil | apply sublist_skip
                    | apply sublist_cons ]
     | intros e He; rewrite ?elem_of_cons in He;
       repeat (destruct He as [->|He]); try (inversion He; fail);
       error_line ]).
Qed.

(** ** The further properties at concrete inputs *)

Lemma insert_message_then_lookup_witness :
  storage.has_key (py "msg-d")
    (storage.messages
       (storage.insert_message fixtures.three_messages (py "msg-d")
          (py "+1111111111") (py "+9999999999")
          (py "2024-01-15T16:00:00Z") None
          (py "2024-01-15T16:00:01+00:00")).1) = true.
Proof.
  destruct (insert_message_then_lookup fixtures.three_messages (py "msg-d")
              (py "+1111111111") (py "+9999999999")
              (py "2024-01-15T16:00:00Z") None
              (py "2024-01-15T16:00:01+00:00"))
    as (_ & _ & Hkey & _).
  - reflexivity.
  - apply (bool_decide_unpack _). vm_compute. exact I.
  - exact Hkey.
Defined.

Lemma get_messages_pages_join_witness :
  exists p1 p2 total,
    storage.get_messages fixtures.three_messages 1 0 None None None
      = Ok (p1, total)
    /\ storage.get_messages fixtures.three_messages 1 (0 + 1) None None None
       = Ok (p2, total)
    /\ storage.get_messages fixtures.three_messages (1 + 1) 0 None None None
       = Ok (p1 ++ p2, total).
Proof.
  apply (get_messages_pages_join fixtures.three_messages 1 1 0
           None None None).
  - reflexivity.
  - lia.
  - lia.
  - lia.
  - lia.
Defined.

Lemma get_messages_page_size_witness :
  exists page total,
    storage.get_messages fixtures.three_messages 2 2 None None None
      = Ok (page, total)
    /\ length page = Nat.min (Z.to_nat 2) (total - Z.to_nat 2)
    /\ ((Z.of_nat total <= 2)%Z -> page = []).
Proof.
  apply (get_messages_page_size fixtures.three_messages 2 2 None None None).
  - reflexivity.
  - lia.
  - lia.
Defined.

Lemma get_messages_reaches_every_row_witness :
  exists offset total,
    (0 <= offset < Z.of_nat total)%Z
    /\ storage.get_messages fixtures.three_messages 1 offset
         (Some (py "+1111111111")) None None
       = Ok ([fixtures.row (py "msg-a") (py "+1111111111")
                (py "2024-01-15T14:00:00Z") None], total).
Proof.
  apply (get_messages_reaches_every_row fixtures.three_messages
           (Some (py "+1111111111")) None None).
  - reflexivity.
  - simpl. lia.
  - apply list_elem_of_further, list_elem_of_here.
  - reflexivity.
Defined.

Lemma get_messages_storage_order_witness :
  storage.get_messages fixtures.three_messages 2 1 None None None
  = storage.get_messages three_messages_reversed 2 1 None None None.
Proof.
  apply (get_messages_storage_order fixtures.three_messages
           three_messages_reversed 2 1 None None None).
  - apply Permutation_rev.
  - reflexivity.
  - apply (bool_decide_unpack _). vm_compute. exact I.
Defined.

Lemma get_stats_counts_add_up_witness :
  exists st, storage.get_stats fixtures.three_messages = Ok st
    /\ sum_list_with storage.count (storage.messages_per_sender st)
       = storage.total_messages st.
Proof.
  destruct (get_stats_counts_add_up fixtures.three_messages)
    as (st & Hst & _ & _ & _ & Hsum).
  - reflexivity.
  - exists st. split; [exact Hst|]. apply Hsum.
    injection Hst as <-. vm_compute. lia.
Defined.

Lemma webhook_changes_only_by_insert_witness :
  exists key p,
    encode (config.webhook_secret (main.config fixtures.env)) = Some key
    /\ Some (fixtures.sign (pyb "valid message"))
       = Some (hexdigest (@hmac_sha256 fixtures.stub key
                            (pyb "valid message")))
    /\ models.model_validate_json (RT := fixtures.stub)
         (pyb "valid message") = Ok p.
Proof.
  destruct (webhook_changes_only_by_insert (RT := fixtures.stub)
              fixtures.env (pyb "valid message")
              (Some (fixtures.sign (pyb "valid message"))) fixtures.empty)
    as (key & p & Hk & Hsg & Hp & _).
  - vm_compute. discriminate.
  - exists key, p. split; [exact Hk|]. split; [exact Hsg|exact Hp].
Defined.


Lemma unset_secret_still_accepts_witness :
  let env := {| main.config := startup.Config_init ∅;
                main.now := py "2024-01-15T10:30:01+00:00" |} in
  (main.app (RT := fixtures.stub) env main.GET_health_ready fixtures.empty).1
  = {| main.status_code := 503;
       main.body := main.not_ready (py "missing webhook secret") |}
  /\ (main.app (RT := fixtures.stub) env
        (main.POST_webhook (pyb "valid message")
           (Some (hexdigest (@hmac_sha256 fixtures.stub []
                               (pyb "valid message")))))
        fixtures.empty).1
     = {| main.status_code := 200; main.body := main.status_ok |}.
Proof.
  destruct (unset_secret_still_accepts (RT := fixtures.stub) ∅
              (py "2024-01-15T10:30:01+00:00") (pyb "valid message")
              valid_payload fixtures.empty)
    as (Hready & Hok & _).
  - reflexivity.
  - vm_compute. reflexivity.
  - reflexivity.
  - split; [exact Hready|exact Hok].
Defined.

Lemma metrics_show_request_witness :
  exists before after,
    (server.serve (RT := fixtures.stub) fixtures.env server.GET_metrics
       (server.serve (RT := fixtures.stub) fixtures.env
          (server.routed main.GET_health_live) at_rest).2).1
    = {| server.status_code := 200;
         server.body :=
           server.text_plain
             (before
              ++ metrics.http_line
                   (py "GET", py "/health/live", 200%Z, 1%nat)
              ++ [10] ++ after) |}
    /\ last before = Some 10.
Proof.
  apply (metrics_show_request (RT := fixtures.stub) fixtures.env
           fixtures.env (server.routed main.GET_health_live) at_rest).
  simpl. discriminate.
Defined.

Lemma run_store_integrity_witness :
  NoDup (map storage.message_id
           (storage.messages
              (main.db
                 (server.handlers
                    (run (RT := fixtures.stub) (main.config fixtures.env)
                       [(py "2024-01-15T10:30:01+00:00",
                         server.routed
                           (main.POST_webhook (pyb "valid message")
                              (Some (fixtures.sign (pyb "valid message")))));
                        (py "2024-01-15T10:30:02+00:00",
                         server.routed
                           (main.POST_webhook (pyb "resent message")
                              (Some (fixtures.sign (pyb "resent message")))));
                        (py "2024-01-15T10:30:03+00:00", server.GET_metrics)]
                       at_rest).2)))).
Proof.
  apply (run_store_integrity (RT := fixtures.stub) (main.config fixtures.env)
           _ at_rest).
  simpl. apply NoDup_nil_2.
Defined.

Lemma model_validate_reports_witness :
  sublist
    (map loc [LineError (py "message_id") missing;
              LineError (py "from") missing;
              LineError (py "to") missing;
              LineError (py "ts") missing])
    [py "message_id"; py "from"; py "to"; py "ts"; py "text"].
Proof.
  destruct (model_validate_reports []
              [LineError (py "message_id") missing;
               LineError (py "from") missing;
               LineError (py "to") missing;
               LineError (py "ts") missing])
    as (_ & Horder & _).
  - vm_compute. reflexivity.
  - exact Horder.
Defined.
